(** * The storage engine core of benji: [benji/storage/base.py]

    A shallow embedding of [StorageBase] and [ReadCacheStorageBase] and the
    properties of the storage layer: key codec, transform pipeline, metadata
    envelope, throttle accounting, write and read paths, listing and the read
    cache.

    Conventions of the embedding.
    - Python [str] is [string]; characters are 8-bit code points.
    - Python [bytes] is [list byte]; [len] is a [Z].
    - A method that may raise returns [res]; a method that talks to the backend,
      the token buckets or the disk cache runs in the monad [M] over the
      [World], which keeps the effects an exception leaves behind.
    - Code that lives outside [base.py] (MD5, JSON, HMAC, the KDF, the transform
      registry) is the class [Externals]; the object store that a concrete
      storage implements is the class [Backend]. *)

From Stdlib Require Import ZArith String Ascii List Bool Lia.
From Stdlib Require Import Init.Byte.
From stdpp Require Import base option list gmap strings.

Import ListNotations.
Local Open Scope string_scope.
Local Open Scope Z_scope.

Set Default Proof Using "Type".

(** String concatenation unfolds on a constructor, as list concatenation does. *)
#[local] Arguments String.append _ _ : simpl nomatch.

(** ** Exceptions *)

(** Which check of [check_block_metadata], [_decode_metadata] or
    [_key_to_block_uid] raised the [ValueError]. *)
Inductive value_error : Type :=
  | MetadataSizeMismatch      (* metadata['size'] != block.size *)
  | DataLengthMismatch        (* data_length != block.size *)
  | ChecksumMismatch          (* block.checksum != metadata['checksum'] *)
  | ObjectSizeMismatch        (* data_length != metadata['object_size'] *)
  | InvalidLiteral            (* int(..., 16) *)
  | JSONDecodeError           (* json.loads, a subclass of ValueError *)
  | InvalidMaxWorkers         (* ThreadPoolExecutor(max_workers <= 0) *)
  | AsciiEncodeError.         (* str.encode('ascii'): UnicodeEncodeError, a subclass
                                 of ValueError *)

Inductive runtime_error : Type :=
  | InvalidKeyName            (* the key does not start with the prefix *)
  | InvalidKeyLength          (* len(key) <= len(prefix) + 6 *)
  | InvalidObjectKeyLength.   (* len(object_key) != expected *)

Inductive exn : Type :=
  | ConfigurationError (what : string)
  | InternalError
  | KeyError (key : string)
  | ValueError (what : value_error)
  | RuntimeError (what : runtime_error)
  | IOError (transform_name : string)
  | FileNotFoundError (key : string)
  | FileExistsError
  | AttributeError
  | TypeError                      (* None[:16] *)
  | IntegrityFailure               (* DictHMAC.verify_hexdigest *)
  | OtherError (tag : string).     (* anything else a backend or a transform raises *)

Definition is_FileNotFoundError (e : exn) : bool :=
  match e with FileNotFoundError _ => true | _ => false end.

(** [except (RuntimeError, ValueError)] *)
Definition is_RuntimeError_or_ValueError (e : exn) : bool :=
  match e with RuntimeError _ | ValueError _ => true | _ => false end.

Inductive res (A : Type) : Type :=
  | Ok (a : A)
  | Err (e : exn).
Arguments Ok {A} a.
Arguments Err {A} e.

Definition res_bind {A B} (r : res A) (f : A -> res B) : res B :=
  match r with Ok a => f a | Err e => Err e end.

#[global] Instance res_mret : MRet res := fun _ a => Ok a.
#[global] Instance res_mbind : MBind res := fun _ _ f r => res_bind r f.

#[global] Instance byte_eq_decision : EqDecision byte := Byte.byte_eq_dec.

(** ** Python built-ins used by the storage layer *)
Module Py.

Abbreviation bytes := (list byte).

Definition len {A} (l : list A) : Z := Z.of_nat (length l).

(** Truth value of the objects the code tests with [if x:]. *)
Definition truthy_bytes (o : option bytes) : bool :=
  match o with Some (_ :: _) => true | _ => false end.
Definition truthy_str (o : option string) : bool :=
  match o with Some (String _ _) => true | _ => false end.
Definition truthy_int (o : option Z) : bool :=
  match o with Some n => negb (n =? 0) | None => false end.

(** [s[n:]] for [0 <= n]. *)
Fixpoint drop (n : nat) (s : string) : string :=
  match n, s with
  | O, _ => s
  | S _, EmptyString => EmptyString
  | S n', String _ s' => drop n' s'
  end.

(** [s[:n]] for [0 <= n]. *)
Fixpoint take (n : nat) (s : string) : string :=
  match n, s with
  | O, _ => EmptyString
  | S _, EmptyString => EmptyString
  | S n', String c s' => String c (take n' s')
  end.

(** [s[lo:hi]] for [0 <= lo <= hi]. *)
Definition slice (lo hi : nat) (s : string) : string := take (hi - lo) (drop lo s).

(** [s.startswith(p)] *)
Fixpoint startswith (s p : string) {struct p} : bool :=
  match p, s with
  | EmptyString, _ => true
  | String _ _, EmptyString => false
  | String a p', String b s' => if Ascii.eqb a b then startswith s' p' else false
  end.

(** [s.endswith(p)] *)
Definition endswith (s p : string) : bool :=
  (String.length p <=? String.length s)%nat
  && String.eqb (drop (String.length s - String.length p) s) p.

(** Text is modelled with the characters of code points below 256.  Every
    key the storage layer writes is of that kind, as is every character the
    code gives a meaning of its own to. *)

(** Whether [s.encode('ascii')] returns: no code point above 127. *)
Fixpoint is_ascii (s : string) : bool :=
  match s with
  | EmptyString => true
  | String c s' => (nat_of_ascii c <? 128)%nat && is_ascii s'
  end.

(** [s.encode('utf-8')] for code points below 256: one byte below 128, two
    bytes from there on. *)
Definition utf8_encode_char (c : ascii) : bytes :=
  let n := N_of_ascii c in
  if (n <? 128)%N then [byte_of_ascii c]
  else [byte_of_ascii (ascii_of_N (192 + n / 64)); byte_of_ascii (ascii_of_N (128 + n mod 64))].

Fixpoint utf8_encode (s : string) : bytes :=
  match s with
  | EmptyString => []
  | String c s' => utf8_encode_char c ++ utf8_encode s'
  end.

(** *** [int(s, 16)]

    CPython's [PyLong_FromString] with base 16: surrounding white space, one
    sign, an optional [0x]/[0X] prefix (after which one underscore may stand),
    and hexadecimal digits that single underscores may separate.  Among the
    code points below 256 the white space [int] strips is tab to carriage
    return, the space, U+0085 and U+00A0, and the digits are the ASCII ones.
    Beyond them [int] also strips the white space and reads the decimal
    digits of other scripts; such text is no value of [string], and nothing
    below speaks of it. *)

Definition is_space (c : ascii) : bool :=
  let n := nat_of_ascii c in
  ((9 <=? n) && (n <=? 13) || (n =? 32) || (n =? 133) || (n =? 160))%nat.

Definition hex_digit_value (c : ascii) : option Z :=
  let n := Z.of_nat (nat_of_ascii c) in
  if (48 <=? n) && (n <=? 57) then Some (n - 48)
  else if (97 <=? n) && (n <=? 102) then Some (n - 87)
  else if (65 <=? n) && (n <=? 70) then Some (n - 55)
  else None.

Definition is_hex_digit (c : ascii) : bool :=
  match hex_digit_value c with Some _ => true | None => false end.

Fixpoint skip_spaces (s : string) : string :=
  match s with
  | String c s' => if is_space c then skip_spaces s' else s
  | EmptyString => s
  end.

(** The digit loop: [prev_us] tells that the previous character was an
    underscore, [ndigits] counts the digits seen.  Returns the value, the
    count and the text left, or [None] for a doubled or trailing underscore. *)
Fixpoint scan_digits (s : string) (prev_us : bool) (acc : Z) (ndigits : nat)
  : option (Z * nat * string) :=
  match s with
  | EmptyString => if prev_us then None else Some (acc, ndigits, s)
  | String c s' =>
      if Ascii.eqb c "_" then
        if prev_us then None else scan_digits s' true acc ndigits
      else
        match hex_digit_value c with
        | Some d => scan_digits s' false (acc * 16 + d) (S ndigits)
        | None => if prev_us then None else Some (acc, ndigits, s)
        end
  end.

(** The optional sign. *)
Definition strip_sign (s : string) : bool * string :=
  match s with
  | String c r =>
      if Ascii.eqb c "+" then (false, r)
      else if Ascii.eqb c "-" then (true, r)
      else (false, s)
  | EmptyString => (false, s)
  end.

(** The optional [0x] or [0X], and one underscore after it. *)
Definition strip_0x (s : string) : string :=
  match s with
  | String c0 (String c1 r) =>
      if Ascii.eqb c0 "0" && (Ascii.eqb c1 "x" || Ascii.eqb c1 "X") then
        match r with
        | String c2 r' => if Ascii.eqb c2 "_" then r' else r
        | EmptyString => r
        end
      else s
  | _ => s
  end.

Definition starts_with_underscore (s : string) : bool :=
  match s with String c _ => Ascii.eqb c "_" | EmptyString => false end.

Definition int16 (s : string) : option Z :=
  let '(negative, s2) := strip_sign (skip_spaces s) in
  let s3 := strip_0x s2 in
  if starts_with_underscore s3 then None
  else
    match scan_digits s3 false 0 0 with
    | Some (v, S _, rest) =>
        match skip_spaces rest with
        | EmptyString => Some (if negative then - v else v)
        | String _ _ => None
        end
    | _ => None
    end.

(** The value of a string of hexadecimal digits, most significant first. *)
Fixpoint hex_value (acc : Z) (s : string) : Z :=
  match s with
  | EmptyString => acc
  | String c s' =>
      match hex_digit_value c with
      | Some d => hex_value (acc * 16 + d) s'
      | None => acc
      end
  end.

Fixpoint all_hex (s : string) : bool :=
  match s with
  | EmptyString => true
  | String c s' => is_hex_digit c && all_hex s'
  end.

(** *** ['{:016x}'.format(n)] *)

Definition hex_char (d : Z) : ascii :=
  if d <? 10 then ascii_of_nat (Z.to_nat (48 + d)) else ascii_of_nat (Z.to_nat (87 + d)).

(** The hexadecimal digits of [n >= 0], most significant first, put in front
    of [acc]. *)
Fixpoint hex_digits (fuel : nat) (n : Z) (acc : string) : string :=
  match fuel with
  | O => acc
  | S fuel' =>
      let acc' := String (hex_char (n mod 16)) acc in
      if n / 16 =? 0 then acc' else hex_digits fuel' (n / 16) acc'
  end.

(** [format(n, 'x')] for [n >= 0]. *)
Definition format_x (n : Z) : string := hex_digits (S (Z.to_nat (Z.log2 n))) n "".

Fixpoint zeros (n : nat) : string :=
  match n with O => "" | S n' => String "0" (zeros n') end.

(** Zero padding on the left up to [width] characters. *)
Definition zfill (width : nat) (s : string) : string :=
  zeros (width - String.length s) +:+ s.

Definition format_016x (n : Z) : string :=
  if n <? 0 then String "-" (zfill 15 (format_x (- n))) else zfill 16 (format_x n).

End Py.

(** ** Data model *)

Module BlockUid.
Record t : Type := mk { left : Z; right : Z }.
End BlockUid.
Abbreviation BlockUid := BlockUid.t.

(** [VersionUid], of which the storage layer uses the readable form, a
    token such as [V0000000001]; it is made of ASCII characters. *)
Module VersionUid.
Record t : Type := mk {
  readable : string;
  readable_is_ascii : Py.is_ascii readable = true }.
End VersionUid.
Abbreviation VersionUid := VersionUid.t.

Module DereferencedBlock.
(** [checksum] is [None] where Python has [None]. *)
Record t : Type := mk {
  uid : BlockUid;
  id : Z;
  size : Z;
  checksum : option string }.
End DereferencedBlock.
Abbreviation DereferencedBlock := DereferencedBlock.t.

(** What a transform hands back next to the encapsulated bytes; the storage
    layer only stores it and passes it back. *)
Definition Materials := string.

(** One element of [metadata['transforms']]. *)
Record TransformMetadata : Type := {
  tm_name : string;
  tm_module : string;
  tm_materials : Materials }.

(** The metadata dictionary.  A field is [None] when the key is absent. *)
Module Metadata.
Record t : Type := mk {
  size : option Z;                               (* _SIZE_KEY *)
  object_size : option Z;                        (* _OBJECT_SIZE_KEY *)
  checksum : option string;                      (* _CHECKSUM_KEY *)
  transforms : option (list TransformMetadata);  (* _TRANSFORMS_KEY *)
  hmac : option string }.                        (* _HMAC_KEY *)

Definition set_checksum (c : string) (m : t) : t :=
  mk (size m) (object_size m) (Some c) (transforms m) (hmac m).
Definition set_transforms (l : list TransformMetadata) (m : t) : t :=
  mk (size m) (object_size m) (checksum m) (Some l) (hmac m).
Definition set_hmac (h : string) (m : t) : t :=
  mk (size m) (object_size m) (checksum m) (transforms m) (Some h).
Definition pop_hmac (m : t) : t :=
  mk (size m) (object_size m) (checksum m) (transforms m) None.

(** [bool(metadata)]: a dictionary is true when it has a key. *)
Definition truthy (m : t) : bool :=
  match size m, object_size m, checksum m, transforms m, hmac m with
  | None, None, None, None, None => false
  | _, _, _, _, _ => true
  end.
End Metadata.
Abbreviation Metadata := Metadata.t.

(** [TransformBase]: the capabilities of a transform.  [encapsulate] returns
    [None] (or empty bytes) when it declines. *)
Module TransformBase.
Record t : Type := mk {
  name : string;
  module : string;
  encapsulate : Py.bytes -> res (option Py.bytes * Materials);
  decapsulate : Py.bytes -> Materials -> res Py.bytes }.
End TransformBase.
Abbreviation TransformBase := TransformBase.t.

(** ** Code outside [base.py] *)

Class Externals : Type := {
  (** [hashlib.md5(s.encode('ascii')).hexdigest()] *)
  md5_hexdigest : string -> string;
  (** [json.dumps(metadata, separators=(',', ':')).encode('utf-8')] *)
  json_dumps : Metadata -> Py.bytes;
  (** [json.loads(b.decode('utf-8'))]; [None] when it raises *)
  json_loads : Py.bytes -> option Metadata;
  (** the keyed digest of a metadata dictionary that [DictHMAC] computes *)
  hmac_hexdigest : Py.bytes -> Metadata -> string;
  (** [benji.utils.derive_key(salt, iterations, key_length, password)] *)
  derive_key : Py.bytes -> Z -> Z -> string -> Py.bytes;
  (** [TransformFactory.get_by_name]; [None] when the result is false, which
      is what [_decapsulate] tests it for *)
  get_by_name : string -> option TransformBase }.

(** Modelled from the spec: [benji.storage.dicthmac.DictHMAC] is not part of
    [base.py].  The digest covers every key but [hmac] itself and is stored
    under [hmac]; verification recomputes it and compares. *)
Module DictHMAC.
Record t : Type := mk { hmac_key : string; secret_key : Py.bytes }.

Definition add_hexdigest `{Externals} (h : t) (m : Metadata) : Metadata :=
  Metadata.set_hmac (hmac_hexdigest (secret_key h) (Metadata.pop_hmac m)) m.

Definition verify_hexdigest `{Externals} (h : t) (m : Metadata) : res unit :=
  match Metadata.hmac m with
  | Some d =>
      if String.eqb d (hmac_hexdigest (secret_key h) (Metadata.pop_hmac m))
      then Ok tt else Err IntegrityFailure
  | None => Err IntegrityFailure
  end.
End DictHMAC.
Abbreviation DictHMAC := DictHMAC.t.

(** [bytes.decode('utf-8')], a built-in; it raises [UnicodeDecodeError] on
    bytes that are no UTF-8. *)
Class Utf8Decoder : Type := {
  utf8_decode : Py.bytes -> res string }.

(** ** The backend interface (the abstract methods of [StorageBase]) *)

Class Backend (B : Type) : Type := {
  _write_object : string -> Py.bytes -> B -> res unit * B;
  _read_object : string -> B -> res Py.bytes * B;
  _read_object_length : string -> B -> res Z * B;
  _rm_object : string -> B -> res unit * B;
  _rm_many_objects : list string -> B -> res (list string) * B;
  _list_objects : string -> B -> res (list string) * B }.

(** ** The world a storage object acts on *)

(** [diskcache.Cache].  [_read] stores metadata dictionaries under metadata
    keys and payloads under object keys; the two kinds of entries are kept
    apart by their type.  [get] is a lookup ([None] on a miss), [set] an
    insertion; eviction is the library's business. *)
Module Cache.
Record t : Type := mk {
  metadata_entries : gmap string Metadata;
  data_entries : gmap string Py.bytes }.

Definition get_metadata (c : t) (key : string) : option Metadata := metadata_entries c !! key.
Definition get_data (c : t) (key : string) : option Py.bytes := data_entries c !! key.
Definition set_metadata (key : string) (m : Metadata) (c : t) : t :=
  mk (<[key := m]> (metadata_entries c)) (data_entries c).
Definition set_data (key : string) (d : Py.bytes) (c : t) : t :=
  mk (metadata_entries c) (<[key := d]> (data_entries c)).
End Cache.
Abbreviation Cache := Cache.t.

Module World.
Record t (B : Type) : Type := mk {
  backend : B;
  (** arguments of [read_throttling.consume], latest first *)
  read_throttling : list Z;
  (** arguments of [write_throttling.consume], latest first *)
  write_throttling : list Z;
  (** [self._read_cache], [None] when caching is off *)
  _read_cache : option Cache;
  _use_read_cache : bool }.
Arguments mk {B}.
Arguments backend {B}.
Arguments read_throttling {B}.
Arguments write_throttling {B}.
Arguments _read_cache {B}.
Arguments _use_read_cache {B}.

Definition set_backend {B} (b : B) (w : t B) : t B :=
  mk b (read_throttling w) (write_throttling w) (_read_cache w) (_use_read_cache w).
Definition set_read_throttling {B} (l : list Z) (w : t B) : t B :=
  mk (backend w) l (write_throttling w) (_read_cache w) (_use_read_cache w).
Definition set_write_throttling {B} (l : list Z) (w : t B) : t B :=
  mk (backend w) (read_throttling w) l (_read_cache w) (_use_read_cache w).
Definition set_read_cache {B} (c : option Cache) (w : t B) : t B :=
  mk (backend w) (read_throttling w) (write_throttling w) c (_use_read_cache w).
Definition set_use_read_cache {B} (enable : bool) (w : t B) : t B :=
  mk (backend w) (read_throttling w) (write_throttling w) (_read_cache w) enable.
End World.
Abbreviation World := World.t.

(** Computations that may raise and that change the world. *)
Definition M (B A : Type) : Type := World B -> res A * World B.

#[global] Instance M_ret {B} : MRet (M B) := fun _ a w => (Ok a, w).
#[global] Instance M_bind {B} : MBind (M B) := fun _ _ f m w =>
  match m w with
  | (Ok a, w') => f a w'
  | (Err e, w') => (Err e, w')
  end.

Definition raise {B A} (e : exn) : M B A := fun w => (Err e, w).

(** A pure computation that may raise. *)
Definition lift {B A} (r : res A) : M B A := fun w => (r, w).

(** [try: body  except: handler e] where the handler sees the exception. *)
Definition try_except {B A} (body : M B A) (handler : exn -> M B A) : M B A := fun w =>
  match body w with
  | (Ok a, w') => (Ok a, w')
  | (Err e, w') => handler e w'
  end.

(** [try: body  finally: final]; an exception of [final] replaces the pending one. *)
Definition try_finally {B A} (body : M B A) (final : M B unit) : M B A := fun w =>
  match body w with
  | (r, w') =>
      match final w' with
      | (Ok _, w'') => (r, w'')
      | (Err e, w'') => (Err e, w'')
      end
  end.

(** A call of a backend method. *)
Definition call {B A} (op : B -> res A * B) : M B A := fun w =>
  let '(r, b') := op (World.backend w) in
  (r, World.set_backend b' w).

(** [time.sleep(self.read_throttling.consume(n))] *)
Definition consume_read {B} (n : Z) : M B unit := fun w =>
  (Ok tt, World.set_read_throttling (n :: World.read_throttling w) w).

(** [time.sleep(self.write_throttling.consume(n))] *)
Definition consume_write {B} (n : Z) : M B unit := fun w =>
  (Ok tt, World.set_write_throttling (n :: World.write_throttling w) w).

(** ** [StorageBase] *)

(** The module configuration [__init__] reads.  The keys looked up without a
    default are mandatory in the configuration schema and are plain values. *)
Module Config.
Record t : Type := mk {
  activeTransforms : option (list string);
  simultaneousWrites : Z;
  simultaneousReads : Z;
  bandwidthRead : Z;
  bandwidthWrite : Z;
  consistencyCheckWrites : option bool;
  hmac_key : option Py.bytes;             (* 'hmac.key' *)
  hmac_kdfSalt : option Py.bytes;         (* 'hmac.kdfSalt' *)
  hmac_kdfIterations : option Z;          (* 'hmac.kdfIterations' *)
  hmac_password : option string }.        (* 'hmac.password' *)
End Config.
Abbreviation Config := Config.t.

(** [x is not None], as the integer Python makes of it. *)
Definition int_is_not_None {A} (o : option A) : Z :=
  match o with Some _ => 1 | None => 0 end.

Module StorageBase.

Definition READ_QUEUE_LENGTH : Z := 1.
Definition WRITE_QUEUE_LENGTH : Z := 1.

Definition _TRANSFORMS_KEY : string := "transforms".
Definition _SIZE_KEY : string := "size".
Definition _OBJECT_SIZE_KEY : string := "object_size".
Definition _CHECKSUM_KEY : string := "checksum".
Definition _HMAC_KEY : string := "hmac".

Definition _BLOCKS_PREFIX : string := "blocks/".
Definition _VERSIONS_PREFIX : string := "versions/".

Definition _META_SUFFIX : string := ".meta".

(** The attributes [__init__] sets and no method changes afterwards. *)
Record t : Type := mk {
  _name : string;
  _storage_id : Z;
  _active_transforms : list (option TransformBase);
  _consistency_check_writes : bool;
  _dict_hmac : option DictHMAC;
  bandwidth_read : Z;
  bandwidth_write : Z;
  read_semaphore_value : Z;
  write_semaphore_value : Z }.

Section Methods.
Context `{Externals}.

(** [ThreadPoolExecutor(max_workers=n)] *)
Definition thread_pool_executor (max_workers : Z) : res unit :=
  if max_workers <=? 0 then Err (ValueError InvalidMaxWorkers) else Ok tt.

Definition __init__ (name : string) (storage_id : Z) (module_configuration : Config)
  : res t :=
  let active_transforms :=
    match Config.activeTransforms module_configuration with
    | Some names => map get_by_name names
    | None => []
    end in
  let simultaneous_writes := Config.simultaneousWrites module_configuration in
  let simultaneous_reads := Config.simultaneousReads module_configuration in
  let bandwidth_read := Config.bandwidthRead module_configuration in
  let bandwidth_write := Config.bandwidthWrite module_configuration in
  let consistency_check_writes :=
    default false (Config.consistencyCheckWrites module_configuration) in
  hmac_key ←
    match Config.hmac_key module_configuration with
    | None =>
        let hmac_kdf_salt := Config.hmac_kdfSalt module_configuration in
        let hmac_kdf_iterations := Config.hmac_kdfIterations module_configuration in
        let hmac_password := Config.hmac_password module_configuration in
        let hmac_config_options_count :=
          int_is_not_None hmac_kdf_salt + int_is_not_None hmac_kdf_iterations
          + int_is_not_None hmac_password in
        if (0 <? hmac_config_options_count) && (hmac_config_options_count <? 3) then
          Err (ConfigurationError "Some but not all HMAC of the required configuration keys are set")
        else
          match hmac_kdf_salt, hmac_kdf_iterations, hmac_password with
          | Some salt, Some iterations, Some password =>
              Ok (Some (derive_key salt iterations 32 password))
          | _, _, _ => Ok None
          end
    | Some k => Ok (Some k)
    end;
  let dict_hmac :=
    match hmac_key with
    | Some k => Some (DictHMAC.mk _HMAC_KEY k)
    | None => None
    end in
  _ ← thread_pool_executor simultaneous_reads;
  _ ← thread_pool_executor simultaneous_writes;
  Ok (mk name storage_id active_transforms consistency_check_writes dict_hmac
        bandwidth_read bandwidth_write
        (simultaneous_reads + READ_QUEUE_LENGTH)
        (simultaneous_writes + WRITE_QUEUE_LENGTH)).

(** *** Key codec *)

Definition _to_key (prefix object_key : string) : res string :=
  if negb (Py.is_ascii object_key) then Err (ValueError AsciiEncodeError)
  else
    let digest := md5_hexdigest object_key in
    Ok (prefix +:+ Py.slice 0 2 digest +:+ "/" +:+ Py.slice 2 4 digest +:+ "/" +:+ object_key).

Definition _from_key (prefix key : string) : res string :=
  if negb (Py.startswith key prefix) then Err (RuntimeError InvalidKeyName)
  else
    let pl := String.length prefix in
    if (String.length key <=? pl + 6)%nat then Err (RuntimeError InvalidKeyLength)
    else Ok (Py.drop (pl + 6) key).

(** The object key of a block is made of hexadecimal digits, [-] and, for a
    negative half, a sign: [encode('ascii')] does not raise on it and
    [_to_key] returns, whatever the UID. *)
Definition _block_uid_to_key (block_uid : BlockUid) : string :=
  match _to_key _BLOCKS_PREFIX
          (Py.format_016x (BlockUid.left block_uid) +:+ "-"
           +:+ Py.format_016x (BlockUid.right block_uid)) with
  | Ok key => key
  | Err _ => EmptyString
  end.

(** [int(s, 16)], raising [ValueError]. *)
Definition int_base16 (s : string) : res Z :=
  match Py.int16 s with Some n => Ok n | None => Err (ValueError InvalidLiteral) end.

(** The readable form of a version UID is ASCII: [encode('ascii')] does not
    raise on it and [_to_key] returns. *)
Definition _version_uid_to_key (version_uid : VersionUid) : string :=
  match _to_key _VERSIONS_PREFIX (VersionUid.readable version_uid) with
  | Ok key => key
  | Err _ => EmptyString
  end.

Definition _key_to_block_uid (key : string) : res BlockUid :=
  object_key ← _from_key _BLOCKS_PREFIX key;
  if negb (String.length object_key =? 16 + 1 + 16)%nat then
    Err (RuntimeError InvalidObjectKeyLength)
  else
    left ← int_base16 (Py.slice 0 16 object_key);
    right ← int_base16 (Py.slice 17 (17 + 16) object_key);
    Ok (BlockUid.mk left right).


(** *** Transform pipeline *)

(** The loop of [_encapsulate]; a [None] among the active transforms is
    what [get_by_name] returned for it at construction. *)
Fixpoint encapsulate_loop (transforms : list (option TransformBase)) (data : Py.bytes)
    (transforms_metadata : list TransformMetadata)
  : res (Py.bytes * list TransformMetadata) :=
  match transforms with
  | [] => Ok (data, transforms_metadata)
  | None :: _ => Err AttributeError
  | Some transform :: rest =>
      match TransformBase.encapsulate transform data with
      | Err e => Err e
      | Ok (data_encapsulated, materials) =>
          match data_encapsulated with
          | Some (b :: bs) =>
              encapsulate_loop rest (b :: bs)
                (transforms_metadata ++
                   [ {| tm_name := TransformBase.name transform;
                        tm_module := TransformBase.module transform;
                        tm_materials := materials |} ])
          | _ => encapsulate_loop rest data transforms_metadata
          end
      end
  end.

(** [self._active_transforms] is a list from construction on, so the
    [else] branch of the source is never taken. *)
Definition _encapsulate (self : t) (data : Py.bytes)
  : res (Py.bytes * list TransformMetadata) :=
  encapsulate_loop (_active_transforms self) data [].

(** The body of the loop of [_decapsulate]. *)
Definition decapsulate_element (data : Py.bytes) (element : TransformMetadata)
  : res Py.bytes :=
  let name := tm_name element in
  let module := tm_module element in
  match get_by_name name with
  | Some transform =>
      if negb (String.eqb module (TransformBase.module transform)) then
        Err (ConfigurationError
               "Mismatch between object transform module and configured module")
      else TransformBase.decapsulate transform data (tm_materials element)
  | None => Err (IOError name)
  end.

Fixpoint decapsulate_loop (elements : list TransformMetadata) (data : Py.bytes)
  : res Py.bytes :=
  match elements with
  | [] => Ok data
  | element :: rest =>
      match decapsulate_element data element with
      | Ok data' => decapsulate_loop rest data'
      | Err e => Err e
      end
  end.

Definition _decapsulate (data : Py.bytes) (transforms_metadata : list TransformMetadata)
  : res Py.bytes :=
  decapsulate_loop (rev transforms_metadata) data.

(** *** Metadata envelope *)

Definition _build_metadata (self : t) (size object_size : Z)
    (transforms_metadata : option (list TransformMetadata)) (checksum : option string)
  : Metadata * Py.bytes :=
  let metadata := Metadata.mk (Some size) (Some object_size) None None None in
  let metadata :=
    match checksum with
    | Some (String c cs) => Metadata.set_checksum (String c cs) metadata
    | _ => metadata
    end in
  let metadata :=
    match transforms_metadata with
    | Some (e :: es) => Metadata.set_transforms (e :: es) metadata
    | _ => metadata
    end in
  let metadata :=
    match _dict_hmac self with
    | Some dict_hmac => DictHMAC.add_hexdigest dict_hmac metadata
    | None => metadata
    end in
  (metadata, json_dumps metadata).

Definition _decode_metadata (self : t) (metadata_json : Py.bytes) (key : string)
    (data_length : Z) : res Metadata :=
  match json_loads metadata_json with
  | None => Err (ValueError JSONDecodeError)
  | Some metadata =>
      _ ← match _dict_hmac self with
          | Some dict_hmac => DictHMAC.verify_hexdigest dict_hmac metadata
          | None => Ok tt
          end;
      match Metadata.object_size metadata with
      | None => Err (KeyError _OBJECT_SIZE_KEY)
      | Some object_size =>
          match Metadata.size metadata with
          | None => Err (KeyError _SIZE_KEY)
          | Some _ =>
              if negb (data_length =? object_size) then
                Err (ValueError ObjectSizeMismatch)
              else Ok metadata
          end
      end
  end.

(** *** Checking block metadata *)

Definition check_block_metadata (block : DereferencedBlock) (data_length : option Z)
    (metadata : Metadata) : res unit :=
  match Metadata.size metadata with
  | None => Err (KeyError _SIZE_KEY)
  | Some metadata_size =>
      if negb (metadata_size =? DereferencedBlock.size block) then
        Err (ValueError MetadataSizeMismatch)
      else if Py.truthy_int data_length
              && negb (default 0 data_length =? DereferencedBlock.size block) then
        Err (ValueError DataLengthMismatch)
      else
        match Metadata.checksum metadata with
        | None => Err (KeyError _CHECKSUM_KEY)
        | Some metadata_checksum =>
            if negb (bool_decide (DereferencedBlock.checksum block = Some metadata_checksum))
            then
              (* the message is made of block.checksum[:16] *)
              match DereferencedBlock.checksum block with
              | Some _ => Err (ValueError ChecksumMismatch)
              | None => Err TypeError
              end
            else Ok tt
        end
  end.

End Methods.

Section Effects.
Context `{Externals} {B : Type} `{Backend B}.

Definition _check_write (self : t) (key metadata_key : string) (data_expected : Py.bytes)
  : M B unit :=
  data_actual ← call (_read_object key);
  metadata_actual_json ← call (_read_object metadata_key);
  (* Return value is ignored *)
  _ ← lift (_decode_metadata self metadata_actual_json key (Py.len data_actual));
  (* Comparing encapsulated data here *)
  if negb (bool_decide (data_expected = data_actual)) then raise InternalError
  else mret tt.

(** The handler of the bare [except:] in [_write] and [save_version]: both
    removals sit in one [try], whose [except FileNotFoundError: pass]
    swallows a missing object; then the pending exception [e] is raised
    again. *)
Definition cleanup_and_reraise {A} (key metadata_key : string) (e : exn) : M B A :=
  _ ← try_except
        (_ ← call (_rm_object key);
         call (_rm_object metadata_key))
        (fun e' => if is_FileNotFoundError e' then mret tt else raise e');
  raise e.

Definition _write (self : t) (block : DereferencedBlock) (data : Py.bytes)
  : M B DereferencedBlock :=
  '(data, transforms_metadata) ← lift (_encapsulate self data);
  let '(metadata, metadata_json) :=
    _build_metadata self (DereferencedBlock.size block) (Py.len data)
      (Some transforms_metadata) (DereferencedBlock.checksum block) in
  let key := _block_uid_to_key (DereferencedBlock.uid block) in
  let metadata_key := key +:+ _META_SUFFIX in
  _ ← consume_write (Py.len data + Py.len metadata_json);
  _ ← try_except
        (_ ← call (_write_object key data);
         call (_write_object metadata_key metadata_json))
        (cleanup_and_reraise key metadata_key);
  _ ← (if _consistency_check_writes self
       then _check_write self key metadata_key data
       else mret tt);
  mret block.

(** [save(block, data, sync=True)].  Without [sync] the same [_write] is
    handed to the writer pool. *)
Definition save (self : t) (block : DereferencedBlock) (data : Py.bytes) : M B unit :=
  _ ← _write self block data;
  mret tt.

(** The argument of [read_throttling.consume] in [_read]:
    [len(data) if data else 0 + len(metadata_json)], where the conditional
    expression binds weaker than [+]. *)
Definition read_consumed (data : option Py.bytes) (metadata_json : Py.bytes) : Z :=
  if Py.truthy_bytes data then Py.len (default [] data)
  else 0 + Py.len metadata_json.

Definition _read (self : t) (block : DereferencedBlock) (metadata_only : bool)
  : M B (DereferencedBlock * option Py.bytes * Metadata) :=
  let key := _block_uid_to_key (DereferencedBlock.uid block) in
  let metadata_key := key +:+ _META_SUFFIX in
  '(data, data_length) ←
    (if negb metadata_only then
       data ← call (_read_object key);
       mret (Some data, Py.len data)
     else
       data_length ← call (_read_object_length key);
       mret (None, data_length));
  metadata_json ← call (_read_object metadata_key);
  _ ← consume_read (read_consumed data metadata_json);
  metadata ← lift (_decode_metadata self metadata_json key data_length);
  match Metadata.checksum metadata with
  | None => raise (KeyError _CHECKSUM_KEY)
  | Some _ =>
      data ←
        match negb metadata_only, Metadata.transforms metadata, data with
        | true, Some transforms_metadata, Some d =>
            d' ← lift (_decapsulate d transforms_metadata);
            mret (Some d')
        | _, _, _ => mret data
        end;
      mret (block, data, metadata)
  end.

(** [read(block, sync=True, metadata_only)] of [StorageBase]. *)
Definition read (self : t) (block : DereferencedBlock) (metadata_only : bool)
  : M B (option Py.bytes) :=
  r ← _read self block metadata_only;
  mret (snd (fst r)).

Definition rm (uid : BlockUid) : M B unit :=
  let key := _block_uid_to_key uid in
  let metadata_key := key +:+ _META_SUFFIX in
  try_finally
    (call (_rm_object key))
    (try_except (call (_rm_object metadata_key))
       (fun e => if is_FileNotFoundError e then mret tt else raise e)).

Definition rm_version (version_uid : VersionUid) : M B unit :=
  let key := _version_uid_to_key version_uid in
  let metadata_key := key +:+ _META_SUFFIX in
  try_finally
    (call (_rm_object key))
    (try_except (call (_rm_object metadata_key))
       (fun e => if is_FileNotFoundError e then mret tt else raise e)).

(** [overwrite] is tested for truth, so [None] is [false] here. *)
Definition save_version (self : t) (version_uid : VersionUid) (data : string)
    (overwrite : bool) : M B unit :=
  let key := _version_uid_to_key version_uid in
  let metadata_key := key +:+ _META_SUFFIX in
  _ ← (if negb overwrite then
         fun w =>
           match call (_read_object key) w with
           | (Err e, w') => if is_FileNotFoundError e then (Ok tt, w') else (Err e, w')
           | (Ok _, w') => (Err FileExistsError, w')
           end
       else mret tt);
  let data_bytes := Py.utf8_encode data in
  let size := Py.len data_bytes in
  '(data_bytes, transforms_metadata) ← lift (_encapsulate self data_bytes);
  let '(metadata, metadata_json) :=
    _build_metadata self size (Py.len data_bytes) (Some transforms_metadata) None in
  _ ← try_except
        (_ ← call (_write_object key data_bytes);
         call (_write_object metadata_key metadata_json))
        (cleanup_and_reraise key metadata_key);
  if _consistency_check_writes self
  then _check_write self key metadata_key data_bytes
  else mret tt.

(** The list comprehension of [rm_many]; the first key that does not decode
    raises. *)
Fixpoint keys_to_block_uids (errors : list string) : res (list BlockUid) :=
  match errors with
  | [] => Ok []
  | error :: rest =>
      block_uid ← _key_to_block_uid error;
      block_uids ← keys_to_block_uids rest;
      Ok (block_uid :: block_uids)
  end.

Definition rm_many (uids : list BlockUid) : M B (list BlockUid) :=
  let keys := map _block_uid_to_key uids in
  let metadata_keys := map (fun key => key +:+ _META_SUFFIX) keys in
  errors ← call (_rm_many_objects keys);
  _ ← call (_rm_many_objects metadata_keys);
  lift (keys_to_block_uids errors).

(** The [ValueError] of the last check of [read_version]; no handler of
    [base.py] is around it. *)
Definition original_length_mismatch : exn :=
  OtherError "ValueError: Length mismatch of original data".

Definition read_version `{Utf8Decoder} (self : t) (version_uid : VersionUid) : M B string :=
  let key := _version_uid_to_key version_uid in
  let metadata_key := key +:+ _META_SUFFIX in
  data ← call (_read_object key);
  metadata_json ← call (_read_object metadata_key);
  metadata ← lift (_decode_metadata self metadata_json key (Py.len data));
  data ← match Metadata.transforms metadata with
         | Some transforms_metadata => lift (_decapsulate data transforms_metadata)
         | None => mret data
         end;
  match Metadata.size metadata with
  | None => raise (KeyError _SIZE_KEY)
  | Some size =>
      if negb (Py.len data =? size) then raise original_length_mismatch
      else lift (utf8_decode data)
  end.

(** The loop of [list_blocks]. *)
Fixpoint list_blocks_loop (keys : list string) (block_uids : list BlockUid)
  : res (list BlockUid) :=
  match keys with
  | [] => Ok block_uids
  | key :: rest =>
      if Py.endswith key _META_SUFFIX then list_blocks_loop rest block_uids
      else
        match _key_to_block_uid key with
        | Ok block_uid => list_blocks_loop rest (block_uids ++ [block_uid])
        | Err e =>
            if is_RuntimeError_or_ValueError e then
              (* Ignore any keys which don't match our pattern *)
              list_blocks_loop rest block_uids
            else Err e
        end
  end.

Definition list_blocks : M B (list BlockUid) :=
  keys ← call (_list_objects _BLOCKS_PREFIX);
  lift (list_blocks_loop keys []).

End Effects.
End StorageBase.

(** ** [ReadCacheStorageBase] *)

(** The two keys of the module configuration that
    [ReadCacheStorageBase.__init__] reads itself. *)
Module ReadCacheConfig.
Record t : Type := mk {
  directory : option string;      (* 'readCache.directory' *)
  maximumSize : option Z }.       (* 'readCache.maximumSize' *)
End ReadCacheConfig.
Abbreviation ReadCacheConfig := ReadCacheConfig.t.

(** [os.makedirs(directory, exist_ok=True)] and the constructor of
    [diskcache.Cache], which are not part of [base.py]. *)
Class CacheFactory : Type := {
  makedirs : string -> res unit;
  new_cache : string -> Z -> res Cache }.

Module ReadCacheStorageBase.

(** [__init__]: the attributes of [StorageBase], [self._read_cache] and
    [self._use_read_cache]. *)
Definition __init__ `{Externals} `{CacheFactory} (name : string) (storage_id : Z)
    (module_configuration : Config) (read_cache_configuration : ReadCacheConfig)
  : res (StorageBase.t * option Cache * bool) :=
  let read_cache_directory := ReadCacheConfig.directory read_cache_configuration in
  let read_cache_maximum_size := ReadCacheConfig.maximumSize read_cache_configuration in
  if Py.truthy_str read_cache_directory && negb (Py.truthy_int read_cache_maximum_size)
     || negb (Py.truthy_str read_cache_directory) && Py.truthy_int read_cache_maximum_size
  then
    Err (ConfigurationError
           "Both readCache.directory and readCache.maximumSize need to be set to enable disk based caching.")
  else
    read_cache ←
      (if Py.truthy_str read_cache_directory && Py.truthy_int read_cache_maximum_size then
         match read_cache_directory, read_cache_maximum_size with
         | Some directory, Some maximum_size =>
             _ ← makedirs directory;
             match new_cache directory maximum_size with
             | Ok read_cache => Ok (Some read_cache)
             | Err _ => Ok None     (* Unable to enable disk based read caching *)
             end
         | _, _ => Ok None
         end
       else Ok None);
    (* Start reader and write threads after the disk cached is created *)
    self ← StorageBase.__init__ name storage_id module_configuration;
    Ok (self, read_cache, true).

Section Effects.
Context `{Externals} {B : Type} `{Backend B}.

(** [if self._read_cache is not None: self._read_cache.set(metadata_key, metadata)] *)
Definition cache_set_metadata (key : string) (m : Metadata) : M B unit := fun w =>
  (Ok tt, World.set_read_cache (Cache.set_metadata key m <$> World._read_cache w) w).

(** [self._read_cache.set(key, data)]; [data] is the payload a full read
    has fetched. *)
Definition cache_set_data (key : string) (d : option Py.bytes) : M B unit := fun w =>
  (Ok tt,
   World.set_read_cache
     ((fun c => match d with Some d => Cache.set_data key d c | None => c end)
        <$> World._read_cache w) w).

(** The first part of [_read]: the answer from the cache, if it gives one. *)
Definition read_from_cache (w : World B) (block : DereferencedBlock)
    (key metadata_key : string) (metadata_only : bool)
  : option (DereferencedBlock * option Py.bytes * Metadata) :=
  match World._read_cache w with
  | Some read_cache =>
      if World._use_read_cache w then
        match Cache.get_metadata read_cache metadata_key with
        | Some metadata =>
            if Metadata.truthy metadata && metadata_only then
              Some (block, None, metadata)
            else if Metadata.truthy metadata then
              match Cache.get_data read_cache key with
              | Some (b :: bs) => Some (block, Some (b :: bs), metadata)
              | _ => None
              end
            else None
        | None => None
        end
      else None
  | None => None
  end.

Definition _read (self : StorageBase.t) (block : DereferencedBlock) (metadata_only : bool)
  : M B (DereferencedBlock * option Py.bytes * Metadata) := fun w =>
  let key := StorageBase._block_uid_to_key (DereferencedBlock.uid block) in
  let metadata_key := key +:+ StorageBase._META_SUFFIX in
  match read_from_cache w block key metadata_key metadata_only with
  | Some hit => (Ok hit, w)
  | None =>
      ('(block, data, metadata) ← StorageBase._read self block metadata_only;
       (* We always put blocks into the cache even when self._use_read_cache is False *)
       _ ← cache_set_metadata metadata_key metadata;
       _ ← (if negb metadata_only then cache_set_data key data else mret tt);
       mret (block, data, metadata)) w
  end.

(** [read(block, sync=True, metadata_only)], which calls the [_read] above. *)
Definition read (self : StorageBase.t) (block : DereferencedBlock) (metadata_only : bool)
  : M B (option Py.bytes) :=
  r ← _read self block metadata_only;
  mret (snd (fst r)).

Definition use_read_cache (enable : bool) : M B bool := fun w =>
  let old_value := World._use_read_cache w in
  (Ok old_value, World.set_use_read_cache enable w).

End Effects.
End ReadCacheStorageBase.

(** ** The contract of a backend

    What the storage layer expects of [_write_object], [_read_object] and
    [_read_object_length]: a write that returns has created or overwritten the
    object, a read returns the stored bytes or fails with [FileNotFoundError],
    and neither kind of read changes what is stored. *)
Class BackendContract (B : Type) `{Backend B} : Type := {
  objects : B -> gmap string Py.bytes;
  write_object_stores : forall key data b b',
    _write_object key data b = (Ok tt, b') -> objects b' = <[key := data]> (objects b);
  read_object_returns : forall key b,
    fst (_read_object key b)
    = match objects b !! key with Some d => Ok d | None => Err (FileNotFoundError key) end;
  read_object_keeps : forall key b, objects (snd (_read_object key b)) = objects b;
  read_object_length_returns : forall key b,
    fst (_read_object_length key b)
    = match objects b !! key with
      | Some d => Ok (Py.len d)
      | None => Err (FileNotFoundError key)
      end;
  read_object_length_keeps : forall key b, objects (snd (_read_object_length key b)) = objects b }.

(** What the storage layer expects of [_rm_object]: it removes the object, or
    fails with [FileNotFoundError] when there is none. *)
Class RemovalContract (B : Type) `{BackendContract B} : Type := {
  rm_object_returns : forall key b,
    fst (_rm_object key b)
    = match objects b !! key with Some _ => Ok tt | None => Err (FileNotFoundError key) end;
  rm_object_removes : forall key b, objects (snd (_rm_object key b)) = delete key (objects b) }.

(** ** An in-memory backend

    A backend that keeps its objects in a map, records the calls it receives
    and refuses to write the keys listed in [read_only].  It serves to run the
    storage layer on concrete inputs. *)
Module MemoryBackend.

Inductive request : Type :=
  | WriteObject (key : string)
  | ReadObject (key : string)
  | ReadObjectLength (key : string)
  | RmObject (key : string)
  | RmManyObjects (keys : list string)
  | ListObjects (prefix : string).

Record t : Type := mk {
  store : gmap string Py.bytes;
  read_only : list string;
  requests : list request }.      (* latest first *)

Definition empty : t := mk ∅ [] [].

Definition write_object (key : string) (data : Py.bytes) (b : t) : res unit * t :=
  if bool_decide (key ∈ read_only b) then
    (Err (OtherError "write refused"), mk (store b) (read_only b) (WriteObject key :: requests b))
  else
    (Ok tt, mk (<[key := data]> (store b)) (read_only b) (WriteObject key :: requests b)).

Definition read_object (key : string) (b : t) : res Py.bytes * t :=
  (match store b !! key with Some d => Ok d | None => Err (FileNotFoundError key) end,
   mk (store b) (read_only b) (ReadObject key :: requests b)).

Definition read_object_length (key : string) (b : t) : res Z * t :=
  (match store b !! key with
   | Some d => Ok (Py.len d)
   | None => Err (FileNotFoundError key)
   end,
   mk (store b) (read_only b) (ReadObjectLength key :: requests b)).

Definition rm_object (key : string) (b : t) : res unit * t :=
  match store b !! key with
  | Some _ => (Ok tt, mk (delete key (store b)) (read_only b) (RmObject key :: requests b))
  | None => (Err (FileNotFoundError key), mk (store b) (read_only b) (RmObject key :: requests b))
  end.

Definition rm_many_objects (keys : list string) (b : t) : res (list string) * t :=
  (Ok (filter (fun key => store b !! key = None) keys),
   mk (foldr delete (store b) keys) (read_only b) (RmManyObjects keys :: requests b)).

Definition list_objects (prefix : string) (b : t) : res (list string) * t :=
  (Ok (filter (fun key => Py.startswith key prefix = true) (map fst (map_to_list (store b)))),
   mk (store b) (read_only b) (ListObjects prefix :: requests b)).

#[global] Instance backend : Backend t := {|
  _write_object := write_object;
  _read_object := read_object;
  _read_object_length := read_object_length;
  _rm_object := rm_object;
  _rm_many_objects := rm_many_objects;
  _list_objects := list_objects |}.

(** A world on top of this backend, without a read cache. *)
Definition world (b : t) : World t := World.mk b [] [] None true.

End MemoryBackend.

#[global] Instance memory_backend_contract : BackendContract MemoryBackend.t.
Proof.
  refine {| objects := MemoryBackend.store |}.
  - intros key data b b'. simpl. unfold MemoryBackend.write_object.
    destruct (bool_decide _); [discriminate |]. now intros [= <-].
  - reflexivity.
  - reflexivity.
  - reflexivity.
  - reflexivity.
Defined.

#[global] Instance memory_backend_removal : RemovalContract MemoryBackend.t.
Proof.
  split.
  - intros key b. simpl. unfold MemoryBackend.rm_object.
    now destruct (MemoryBackend.store b !! key).
  - intros key b. simpl. unfold MemoryBackend.rm_object.
    destruct (MemoryBackend.store b !! key) eqn:Hkey; simpl; [reflexivity |].
    symmetry. now apply delete_id.
Defined.

(** ** Sample externals

    Stand-ins for the code outside [base.py], to run the storage layer on
    concrete inputs: a fixed digest for MD5, the metadata written as the binary
    digits of its code for JSON, a digest that tells whether a checksum is
    recorded for the HMAC, and a registry of two transforms. *)
Module Sample.

#[global] Instance transform_metadata_eq_dec : EqDecision TransformMetadata.
Proof. solve_decision. Defined.

#[global] Instance transform_metadata_countable : Countable TransformMetadata :=
  inj_countable'
    (fun e => (tm_name e, tm_module e, tm_materials e))
    (fun p => {| tm_name := p.1.1; tm_module := p.1.2; tm_materials := p.2 |})
    (fun e => match e with Build_TransformMetadata _ _ _ => eq_refl end).

#[global] Instance metadata_eq_dec : EqDecision Metadata.
Proof. solve_decision. Defined.

#[global] Instance metadata_countable : Countable Metadata :=
  inj_countable'
    (fun m => (Metadata.size m, Metadata.object_size m, Metadata.checksum m,
               Metadata.transforms m, Metadata.hmac m))
    (fun p => Metadata.mk p.1.1.1.1 p.1.1.1.2 p.1.1.2 p.1.2 p.2)
    (fun m => match m with Metadata.mk _ _ _ _ _ => eq_refl end).

Fixpoint positive_to_bytes (p : positive) : Py.bytes :=
  match p with
  | xH => []
  | xO p' => x30 :: positive_to_bytes p'
  | xI p' => x31 :: positive_to_bytes p'
  end.

Fixpoint bytes_to_positive (bs : Py.bytes) : option positive :=
  match bs with
  | [] => Some xH
  | x30 :: bs' => xO <$> bytes_to_positive bs'
  | x31 :: bs' => xI <$> bytes_to_positive bs'
  | _ => None
  end.

Definition dumps (m : Metadata) : Py.bytes := positive_to_bytes (encode m).
Definition loads (bs : Py.bytes) : option Metadata := bytes_to_positive bs ≫= decode.

(** Reverses the payload; no materials. *)
Definition reverser : TransformBase :=
  TransformBase.mk "reverser" "sample.reverse"
    (fun data => Ok (Some (rev data), ""))
    (fun data _ => Ok (rev data)).

(** Puts a marker byte in front; declines a payload that starts with [xff]. *)
Definition framer : TransformBase :=
  TransformBase.mk "framer" "sample.frame"
    (fun data => match data with
                 | b :: _ =>
                     if Byte.eqb b xff then Ok (None, "")
                     else Ok (Some (x7e :: data), "framed")
                 | [] => Ok (Some (x7e :: data), "framed")
                 end)
    (fun data _ => match data with
                   | b :: rest =>
                       if Byte.eqb b x7e then Ok rest else Err (OtherError "not framed")
                   | [] => Err (OtherError "not framed")
                   end).

Definition registry (name : string) : option TransformBase :=
  if String.eqb name "reverser" then Some reverser
  else if String.eqb name "framer" then Some framer
  else None.

#[global] Instance externals : Externals := {|
  md5_hexdigest := fun _ => "d41d8cd98f00b204e9800998ecf8427e";
  json_dumps := dumps;
  json_loads := loads;
  hmac_hexdigest := fun secret m =>
    match Metadata.checksum m with Some c => "mac:" +:+ c | None => "mac" end;
  derive_key := fun salt iterations key_length password => salt;
  get_by_name := registry |}.

Definition config : Config :=
  Config.mk (Some ["reverser"; "framer"]) 1 1 0 0 (Some true) None None None None.

(** The block of the round-trip scenario: uid (1, 2), four bytes. *)
Definition block : DereferencedBlock :=
  DereferencedBlock.mk (BlockUid.mk 1 2) 7 4 (Some "abcd").

Definition payload : Py.bytes := [x00; x01; x02; x03].

(** A storage without transforms, HMAC or consistency check. *)
Definition plain_storage : StorageBase.t :=
  StorageBase.mk "sample" 1 [] false None 0 0 2 2.

(** A storage with both transforms, the HMAC and the consistency check. *)
Definition full_storage : StorageBase.t :=
  StorageBase.mk "sample" 1 [Some reverser; Some framer] true
    (Some (DictHMAC.mk "hmac" [x6b])) 0 0 2 2.

End Sample.

(** ** Vocabulary of the properties *)

(** How many of [hmac.kdfSalt], [hmac.kdfIterations], [hmac.password] are set. *)
Definition hmac_kdf_options_set (c : Config) : Z :=
  int_is_not_None (Config.hmac_kdfSalt c) + int_is_not_None (Config.hmac_kdfIterations c)
  + int_is_not_None (Config.hmac_password c).

(** The configuration with the three KDF options taken out. *)
Definition without_kdf_options (c : Config) : Config :=
  Config.mk (Config.activeTransforms c) (Config.simultaneousWrites c)
    (Config.simultaneousReads c) (Config.bandwidthRead c) (Config.bandwidthWrite c)
    (Config.consistencyCheckWrites c) (Config.hmac_key c) None None None.

Definition is_ConfigurationError {A} (r : res A) : bool :=
  match r with Err (ConfigurationError _) => true | _ => false end.

Definition is_Ok {A} (r : res A) : bool :=
  match r with Ok _ => true | Err _ => false end.

(** The two halves of the UID in a key of [list_blocks]: the sixteen
    characters after the prefix and the fan-out, and the sixteen characters
    after the separator. *)
Definition uid_left_text (key : string) : string :=
  Py.slice 0 16 (Py.drop (String.length StorageBase._BLOCKS_PREFIX + 6) key).
Definition uid_right_text (key : string) : string :=
  Py.slice 17 (17 + 16) (Py.drop (String.length StorageBase._BLOCKS_PREFIX + 6) key).

Definition has_non_hex_uid_character (key : string) : bool :=
  negb (Py.all_hex (uid_left_text key) && Py.all_hex (uid_right_text key)).

(** What one key adds to the result of [list_blocks]. *)
Definition listed (key : string) : list BlockUid :=
  if Py.endswith key StorageBase._META_SUFFIX then []
  else match StorageBase._key_to_block_uid key with
       | Ok block_uid => [block_uid]
       | Err _ => []
       end.

Section Vocabulary.
Context `{Externals} {B : Type} `{Backend B} {contract : BackendContract B}.

(** The objects the backend of a world holds. *)
Definition stored_objects (w : World B) : gmap string Py.bytes := objects (World.backend w).

(** What a full [_read] returns. *)
Definition read_full_result (self : StorageBase.t) (block : DereferencedBlock)
    (stored metadata_json : Py.bytes)
  : res (DereferencedBlock * option Py.bytes * Metadata) :=
  let key := StorageBase._block_uid_to_key (DereferencedBlock.uid block) in
  match StorageBase._decode_metadata self metadata_json key (Py.len stored) with
  | Err e => Err e
  | Ok metadata =>
      match Metadata.checksum metadata with
      | None => Err (KeyError StorageBase._CHECKSUM_KEY)
      | Some _ =>
          match Metadata.transforms metadata with
          | Some transforms_metadata =>
              match StorageBase._decapsulate stored transforms_metadata with
              | Ok data => Ok (block, Some data, metadata)
              | Err e => Err e
              end
          | None => Ok (block, Some stored, metadata)
          end
      end
  end.

(** Each active transform is the one registered under its name, and its
    [decapsulate] undoes its [encapsulate]. *)
Definition transforms_invertible (self : StorageBase.t) : Prop :=
  forall transform,
    In (Some transform) (StorageBase._active_transforms self) ->
    get_by_name (TransformBase.name transform) = Some transform
    /\ (forall data encapsulated materials,
          TransformBase.encapsulate transform data = Ok (Some encapsulated, materials) ->
          TransformBase.decapsulate transform encapsulated materials = Ok data).

End Vocabulary.

(** ** Sample inputs *)

(** [hmac.key] and [hmac.kdfSalt] set, the other two KDF options missing. *)
Definition config_key_and_salt : Config :=
  Config.mk None 1 1 0 0 None (Some [x6b]) (Some [x73]) None None.

(** Only [hmac.password] set. *)
Definition config_password_only : Config :=
  Config.mk None 1 1 0 0 None None None None (Some "secret").

(** Recorded by the framer, then by a transform that was registered under
    another module, then by one that is gone. *)
Definition element_framer : TransformMetadata :=
  {| tm_name := "framer"; tm_module := "sample.frame"; tm_materials := "framed" |}.
Definition element_reverser : TransformMetadata :=
  {| tm_name := "reverser"; tm_module := "sample.reverse"; tm_materials := "" |}.
Definition element_moved : TransformMetadata :=
  {| tm_name := "reverser"; tm_module := "legacy.reverse"; tm_materials := "" |}.
Definition element_unknown : TransformMetadata :=
  {| tm_name := "zstd"; tm_module := "benji.transform.zstd"; tm_materials := "" |}.

(** A key whose UID halves are written with the [0x] prefix. *)
Definition key_with_0x : string := "blocks/xx/yy/0x00000000000001-0x00000000000002".

(** A backend with a block, its metadata, a stray object and the key above. *)
Definition backend_with_stray_keys : MemoryBackend.t :=
  MemoryBackend.mk
    (<["blocks/d4/1d/0000000000000001-0000000000000002" := [x00]]>
       (<["blocks/d4/1d/0000000000000001-0000000000000002.meta" := [x7b; x7d]]>
          (<["blocks/xx/yy/not-a-uid" := []]> ∅)))
    [] [].

(** The keys the backend above lists under [blocks/]. *)
Definition stray_keys_listing : list string :=
  Eval vm_compute in
    match fst (MemoryBackend.list_objects StorageBase._BLOCKS_PREFIX backend_with_stray_keys) with
    | Ok keys => keys
    | Err _ => []
    end.

(** The key of the sample block and of its metadata. *)
Definition sample_key : string := "blocks/d4/1d/0000000000000001-0000000000000002".
Definition sample_metadata_key : string := "blocks/d4/1d/0000000000000001-0000000000000002.meta".

(** The world after the sample block is saved by the plain storage. *)
Definition world_after_save : World MemoryBackend.t :=
  snd (StorageBase.save Sample.plain_storage Sample.block Sample.payload
         (MemoryBackend.world MemoryBackend.empty)).

(** The metadata object that save wrote. *)
Definition saved_metadata_json : Py.bytes :=
  default [] (MemoryBackend.store (World.backend world_after_save) !! sample_metadata_key).

(** A backend that holds metadata left over under the sample key, without a
    payload, and that refuses to write the payload. *)
Definition backend_refusing_payload : MemoryBackend.t :=
  MemoryBackend.mk {[ sample_metadata_key := [x7b; x7d] ]} [sample_key] [].

(** Metadata as no backend read would accept it for the HMAC-protected sample
    storage: no HMAC, no checksum, an object size of 99 and a transform that
    is not registered. *)
Definition unchecked_metadata : Metadata :=
  Metadata.mk (Some 4) (Some 99) None (Some [element_unknown]) None.

(** A world whose cache holds that metadata and a payload for the sample block
    and whose backend holds nothing. *)
Definition world_with_warm_cache : World MemoryBackend.t :=
  World.mk MemoryBackend.empty [] []
    (Some (Cache.mk {[ sample_metadata_key := unchecked_metadata ]}
                    {[ sample_key := [x2a] ]}))
    true.

(** A block of no bytes, and a world with an empty cache. *)
Definition empty_block : DereferencedBlock :=
  DereferencedBlock.mk (BlockUid.mk 1 2) 7 0 (Some "abcd").

Definition world_with_cold_cache : World MemoryBackend.t :=
  World.mk MemoryBackend.empty [] [] (Some (Cache.mk ∅ ∅)) true.

(** The world after the empty block is saved and read once through the cache. *)
Definition world_after_first_read : World MemoryBackend.t :=
  snd (ReadCacheStorageBase._read Sample.plain_storage empty_block false
         (snd (StorageBase.save Sample.plain_storage empty_block [] world_with_cold_cache))).

(** The sample block without a checksum. *)
Definition block_without_checksum : DereferencedBlock :=
  DereferencedBlock.mk (BlockUid.mk 1 2) 7 4 None.

(** Three bytes for the sample block, which declares four. *)
Definition short_payload : Py.bytes := [x00; x01; x02].

(** The sample block with an empty checksum. *)
Definition block_with_empty_checksum : DereferencedBlock :=
  DereferencedBlock.mk (BlockUid.mk 1 2) 7 4 (Some "").

(** The metadata dictionary found in the backend after a save. *)
Definition metadata_saved_for (block : DereferencedBlock) (data : Py.bytes) : option Metadata :=
  MemoryBackend.store
    (World.backend (snd (StorageBase.save Sample.plain_storage block data
                           (MemoryBackend.world MemoryBackend.empty))))
    !! sample_metadata_key
  ≫= json_loads.

(** ** Vocabulary and sample inputs of the further properties *)

(** How a payload goes through a list of transforms, and what is recorded.
    A transform is handed the payload as the transforms before it left it.
    When it returns bytes, and not none, these are the payload from there on
    and its name, its module and the materials it returned are recorded;
    when it returns [None] or no bytes the payload stays and nothing is
    recorded. *)
Inductive encapsulated
  : list TransformBase -> Py.bytes -> Py.bytes -> list TransformMetadata -> Prop :=
  | encapsulated_nil (data : Py.bytes) :
      encapsulated [] data data []
  | encapsulated_taken (transform : TransformBase) (transforms : list TransformBase)
      (data : Py.bytes) (b : byte) (bs : Py.bytes) (materials : Materials)
      (stored : Py.bytes) (recorded : list TransformMetadata) :
      TransformBase.encapsulate transform data = Ok (Some (b :: bs), materials) ->
      encapsulated transforms (b :: bs) stored recorded ->
      encapsulated (transform :: transforms) data stored
        ({| tm_name := TransformBase.name transform;
            tm_module := TransformBase.module transform;
            tm_materials := materials |} :: recorded)
  | encapsulated_declined (transform : TransformBase) (transforms : list TransformBase)
      (data : Py.bytes) (declined : option Py.bytes) (materials : Materials)
      (stored : Py.bytes) (recorded : list TransformMetadata) :
      TransformBase.encapsulate transform data = Ok (declined, materials) ->
      Py.truthy_bytes declined = false ->
      encapsulated transforms data stored recorded ->
      encapsulated (transform :: transforms) data stored recorded.

(** What a [_read] of the metadata alone returns. *)
Definition read_metadata_only_result `{Externals} (self : StorageBase.t)
    (block : DereferencedBlock) (stored metadata_json : Py.bytes)
  : res (DereferencedBlock * option Py.bytes * Metadata) :=
  let key := StorageBase._block_uid_to_key (DereferencedBlock.uid block) in
  match StorageBase._decode_metadata self metadata_json key (Py.len stored) with
  | Err e => Err e
  | Ok metadata =>
      match Metadata.checksum metadata with
      | None => Err (KeyError StorageBase._CHECKSUM_KEY)
      | Some _ => Ok (block, None, metadata)
      end
  end.

(** The HMAC of the metadata verifies, where the storage has a key. *)
Definition hmac_verifies `{Externals} (self : StorageBase.t) (metadata : Metadata) : Prop :=
  match StorageBase._dict_hmac self with
  | Some dict_hmac => DictHMAC.verify_hexdigest dict_hmac metadata = Ok tt
  | None => True
  end.

(** The backend after the sample block was saved, with the last byte of the
    payload cut off. *)
Definition world_with_truncated_payload : World MemoryBackend.t :=
  MemoryBackend.world
    (MemoryBackend.mk
       (<[sample_key := short_payload]> (MemoryBackend.store (World.backend world_after_save)))
       [] []).

(** A backend that refuses to write the metadata object of the sample block. *)
Definition backend_refusing_metadata : MemoryBackend.t :=
  MemoryBackend.mk ∅ [sample_metadata_key] [].

(** A UTF-8 decoder for the code points below 256, the ones [Py.utf8_encode]
    writes. *)
Fixpoint sample_utf8_decode (bs : Py.bytes) : res string :=
  match bs with
  | [] => Ok ""
  | b :: rest =>
      let n := Byte.to_N b in
      if (n <? 128)%N then
        s ← sample_utf8_decode rest;
        Ok (String (ascii_of_byte b) s)
      else
        match rest with
        | b2 :: rest' =>
            let n2 := Byte.to_N b2 in
            if ((194 <=? n) && (n <=? 195) && (128 <=? n2) && (n2 <? 192))%N then
              s ← sample_utf8_decode rest';
              Ok (String (ascii_of_N ((n - 192) * 64 + (n2 - 128))) s)
            else Err (OtherError "UnicodeDecodeError")
        | [] => Err (OtherError "UnicodeDecodeError")
        end
  end.

#[global] Instance sample_utf8_decoder : Utf8Decoder := {| utf8_decode := sample_utf8_decode |}.

(** A version and its text, with one character beyond ASCII. *)
Definition sample_version : VersionUid := VersionUid.mk "V0000000001" eq_refl.
Definition sample_text : string := "caf" +:+ String (ascii_of_N 233) " au lait".

(** A computation keeps the part [proj] of the world. *)
Definition keeps {B X A} (proj : World B -> X) (m : M B A) : Prop :=
  forall w, proj (snd (m w)) = proj w.

(** The read cache and the switch of [use_read_cache]. *)
Definition cache_state {B} (w : World B) : option Cache * bool :=
  (World._read_cache w, World._use_read_cache w).

(** The world with the warm cache after [rm] of the sample block. *)
Definition world_with_warm_cache_after_rm : World MemoryBackend.t :=
  snd (StorageBase.rm (DereferencedBlock.uid Sample.block) world_with_warm_cache).

(** The world with an empty cache after the sample block is saved. *)
Definition world_saved_with_cold_cache : World MemoryBackend.t :=
  snd (StorageBase.save Sample.plain_storage Sample.block Sample.payload world_with_cold_cache).

(** Both halves of the UID are 64-bit numbers. *)
Definition uid_in_range (block_uid : BlockUid) : Prop :=
  0 <= BlockUid.left block_uid < 2 ^ 64 /\ 0 <= BlockUid.right block_uid < 2 ^ 64.

(** A backend that hands every payload back reversed: what it returns is not
    what was written to it.  Metadata objects come back as they are. *)
Module ScramblingBackend.
Record t : Type := mk { inner : MemoryBackend.t }.

Definition wrap {A} (r : res A * MemoryBackend.t) : res A * t := (fst r, mk (snd r)).

Definition read_object (key : string) (b : t) : res Py.bytes * t :=
  match MemoryBackend.read_object key (inner b) with
  | (Ok d, b') => (Ok (if Py.endswith key StorageBase._META_SUFFIX then d else rev d), mk b')
  | (Err e, b') => (Err e, mk b')
  end.

#[global] Instance backend : Backend t := {|
  _write_object := fun key data b => wrap (MemoryBackend.write_object key data (inner b));
  _read_object := read_object;
  _read_object_length := fun key b => wrap (MemoryBackend.read_object_length key (inner b));
  _rm_object := fun key b => wrap (MemoryBackend.rm_object key (inner b));
  _rm_many_objects := fun keys b => wrap (MemoryBackend.rm_many_objects keys (inner b));
  _list_objects := fun prefix b => wrap (MemoryBackend.list_objects prefix (inner b)) |}.

Definition world : World t := World.mk (mk MemoryBackend.empty) [] [] None true.
End ScramblingBackend.

(** A storage without transforms or HMAC, with the consistency check. *)
Definition checking_storage : StorageBase.t :=
  StorageBase.mk "sample" 1 [] true None 0 0 2 2.

(** A cache factory that cannot make directories under [/ro] and cannot
    construct a cache of a negative size. *)
#[global] Instance sample_cache_factory : CacheFactory := {|
  makedirs := fun directory =>
    if Py.startswith directory "/ro" then Err (OtherError "PermissionError") else Ok tt;
  new_cache := fun directory maximum_size =>
    if maximum_size <? 0 then Err (OtherError "cache") else Ok (Cache.mk ∅ ∅) |}.

(** The storage that the sample configuration makes. *)
Definition storage_of_sample_config : StorageBase.t :=
  StorageBase.mk "sample" 1 [Some Sample.reverser; Some Sample.framer] true None 0 0 2 2.

(** The keys of a listing that are no metadata keys. *)
Definition payload_keys (keys : list string) : list string :=
  List.filter (fun key => negb (Py.endswith key StorageBase._META_SUFFIX)) keys.

(** * Properties *)

(** ** Strings *)

Section StringFacts.

Lemma length_app (s t : string) :
  String.length (s +:+ t) = (String.length s + String.length t)%nat.
Proof. induction s as [|c s IH]; simpl; [reflexivity | now rewrite IH]. Qed.

Lemma startswith_app (p s : string) : Py.startswith (p +:+ s) p = true.
Proof.
  induction p as [|c p IH]; simpl; [reflexivity |].
  now rewrite Ascii.eqb_refl.
Qed.

Lemma drop_app (p s : string) (n : nat) :
  Py.drop (String.length p + n) (p +:+ s) = Py.drop n s.
Proof. induction p as [|c p IH]; simpl; [reflexivity | exact IH]. Qed.

Lemma drop_length_app (p s : string) : Py.drop (String.length p) (p +:+ s) = s.
Proof.
  replace (String.length p) with (String.length p + 0)%nat by lia.
  rewrite drop_app. now destruct s.
Qed.

Lemma take_length_app (p s : string) : Py.take (String.length p) (p +:+ s) = p.
Proof. induction p as [|c p IH]; simpl; [reflexivity | now rewrite IH]. Qed.

Lemma length_drop (n : nat) (s : string) :
  String.length (Py.drop n s) = (String.length s - n)%nat.
Proof.
  revert s; induction n as [|n IH]; intros [|c s]; simpl; try reflexivity.
  apply IH.
Qed.

Lemma app_assoc_str (a b c : string) : (a +:+ b) +:+ c = a +:+ (b +:+ c).
Proof. induction a as [|x a IH]; simpl; [reflexivity | now rewrite IH]. Qed.

(** A key and its metadata key are different objects. *)
Lemma meta_suffix_ne (key : string) : key +:+ StorageBase._META_SUFFIX <> key.
Proof.
  intros Heq. apply (f_equal String.length) in Heq.
  rewrite length_app in Heq. simpl in Heq. lia.
Qed.

End StringFacts.

(** ** Key codec *)

Section KeyCodec.

Lemma from_key_ok (prefix key : string) :
  Py.startswith key prefix = true ->
  (String.length prefix + 6 < String.length key)%nat ->
  StorageBase._from_key prefix key = Ok (Py.drop (String.length prefix + 6) key).
Proof.
  intros Hp Hl. unfold StorageBase._from_key. rewrite Hp. simpl.
  destruct (Nat.leb_spec (String.length key) (String.length prefix + 6)); [lia | reflexivity].
Qed.

Lemma from_key_wrong_prefix (prefix key : string) :
  Py.startswith key prefix = false ->
  StorageBase._from_key prefix key = Err (RuntimeError InvalidKeyName).
Proof. intros Hp. unfold StorageBase._from_key. now rewrite Hp. Qed.

Lemma from_key_short (prefix key : string) :
  Py.startswith key prefix = true ->
  (String.length key <= String.length prefix + 6)%nat ->
  StorageBase._from_key prefix key = Err (RuntimeError InvalidKeyLength).
Proof.
  intros Hp Hl. unfold StorageBase._from_key. rewrite Hp. simpl.
  destruct (Nat.leb_spec (String.length key) (String.length prefix + 6)); [reflexivity | lia].
Qed.

(** C7 (defect).  A key made of the prefix and exactly six more characters
    has [len(prefix) + 6] characters, the length the error message of
    [_from_key] asks for ("expected at least [pl + 6] characters"), and it
    is rejected all the same: the test is [len(key) <= pl + 6]. *)
Theorem C7_from_key_rejects_length_prefix_plus_6 :
  forall (prefix : string) (c1 c2 c3 c4 c5 c6 : ascii),
    let key := prefix +:+ String c1 (String c2 (String c3 (String c4 (String c5 (String c6 ""))))) in
    Py.startswith key prefix = true
    /\ String.length key = (String.length prefix + 6)%nat
    /\ StorageBase._from_key prefix key = Err (RuntimeError InvalidKeyLength).
Proof.
  intros prefix c1 c2 c3 c4 c5 c6 key.
  assert (Hp : Py.startswith key prefix = true) by apply startswith_app.
  assert (Hl : String.length key = (String.length prefix + 6)%nat)
    by (unfold key; now rewrite length_app).
  repeat split; [exact Hp | exact Hl |].
  apply from_key_short; [exact Hp | lia].
Qed.

End KeyCodec.

Example from_key_boundary :
  StorageBase._from_key "blocks/" "blocks/ab/cd/" = Err (RuntimeError InvalidKeyLength).
Proof. reflexivity. Qed.

Example from_key_strips :
  StorageBase._from_key "blocks/" "blocks/ab/cd/e" = Ok "e".
Proof. reflexivity. Qed.

(** ** [check_block_metadata] *)

Section CheckBlockMetadata.

Lemma check_block_metadata_size_mismatch block data_length metadata n :
  Metadata.size metadata = Some n ->
  n <> DereferencedBlock.size block ->
  StorageBase.check_block_metadata block data_length metadata
  = Err (ValueError MetadataSizeMismatch).
Proof.
  intros Hs Hn. unfold StorageBase.check_block_metadata. rewrite Hs.
  destruct (Z.eqb_spec n (DereferencedBlock.size block)); [contradiction | reflexivity].
Qed.

Lemma check_block_metadata_data_length_mismatch block data_length metadata :
  Metadata.size metadata = Some (DereferencedBlock.size block) ->
  data_length <> 0 ->
  data_length <> DereferencedBlock.size block ->
  StorageBase.check_block_metadata block (Some data_length) metadata
  = Err (ValueError DataLengthMismatch).
Proof.
  intros Hs H0 Hn. unfold StorageBase.check_block_metadata. rewrite Hs, Z.eqb_refl. simpl.
  destruct (Z.eqb_spec data_length 0); [contradiction |].
  destruct (Z.eqb_spec data_length (DereferencedBlock.size block)); [contradiction |].
  reflexivity.
Qed.

Lemma check_block_metadata_checksum_mismatch block metadata c :
  Metadata.size metadata = Some (DereferencedBlock.size block) ->
  Metadata.checksum metadata = Some c ->
  is_Some (DereferencedBlock.checksum block) ->
  DereferencedBlock.checksum block <> Some c ->
  StorageBase.check_block_metadata block None metadata
  = Err (ValueError ChecksumMismatch).
Proof.
  intros Hs Hc Hb Hn. unfold StorageBase.check_block_metadata.
  rewrite Hs, Z.eqb_refl, Hc. simpl.
  rewrite bool_decide_eq_false_2 by exact Hn. simpl.
  now destruct Hb as [c' ->].
Qed.

(** C6 (defect).  A data length of zero is never compared with the size of
    the block: [if data_length and ...] takes [0] for an absent length.  A
    block of any size [n], also [n <> 0], passes with [data_length = 0] when
    the metadata agrees with the block; at [n = 4] the claim asks for a value
    error naming the data length. *)
Theorem C6_zero_data_length_is_not_checked :
  (forall uid id n c object_size transforms hmac,
      StorageBase.check_block_metadata
        (DereferencedBlock.mk uid id n (Some c)) (Some 0)
        (Metadata.mk (Some n) object_size (Some c) transforms hmac)
      = Ok tt)
  /\ StorageBase.check_block_metadata
       (DereferencedBlock.mk (BlockUid.mk 1 2) 7 4 (Some "abcd")) (Some 0)
       (Metadata.mk (Some 4) (Some 4) (Some "abcd") None None)
     = Ok tt
  /\ StorageBase.check_block_metadata
       (DereferencedBlock.mk (BlockUid.mk 1 2) 7 4 (Some "abcd")) (Some 3)
       (Metadata.mk (Some 4) (Some 4) (Some "abcd") None None)
     = Err (ValueError DataLengthMismatch).
Proof.
  split; [| split; reflexivity].
  intros uid id n c object_size transforms hmac.
  unfold StorageBase.check_block_metadata. simpl.
  rewrite Z.eqb_refl. simpl.
  now rewrite bool_decide_eq_true_2.
Qed.

End CheckBlockMetadata.

(** ** Construction: the HMAC options *)

Section Init.
Context `{Externals}.

(** C4, as amended.  Without [hmac.key], a configuration that sets some but
    not all of the three KDF options is refused with a configuration error.
    With [hmac.key] set the KDF options are not read: construction gives what
    it gives for the configuration without them, the same storage or the
    same error. *)
Theorem C4_partial_kdf_options_refused_without_hmac_key :
  forall (name : string) (storage_id : Z) (c : Config),
    (Config.hmac_key c = None ->
     0 < hmac_kdf_options_set c < 3 ->
     is_ConfigurationError (StorageBase.__init__ name storage_id c) = true)
    /\ (forall k, Config.hmac_key c = Some k ->
        StorageBase.__init__ name storage_id c
        = StorageBase.__init__ name storage_id (without_kdf_options c)).
Proof.
  intros name storage_id c. split.
  - intros Hk Hn. unfold StorageBase.__init__, hmac_kdf_options_set in *. rewrite Hk.
    destruct (Config.hmac_kdfSalt c), (Config.hmac_kdfIterations c), (Config.hmac_password c);
      simpl in *; try reflexivity; lia.
  - intros k Hk. unfold StorageBase.__init__, without_kdf_options. simpl. now rewrite Hk.
Qed.

(** The transforms a constructed storage is given are registered under their
    names, when the registry hands out each transform under its own name. *)
Lemma init_transforms_registered (name : string) (storage_id : Z) (c : Config)
    (self : StorageBase.t) :
  (forall n transform, get_by_name n = Some transform -> TransformBase.name transform = n) ->
  StorageBase.__init__ name storage_id c = Ok self ->
  forall transform,
    In (Some transform) (StorageBase._active_transforms self) ->
    get_by_name (TransformBase.name transform) = Some transform.
Proof.
  intros Hreg Hinit transform Hin.
  assert (Hactive : StorageBase._active_transforms self
                    = match Config.activeTransforms c with
                      | Some names => map get_by_name names
                      | None => []
                      end).
  { unfold StorageBase.__init__ in Hinit.
    destruct (match Config.hmac_key c with Some k => _ | None => _ end) as [k|e];
      [| discriminate].
    cbn [mbind res_mbind res_bind] in Hinit.
    destruct (StorageBase.thread_pool_executor (Config.simultaneousReads c)); [| discriminate].
    cbn [mbind res_mbind res_bind] in Hinit.
    destruct (StorageBase.thread_pool_executor (Config.simultaneousWrites c)); [| discriminate].
    cbn [mbind res_mbind res_bind] in Hinit. now injection Hinit as <-. }
  rewrite Hactive in Hin. destruct (Config.activeTransforms c) as [names|]; [| contradiction].
  apply in_map_iff in Hin as (n & Hn & _).
  now rewrite (Hreg n transform Hn).
Qed.

End Init.

(** The sample configuration builds a storage with both sample transforms. *)
Example init_sample_config :
  StorageBase._active_transforms <$>
    (match StorageBase.__init__ "sample" 1 Sample.config with
     | Ok self => Some self
     | Err _ => None
     end)
  = Some [Some Sample.reverser; Some Sample.framer].
Proof. reflexivity. Qed.

(** C4, as stated, fails: with [hmac.key] set next to one KDF option,
    construction succeeds and the HMAC uses the key. *)
Lemma C4_counterexample :
  hmac_kdf_options_set config_key_and_salt = 1
  /\ is_ConfigurationError (StorageBase.__init__ "storage" 1 config_key_and_salt) = false
  /\ StorageBase._dict_hmac <$>
       (match StorageBase.__init__ "storage" 1 config_key_and_salt with
        | Ok self => Some self
        | Err _ => None
        end)
     = Some (Some (DictHMAC.mk "hmac" [x6b])).
Proof. repeat split; reflexivity. Qed.

(** A password alone is refused; a key next to a salt gives what the key
    alone gives. *)
Lemma C4_witness :
  Config.hmac_key config_password_only = None
  /\ 0 < hmac_kdf_options_set config_password_only < 3
  /\ is_ConfigurationError (StorageBase.__init__ "storage" 1 config_password_only) = true
  /\ StorageBase.__init__ "storage" 1 config_key_and_salt
     = StorageBase.__init__ "storage" 1 (without_kdf_options config_key_and_salt).
Proof.
  pose proof (C4_partial_kdf_options_refused_without_hmac_key "storage" 1 config_password_only)
    as [Hnone _].
  pose proof (C4_partial_kdf_options_refused_without_hmac_key "storage" 1 config_key_and_salt)
    as [_ Hsome].
  assert (Hn : 0 < hmac_kdf_options_set config_password_only < 3) by (vm_compute; split; reflexivity).
  split; [reflexivity |]. split; [exact Hn |].
  split; [exact (Hnone eq_refl Hn) | exact (Hsome [x6b] eq_refl)].
Defined.

(** ** Transform pipeline *)

Section Decapsulate.
Context `{Externals}.

Lemma decapsulate_loop_app (l1 l2 : list TransformMetadata) (data : Py.bytes) :
  StorageBase.decapsulate_loop (l1 ++ l2) data
  = res_bind (StorageBase.decapsulate_loop l1 data) (StorageBase.decapsulate_loop l2).
Proof.
  revert data; induction l1 as [|e l1 IH]; intros data; simpl; [reflexivity |].
  destruct (StorageBase.decapsulate_element data e); simpl; [apply IH | reflexivity].
Qed.

(** The last recorded element is undone first. *)
Lemma decapsulate_snoc (data : Py.bytes) (elements : list TransformMetadata)
    (element : TransformMetadata) :
  StorageBase._decapsulate data (elements ++ [element])
  = res_bind (StorageBase.decapsulate_element data element)
      (fun data' => StorageBase._decapsulate data' elements).
Proof. unfold StorageBase._decapsulate. now rewrite rev_app_distr. Qed.

(** The elements after [element] in the list are undone before it. *)
Lemma decapsulate_middle (data : Py.bytes) (before after : list TransformMetadata)
    (element : TransformMetadata) :
  StorageBase._decapsulate data (before ++ element :: after)
  = res_bind (StorageBase._decapsulate data after)
      (fun data' => res_bind (StorageBase.decapsulate_element data' element)
                      (fun data'' => StorageBase._decapsulate data'' before)).
Proof.
  unfold StorageBase._decapsulate.
  rewrite rev_app_distr. simpl. rewrite <- app_assoc. simpl.
  rewrite decapsulate_loop_app.
  destruct (StorageBase.decapsulate_loop (rev after) data) as [data'|e]; simpl; [| reflexivity].
  destruct (StorageBase.decapsulate_element data' element); reflexivity.
Qed.

(** What [_decapsulate] does at one recorded element. *)
Lemma decapsulate_element_applies (data : Py.bytes) (element : TransformMetadata)
    (transform : TransformBase) :
  get_by_name (tm_name element) = Some transform ->
  tm_module element = TransformBase.module transform ->
  StorageBase.decapsulate_element data element
  = TransformBase.decapsulate transform data (tm_materials element).
Proof.
  intros Hreg Hmod. unfold StorageBase.decapsulate_element.
  now rewrite Hreg, Hmod, String.eqb_refl.
Qed.

(** C8.  [_decapsulate] walks the recorded list from its last element to its
    first: at an element it has the payload as the elements recorded after
    it were undone, hands it with the recorded materials to [decapsulate] of
    the transform registered under the recorded name, and goes on with the
    result to the elements recorded before.  An element whose recorded
    module is not the module of the registered transform makes it fail, with
    a configuration error once the elements recorded after it are undone; an
    element whose name is not registered makes it fail, with the
    unknown-transform error ([IOError]) in the same way. *)
Theorem C8_decapsulate_reverse_order_and_errors :
  forall (data : Py.bytes) (before after : list TransformMetadata)
         (element : TransformMetadata),
    StorageBase._decapsulate data [] = Ok data
    /\ (forall transform,
          get_by_name (tm_name element) = Some transform ->
          tm_module element = TransformBase.module transform ->
          StorageBase._decapsulate data (before ++ element :: after)
          = (undone ← StorageBase._decapsulate data after;
             decapsulated ← TransformBase.decapsulate transform undone (tm_materials element);
             StorageBase._decapsulate decapsulated before))
    /\ (forall transform,
          get_by_name (tm_name element) = Some transform ->
          tm_module element <> TransformBase.module transform ->
          is_Ok (StorageBase._decapsulate data (before ++ element :: after)) = false
          /\ (is_Ok (StorageBase._decapsulate data after) = true ->
              is_ConfigurationError
                (StorageBase._decapsulate data (before ++ element :: after)) = true))
    /\ (get_by_name (tm_name element) = None ->
        is_Ok (StorageBase._decapsulate data (before ++ element :: after)) = false
        /\ (is_Ok (StorageBase._decapsulate data after) = true ->
            StorageBase._decapsulate data (before ++ element :: after)
            = Err (IOError (tm_name element)))).
Proof.
  intros data before after element.
  split; [reflexivity |]. split; [| split].
  - intros transform Hreg Hmod. rewrite decapsulate_middle.
    unfold mbind, res_mbind.
    destruct (StorageBase._decapsulate data after) as [undone|e]; simpl; [| reflexivity].
    now rewrite (decapsulate_element_applies undone element transform Hreg Hmod).
  - intros transform Hreg Hmod. rewrite decapsulate_middle.
    destruct (StorageBase._decapsulate data after) as [data'|e]; simpl.
    + unfold StorageBase.decapsulate_element. rewrite Hreg.
      destruct (String.eqb_spec (tm_module element) (TransformBase.module transform));
        [contradiction |].
      simpl. split; [reflexivity | intros _; reflexivity].
    + split; [reflexivity | discriminate].
  - intros Hreg. rewrite decapsulate_middle.
    destruct (StorageBase._decapsulate data after) as [data'|e]; simpl.
    + unfold StorageBase.decapsulate_element. rewrite Hreg.
      simpl. split; [reflexivity | intros _; reflexivity].
    + split; [reflexivity | discriminate].
Qed.

End Decapsulate.

(** With the framer recorded last and undone first: the frame is taken off
    and the rest reversed; the element of the moved transform raises the
    configuration error, the unknown one the [IOError], whichever of the two
    comes later in the list. *)
Lemma C8_witness :
  StorageBase._decapsulate [x7e; x03; x02; x01] [element_reverser; element_framer]
  = Ok [x01; x02; x03]
  /\ is_ConfigurationError
       (StorageBase._decapsulate [x7e; x01] [element_unknown; element_moved; element_framer])
     = true
  /\ StorageBase._decapsulate [x7e; x01] [element_moved; element_unknown; element_framer]
     = Err (IOError "zstd").
Proof.
  pose proof (C8_decapsulate_reverse_order_and_errors [x7e; x03; x02; x01]
                [element_reverser] [] element_framer) as (_ & Hframer & _).
  pose proof (C8_decapsulate_reverse_order_and_errors [x7e; x01]
                [element_unknown] [element_framer] element_moved) as (_ & _ & Hmoved & _).
  pose proof (C8_decapsulate_reverse_order_and_errors [x7e; x01]
                [element_moved] [element_framer] element_unknown) as (_ & _ & _ & Hunknown).
  split; [| split].
  - change ([element_reverser; element_framer])
      with ([element_reverser] ++ element_framer :: [])%list.
    rewrite (Hframer Sample.framer eq_refl eq_refl). reflexivity.
  - refine (proj2 (Hmoved Sample.reverser eq_refl _) eq_refl).
    vm_compute. discriminate.
  - exact (proj2 (Hunknown eq_refl) eq_refl).
Defined.

(** The order matters: the payload framed last is unframed first. *)
Example decapsulate_order :
  StorageBase._decapsulate [x7e; x03; x02; x01]
    [ {| tm_name := "reverser"; tm_module := "sample.reverse"; tm_materials := "" |};
      element_framer ]
  = Ok [x01; x02; x03]
  /\ StorageBase._decapsulate [x7e; x03; x02; x01]
       [ element_framer;
         {| tm_name := "reverser"; tm_module := "sample.reverse"; tm_materials := "" |} ]
     = Err (OtherError "not framed").
Proof. split; reflexivity. Qed.

(** ** Hexadecimal text: [int(s, 16)] and ['{:016x}'] *)

Section Hex.

(** A hexadecimal digit is none of the characters [int] gives a meaning of
    their own. *)
Lemma hex_digit_plain (c : ascii) :
  Py.is_hex_digit c = true ->
  Py.is_space c = false /\ Ascii.eqb c "+" = false /\ Ascii.eqb c "-" = false
  /\ Ascii.eqb c "_" = false /\ Ascii.eqb c "x" = false /\ Ascii.eqb c "X" = false
  /\ Ascii.eqb c "." = false.
Proof.
  destruct c as [[] [] [] [] [] [] [] []]; vm_compute; intros Hc;
    try discriminate Hc; repeat split.
Qed.

Lemma scan_digits_all_hex (s : string) (acc : Z) (n : nat) :
  Py.all_hex s = true ->
  Py.scan_digits s false acc n = Some (Py.hex_value acc s, (n + String.length s)%nat, "").
Proof.
  revert acc n; induction s as [|c s IH]; intros acc n Hs; simpl in *.
  - now rewrite Nat.add_0_r.
  - apply andb_prop in Hs as [Hc Hs].
    destruct (hex_digit_plain c Hc) as (_ & _ & _ & Hus & _).
    rewrite Hus. unfold Py.is_hex_digit in Hc.
    destruct (Py.hex_digit_value c) as [d|]; [| discriminate].
    rewrite IH by exact Hs. do 3 f_equal. lia.
Qed.

Lemma int16_all_hex (s : string) :
  Py.all_hex s = true -> s <> "" -> Py.int16 s = Some (Py.hex_value 0 s).
Proof.
  intros Hs Hne. destruct s as [|c s]; [contradiction |].
  pose proof Hs as Hall. simpl in Hs. apply andb_prop in Hs as [Hc Hs].
  destruct (hex_digit_plain c Hc) as (Hsp & Hplus & Hminus & Hus & _).
  unfold Py.int16. simpl Py.skip_spaces. rewrite Hsp.
  unfold Py.strip_sign. rewrite Hplus, Hminus.
  assert (H0x : Py.strip_0x (String c s) = String c s).
  { destruct s as [|c1 s]; [reflexivity |]. simpl in Hs. apply andb_prop in Hs as [Hc1 _].
    destruct (hex_digit_plain c1 Hc1) as (_ & _ & _ & _ & Hx & HX & _).
    unfold Py.strip_0x. rewrite Hx, HX. now rewrite andb_false_r. }
  rewrite H0x. unfold Py.starts_with_underscore. rewrite Hus.
  rewrite scan_digits_all_hex by exact Hall. reflexivity.
Qed.

Lemma hex_char_value (d : Z) :
  0 <= d < 16 -> Py.hex_digit_value (Py.hex_char d) = Some d.
Proof.
  intros Hd.
  assert (Hcases : d = 0 \/ d = 1 \/ d = 2 \/ d = 3 \/ d = 4 \/ d = 5 \/ d = 6 \/ d = 7
                   \/ d = 8 \/ d = 9 \/ d = 10 \/ d = 11 \/ d = 12 \/ d = 13 \/ d = 14
                   \/ d = 15) by lia.
  repeat (destruct Hcases as [-> | Hcases]; [reflexivity |]). subst d. reflexivity.
Qed.

Lemma hex_digits_all_hex (fuel : nat) (n : Z) (acc : string) :
  0 <= n -> Py.all_hex acc = true -> Py.all_hex (Py.hex_digits fuel n acc) = true.
Proof.
  revert n acc; induction fuel as [|fuel IH]; intros n acc Hn Hacc; simpl; [exact Hacc |].
  assert (Hstep : Py.all_hex (String (Py.hex_char (n mod 16)) acc) = true).
  { simpl. unfold Py.is_hex_digit. rewrite hex_char_value by (apply Z.mod_pos_bound; lia).
    exact Hacc. }
  destruct (n / 16 =? 0); [exact Hstep |].
  apply IH; [apply Z.div_pos; lia | exact Hstep].
Qed.

Lemma hex_digits_value (fuel : nat) (n : Z) (acc : string) :
  0 <= n < 16 ^ Z.of_nat fuel ->
  Py.hex_value 0 (Py.hex_digits fuel n acc) = Py.hex_value n acc.
Proof.
  revert n acc; induction fuel as [|fuel IH]; intros n acc Hn.
  - simpl in *. now replace n with 0 by lia.
  - cbn [Py.hex_digits].
    assert (Hdigit : Py.hex_value 0 (String (Py.hex_char (n mod 16)) acc)
                     = Py.hex_value (n mod 16) acc).
    { simpl. now rewrite hex_char_value by (apply Z.mod_pos_bound; lia). }
    pose proof (Z.div_mod n 16 ltac:(lia)) as Hdm.
    destruct (Z.eqb_spec (n / 16) 0) as [Hq|Hq].
    + rewrite Hdigit. f_equal. lia.
    + rewrite IH.
      * cbn [Py.hex_value].
        rewrite hex_char_value by (apply Z.mod_pos_bound; lia). f_equal. lia.
      * split; [apply Z.div_pos; lia |].
        apply Z.div_lt_upper_bound; [lia |].
        replace (Z.of_nat (S fuel)) with (Z.succ (Z.of_nat fuel)) in Hn by lia.
        rewrite Z.pow_succ_r in Hn by lia. lia.
Qed.

Lemma hex_digits_length (fuel : nat) (n : Z) (acc : string) (k : nat) :
  (0 < k)%nat -> 0 <= n < 16 ^ Z.of_nat k ->
  (String.length (Py.hex_digits fuel n acc) <= k + String.length acc)%nat.
Proof.
  revert n acc k; induction fuel as [|fuel IH]; intros n acc k Hk Hn; simpl; [lia |].
  destruct (Z.eqb_spec (n / 16) 0) as [Hq|Hq]; [simpl; lia |].
  destruct k as [|k]; [lia |].
  assert (Hk1 : (0 < k)%nat).
  { destruct k; [| lia]. simpl in Hn.
    exfalso. apply Hq. apply Z.div_small. lia. }
  specialize (IH (n / 16) (String (Py.hex_char (n mod 16)) acc) k Hk1).
  simpl in IH. etransitivity; [apply IH | lia].
  split; [apply Z.div_pos; lia |].
  apply Z.div_lt_upper_bound; [lia |].
  replace (Z.of_nat (S k)) with (Z.succ (Z.of_nat k)) in Hn by lia.
  rewrite Z.pow_succ_r in Hn by lia. lia.
Qed.

Lemma all_hex_app (s t : string) :
  Py.all_hex (s +:+ t) = Py.all_hex s && Py.all_hex t.
Proof. induction s as [|c s IH]; simpl; [reflexivity | now rewrite IH, andb_assoc]. Qed.

Lemma all_hex_zeros (k : nat) : Py.all_hex (Py.zeros k) = true.
Proof. induction k; simpl; [reflexivity | assumption]. Qed.

Lemma length_zeros (k : nat) : String.length (Py.zeros k) = k.
Proof. induction k; simpl; [reflexivity | now f_equal]. Qed.

Lemma hex_value_zeros (k : nat) (s : string) :
  Py.hex_value 0 (Py.zeros k +:+ s) = Py.hex_value 0 s.
Proof. induction k; simpl; [reflexivity | assumption]. Qed.

Lemma all_hex_drop (n : nat) (s : string) :
  Py.all_hex s = true -> Py.all_hex (Py.drop n s) = true.
Proof.
  revert s; induction n as [|n IH]; intros [|c s] Hs; simpl; try assumption; try reflexivity.
  simpl in Hs. apply andb_prop in Hs as [_ Hs]. now apply IH.
Qed.

(** What ['{:016x}'] prints for a 64-bit unsigned integer: sixteen
    hexadecimal digits that [int(., 16)] reads back. *)
Lemma format_016x_spec (n : Z) :
  0 <= n < 2 ^ 64 ->
  String.length (Py.format_016x n) = 16%nat
  /\ Py.all_hex (Py.format_016x n) = true
  /\ Py.hex_value 0 (Py.format_016x n) = n.
Proof.
  intros Hn. unfold Py.format_016x.
  destruct (Z.ltb_spec n 0) as [Hneg|_]; [lia |].
  unfold Py.zfill, Py.format_x.
  set (fuel := S (Z.to_nat (Z.log2 n))).
  assert (Hfuel : 0 <= n < 16 ^ Z.of_nat fuel).
  { split; [lia |]. unfold fuel.
    destruct (Z.eq_dec n 0) as [->|Hnz]; [reflexivity |].
    pose proof (Z.log2_nonneg n) as Hlog.
    pose proof (Z.log2_spec n ltac:(lia)) as [_ Hlt].
    eapply Z.lt_le_trans; [exact Hlt |].
    replace (Z.of_nat (S (Z.to_nat (Z.log2 n)))) with (Z.succ (Z.log2 n)) by lia.
    apply Z.pow_le_mono_l. lia. }
  pose proof (hex_digits_length fuel n "" 16 ltac:(lia) ltac:(simpl; lia)) as Hlen.
  change (String.length "") with 0%nat in Hlen.
  split; [| split].
  - rewrite length_app, length_zeros. lia.
  - rewrite all_hex_app, all_hex_zeros, andb_true_l.
    apply hex_digits_all_hex; [lia | reflexivity].
  - rewrite hex_value_zeros, hex_digits_value by exact Hfuel. reflexivity.
Qed.

End Hex.

(** ** Keys are ASCII *)

Section Ascii.
Context `{Externals}.

Lemma is_ascii_app (s t : string) :
  Py.is_ascii (s +:+ t) = Py.is_ascii s && Py.is_ascii t.
Proof. induction s as [|c s IH]; simpl; [reflexivity | now rewrite IH, andb_assoc]. Qed.

Lemma is_ascii_zeros (k : nat) : Py.is_ascii (Py.zeros k) = true.
Proof. induction k; simpl; [reflexivity | assumption]. Qed.

Lemma hex_char_ascii (d : Z) :
  0 <= d < 16 -> (nat_of_ascii (Py.hex_char d) <? 128)%nat = true.
Proof.
  intros Hd.
  assert (Hcases : d = 0 \/ d = 1 \/ d = 2 \/ d = 3 \/ d = 4 \/ d = 5 \/ d = 6 \/ d = 7
                   \/ d = 8 \/ d = 9 \/ d = 10 \/ d = 11 \/ d = 12 \/ d = 13 \/ d = 14
                   \/ d = 15) by lia.
  repeat (destruct Hcases as [-> | Hcases]; [reflexivity |]). subst d. reflexivity.
Qed.

Lemma is_ascii_hex_digits (fuel : nat) (n : Z) (acc : string) :
  0 <= n -> Py.is_ascii acc = true -> Py.is_ascii (Py.hex_digits fuel n acc) = true.
Proof.
  revert n acc; induction fuel as [|fuel IH]; intros n acc Hn Hacc; simpl; [exact Hacc |].
  assert (Hstep : Py.is_ascii (String (Py.hex_char (n mod 16)) acc) = true).
  { cbn [Py.is_ascii]. rewrite hex_char_ascii by (apply Z.mod_pos_bound; lia). exact Hacc. }
  destruct (n / 16 =? 0); [exact Hstep |].
  apply IH; [apply Z.div_pos; lia | exact Hstep].
Qed.

(** ['{:016x}'] prints ASCII, for a negative number too. *)
Lemma is_ascii_format_016x (n : Z) : Py.is_ascii (Py.format_016x n) = true.
Proof.
  unfold Py.format_016x, Py.zfill, Py.format_x.
  destruct (Z.ltb_spec n 0).
  - cbn [Py.is_ascii]. rewrite is_ascii_app, is_ascii_zeros.
    rewrite is_ascii_hex_digits by (lia || reflexivity). reflexivity.
  - rewrite is_ascii_app, is_ascii_zeros.
    rewrite is_ascii_hex_digits by (lia || reflexivity). reflexivity.
Qed.

Lemma to_key_ascii (prefix object_key : string) :
  Py.is_ascii object_key = true ->
  StorageBase._to_key prefix object_key
  = Ok (prefix +:+ Py.slice 0 2 (md5_hexdigest object_key) +:+ "/"
        +:+ Py.slice 2 4 (md5_hexdigest object_key) +:+ "/" +:+ object_key).
Proof. intros Ha. unfold StorageBase._to_key. now rewrite Ha. Qed.

(** [_to_key] returns on the object key of every block. *)
Lemma block_uid_to_key_returns (block_uid : BlockUid) :
  StorageBase._to_key StorageBase._BLOCKS_PREFIX
    (Py.format_016x (BlockUid.left block_uid) +:+ "-"
     +:+ Py.format_016x (BlockUid.right block_uid))
  = Ok (StorageBase._block_uid_to_key block_uid).
Proof.
  unfold StorageBase._block_uid_to_key. rewrite to_key_ascii; [reflexivity |].
  rewrite !is_ascii_app, !is_ascii_format_016x. reflexivity.
Qed.

Lemma block_uid_to_key_text (block_uid : BlockUid) :
  let object_key := Py.format_016x (BlockUid.left block_uid) +:+ "-"
                    +:+ Py.format_016x (BlockUid.right block_uid) in
  StorageBase._block_uid_to_key block_uid
  = StorageBase._BLOCKS_PREFIX +:+ Py.slice 0 2 (md5_hexdigest object_key) +:+ "/"
    +:+ Py.slice 2 4 (md5_hexdigest object_key) +:+ "/" +:+ object_key.
Proof.
  intros object_key. unfold StorageBase._block_uid_to_key. fold object_key.
  rewrite to_key_ascii; [reflexivity |].
  unfold object_key. rewrite !is_ascii_app, !is_ascii_format_016x. reflexivity.
Qed.

(** [_to_key] returns on the readable form of every version UID. *)
Lemma version_uid_to_key_returns (version_uid : VersionUid) :
  StorageBase._to_key StorageBase._VERSIONS_PREFIX (VersionUid.readable version_uid)
  = Ok (StorageBase._version_uid_to_key version_uid).
Proof.
  unfold StorageBase._version_uid_to_key.
  now rewrite to_key_ascii by apply VersionUid.readable_is_ascii.
Qed.

End Ascii.

(** ** Listing blocks *)

Section ListBlocks.

Lemma key_to_block_uid_errors (key : string) (e : exn) :
  StorageBase._key_to_block_uid key = Err e -> is_RuntimeError_or_ValueError e = true.
Proof.
  unfold StorageBase._key_to_block_uid, StorageBase._from_key, StorageBase.int_base16.
  destruct (negb (Py.startswith key StorageBase._BLOCKS_PREFIX)); simpl;
    [now intros [= <-] |].
  destruct (_ <=? _)%nat; simpl; [now intros [= <-] |].
  destruct (negb _); simpl; [now intros [= <-] |].
  destruct (Py.int16 (Py.slice 0 16 _)); simpl; [| now intros [= <-]].
  destruct (Py.int16 _); simpl; [discriminate | now intros [= <-]].
Qed.

Lemma list_blocks_loop_listed (keys : list string) (block_uids : list BlockUid) :
  StorageBase.list_blocks_loop keys block_uids
  = Ok (block_uids ++ flat_map listed keys)%list.
Proof.
  revert block_uids; induction keys as [|key keys IH]; intros block_uids; simpl.
  - now rewrite app_nil_r.
  - unfold listed at 1.
    destruct (Py.endswith key StorageBase._META_SUFFIX); [apply IH |].
    destruct (StorageBase._key_to_block_uid key) as [block_uid|e] eqn:Hkey.
    + rewrite IH. now rewrite <- app_assoc.
    + rewrite (key_to_block_uid_errors _ _ Hkey). apply IH.
Qed.

Lemma listed_wrong_prefix (key : string) :
  Py.startswith key StorageBase._BLOCKS_PREFIX = false -> listed key = [].
Proof.
  intros Hp. unfold listed, StorageBase._key_to_block_uid.
  rewrite (from_key_wrong_prefix _ _ Hp). now destruct (Py.endswith _ _).
Qed.

Lemma listed_wrong_length (key : string) :
  String.length key <> (String.length StorageBase._BLOCKS_PREFIX + 6 + (16 + 1 + 16))%nat ->
  listed key = [].
Proof.
  intros Hl. unfold listed. destruct (Py.endswith _ _); [reflexivity |].
  unfold StorageBase._key_to_block_uid, StorageBase._from_key.
  destruct (negb (Py.startswith key StorageBase._BLOCKS_PREFIX)); [reflexivity |].
  destruct (Nat.leb_spec (String.length key) (String.length StorageBase._BLOCKS_PREFIX + 6));
    [reflexivity |].
  cbn [mbind res_mbind res_bind]. rewrite length_drop.
  destruct (Nat.eqb_spec (String.length key - (String.length StorageBase._BLOCKS_PREFIX + 6))
              (16 + 1 + 16)) as [Heq|]; [| reflexivity].
  exfalso. apply Hl. lia.
Qed.

Lemma take_all (s : string) (n : nat) : String.length s = n -> Py.take n s = s.
Proof.
  revert n; induction s as [|c s IH]; intros [|n] Hn; simpl in *; try reflexivity; try lia.
  f_equal. apply IH. lia.
Qed.

Lemma endswith_all_hex (s t : string) :
  (5 <= String.length t)%nat -> Py.all_hex t = true ->
  Py.endswith (s +:+ t) StorageBase._META_SUFFIX = false.
Proof.
  intros Hl Ht. unfold Py.endswith. apply andb_false_iff. right.
  rewrite length_app.
  replace (String.length s + String.length t - String.length StorageBase._META_SUFFIX)%nat
    with (String.length s + (String.length t - 5))%nat by (simpl; lia).
  rewrite drop_app.
  destruct (String.eqb_spec (Py.drop (String.length t - 5) t) StorageBase._META_SUFFIX)
    as [Heq|]; [| reflexivity].
  pose proof (all_hex_drop (String.length t - 5) t Ht) as Hd.
  rewrite Heq in Hd. discriminate Hd.
Qed.

Lemma slice_left (left rest : string) :
  String.length left = 16%nat -> Py.slice 0 16 (left +:+ rest) = left.
Proof.
  intros Hl. unfold Py.slice. change (16 - 0)%nat with 16%nat. change (Py.drop 0 ?s) with s.
  rewrite <- Hl. apply take_length_app.
Qed.

Lemma slice_right (left right : string) (sep : ascii) :
  String.length left = 16%nat -> String.length right = 16%nat ->
  Py.slice 17 (17 + 16) (left +:+ String sep right) = right.
Proof.
  intros Hl Hr. unfold Py.slice. change (17 + 16 - 17)%nat with 16%nat.
  replace 17%nat with (String.length left + 1)%nat by lia.
  rewrite drop_app. change (Py.drop 1 (String sep right)) with right.
  now apply take_all.
Qed.

(** [int(., 16)] reads hexadecimal digits behind a [0x]. *)
Lemma int16_0x (digits : string) :
  Py.all_hex digits = true -> digits <> "" ->
  Py.int16 ("0x" +:+ digits) = Some (Py.hex_value 0 digits).
Proof.
  intros Hh Hne. destruct digits as [|c digits]; [contradiction |].
  pose proof Hh as Hall. simpl in Hh. apply andb_prop in Hh as [Hc _].
  destruct (hex_digit_plain c Hc) as (_ & _ & _ & Hus & _).
  unfold Py.int16.
  change (Py.strip_sign (Py.skip_spaces ("0x" +:+ String c digits)))
    with (false, String "0" (String "x" (String c digits))).
  cbv beta iota.
  assert (H0x : Py.strip_0x (String "0" (String "x" (String c digits))) = String c digits)
    by (change (Py.strip_0x (String "0" (String "x" (String c digits))))
          with (if Ascii.eqb c "_" then digits else String c digits); now rewrite Hus).
  rewrite H0x. unfold Py.starts_with_underscore. rewrite Hus.
  rewrite scan_digits_all_hex by exact Hall. reflexivity.
Qed.

(** A key of the right length whose UID halves [int(., 16)] reads. *)
Lemma listed_decoded (fanout left right : string) (sep : ascii) (l r : Z) :
  String.length fanout = 6%nat ->
  String.length left = 16%nat -> Py.int16 left = Some l ->
  String.length right = 16%nat -> Py.int16 right = Some r ->
  Py.endswith (StorageBase._BLOCKS_PREFIX +:+ fanout +:+ left +:+ String sep right)
    StorageBase._META_SUFFIX = false ->
  listed (StorageBase._BLOCKS_PREFIX +:+ fanout +:+ left +:+ String sep right)
  = [BlockUid.mk l r].
Proof.
  intros Hf Hll Hlv Hrl Hrv Hmeta. unfold listed. rewrite Hmeta.
  unfold StorageBase._key_to_block_uid.
  rewrite from_key_ok;
    [| rewrite <- !app_assoc_str, !app_assoc_str; apply startswith_app
     | rewrite !length_app; simpl; lia].
  cbn [mbind res_mbind res_bind].
  replace (String.length StorageBase._BLOCKS_PREFIX + 6)%nat
    with (String.length StorageBase._BLOCKS_PREFIX + String.length fanout)%nat by lia.
  rewrite (drop_app StorageBase._BLOCKS_PREFIX), drop_length_app.
  rewrite length_app. cbn [String.length]. rewrite Hll, Hrl. cbn [Nat.eqb Nat.add negb].
  rewrite slice_left, slice_right by assumption.
  unfold StorageBase.int_base16. now rewrite Hlv, Hrv.
Qed.

(** A key of the shape the storage writes: prefix, six characters of fan-out,
    sixteen digits, a separator, sixteen digits. *)
Lemma listed_well_formed (fanout left right : string) (sep : ascii) :
  String.length fanout = 6%nat ->
  String.length left = 16%nat -> Py.all_hex left = true ->
  String.length right = 16%nat -> Py.all_hex right = true ->
  listed (StorageBase._BLOCKS_PREFIX +:+ fanout +:+ left +:+ String sep right)
  = [BlockUid.mk (Py.hex_value 0 left) (Py.hex_value 0 right)].
Proof.
  intros Hf Hll Hlh Hrl Hrh. unfold listed.
  rewrite <- !app_assoc_str.
  replace (((StorageBase._BLOCKS_PREFIX +:+ fanout) +:+ left) +:+ String sep right)
    with (((StorageBase._BLOCKS_PREFIX +:+ fanout) +:+ left +:+ String sep "") +:+ right)
    by (rewrite !app_assoc_str; reflexivity).
  rewrite endswith_all_hex by (rewrite ?Hrl; auto with lia).
  rewrite !app_assoc_str. cbn [String.append].
  unfold StorageBase._key_to_block_uid.
  rewrite from_key_ok;
    [| apply startswith_app | rewrite !length_app; simpl; lia].
  cbn [mbind res_mbind res_bind].
  replace (String.length StorageBase._BLOCKS_PREFIX + 6)%nat
    with (String.length StorageBase._BLOCKS_PREFIX + String.length fanout)%nat by lia.
  rewrite (drop_app StorageBase._BLOCKS_PREFIX), drop_length_app.
  rewrite length_app. cbn [String.length]. rewrite Hll, Hrl. cbn [Nat.eqb Nat.add negb].
  rewrite slice_left, slice_right by assumption.
  unfold StorageBase.int_base16.
  rewrite !int16_all_hex by (try assumption; intros ->; discriminate).
  reflexivity.
Qed.

End ListBlocks.

Section ListBlocksTheorem.
Context `{Externals} {B : Type} `{Backend B}.

Lemma length_take (n : nat) (s : string) :
  String.length (Py.take n s) = Nat.min n (String.length s).
Proof.
  revert s; induction n as [|n IH]; intros [|c s]; simpl; try reflexivity.
  now rewrite IH.
Qed.

Lemma length_slice (lo hi : nat) (s : string) :
  (lo <= hi)%nat -> (hi <= String.length s)%nat ->
  String.length (Py.slice lo hi s) = (hi - lo)%nat.
Proof. intros Hlo Hhi. unfold Py.slice. rewrite length_take, length_drop. lia. Qed.

(** The key the storage writes a block under is one [list_blocks] decodes,
    back to the UID it came from. *)
Lemma listed_block_uid_to_key (block_uid : BlockUid) :
  (forall s, String.length (md5_hexdigest s) = 32%nat) ->
  0 <= BlockUid.left block_uid < 2 ^ 64 ->
  0 <= BlockUid.right block_uid < 2 ^ 64 ->
  listed (StorageBase._block_uid_to_key block_uid) = [block_uid].
Proof.
  intros Hmd5 Hleft Hright.
  destruct (format_016x_spec _ Hleft) as (Hll & Hlh & Hlv).
  destruct (format_016x_spec _ Hright) as (Hrl & Hrh & Hrv).
  rewrite block_uid_to_key_text. cbv zeta.
  set (object_key := Py.format_016x (BlockUid.left block_uid) +:+ "-"
                     +:+ Py.format_016x (BlockUid.right block_uid)).
  set (digest := md5_hexdigest object_key).
  assert (Hd : String.length digest = 32%nat) by apply Hmd5.
  pose proof (listed_well_formed
                (Py.slice 0 2 digest +:+ "/" +:+ Py.slice 2 4 digest +:+ "/")
                (Py.format_016x (BlockUid.left block_uid))
                (Py.format_016x (BlockUid.right block_uid)) "-") as Hwf.
  rewrite !app_assoc_str in Hwf. cbn [String.append] in Hwf.
  unfold object_key. cbn [String.append]. rewrite Hwf; try assumption.
  - rewrite Hlv, Hrv. now destruct block_uid.
  - repeat first [rewrite length_app | progress cbn [String.length]].
    rewrite !length_slice by lia. reflexivity.
Qed.

(** [list_blocks] does not raise on whatever keys the backend lists; its
    result is made key by key. *)
Lemma list_blocks_listed (w : World B) (keys : list string) (b' : B) :
  _list_objects StorageBase._BLOCKS_PREFIX (World.backend w) = (Ok keys, b') ->
  fst (StorageBase.list_blocks w) = Ok (flat_map listed keys).
Proof.
  intros Hlist. unfold StorageBase.list_blocks, call, lift, mbind, M_bind. rewrite Hlist.
  now rewrite list_blocks_loop_listed.
Qed.

(** C9 (defect).  [list_blocks] does not raise on the keys the backend
    lists, but it does not leave out every key that fails the pattern of the
    block keys: a key whose UID halves are [0x] and fourteen hexadecimal
    digits has characters in them that are no hexadecimal digits, and is
    listed all the same, as the block whose UID [int(., 16)] reads from
    it. *)
Theorem C9_list_blocks_lists_keys_with_0x_prefix :
  forall (w : World B) (keys : list string) (b' : B) (fanout left right : string),
    let key := StorageBase._BLOCKS_PREFIX +:+ fanout
               +:+ ("0x" +:+ left) +:+ "-" +:+ ("0x" +:+ right) in
    String.length fanout = 6%nat ->
    String.length left = 14%nat -> Py.all_hex left = true ->
    String.length right = 14%nat -> Py.all_hex right = true ->
    _list_objects StorageBase._BLOCKS_PREFIX (World.backend w) = (Ok keys, b') ->
    In key keys ->
    has_non_hex_uid_character key = true
    /\ exists block_uids,
         fst (StorageBase.list_blocks w) = Ok block_uids
         /\ In (BlockUid.mk (Py.hex_value 0 left) (Py.hex_value 0 right)) block_uids.
Proof.
  intros w keys b' fanout left right key Hf Hll Hlh Hrl Hrh Hlist Hin.
  assert (Hlisted : listed key
                    = [BlockUid.mk (Py.hex_value 0 left) (Py.hex_value 0 right)]).
  { unfold key. change ("-" +:+ ("0x" +:+ right)) with (String "-" ("0x" +:+ right)).
    apply listed_decoded; try assumption.
    - cbn [String.append String.length]. now rewrite Hll.
    - apply int16_0x; [exact Hlh | intros ->; discriminate].
    - cbn [String.append String.length]. now rewrite Hrl.
    - apply int16_0x; [exact Hrh | intros ->; discriminate].
    - replace (StorageBase._BLOCKS_PREFIX +:+ fanout +:+ ("0x" +:+ left)
               +:+ String "-" ("0x" +:+ right))
        with ((StorageBase._BLOCKS_PREFIX +:+ fanout +:+ ("0x" +:+ left) +:+ "-0x") +:+ right)
        by (rewrite !app_assoc_str; reflexivity).
      apply endswith_all_hex; [lia | exact Hrh]. }
  split.
  - unfold has_non_hex_uid_character, uid_left_text, key.
    replace (String.length StorageBase._BLOCKS_PREFIX + 6)%nat
      with (String.length StorageBase._BLOCKS_PREFIX + String.length fanout)%nat by lia.
    rewrite (drop_app StorageBase._BLOCKS_PREFIX), drop_length_app.
    destruct left as [|c0 [|c1 left]]; try discriminate. reflexivity.
  - exists (flat_map listed keys). split; [now apply (list_blocks_listed w keys b') |].
    apply in_flat_map. exists key. split; [exact Hin |]. rewrite Hlisted. now left.
Qed.

End ListBlocksTheorem.

(** The key [blocks/xx/yy/0x00000000000001-0x00000000000002], alone in the
    backend, is listed as the block (1, 2). *)
Lemma C9_witness :
  has_non_hex_uid_character key_with_0x = true
  /\ exists block_uids,
       fst (StorageBase.list_blocks
              (MemoryBackend.world (MemoryBackend.mk {[ key_with_0x := [] ]} [] [])))
       = Ok block_uids
       /\ In (BlockUid.mk 1 2) block_uids.
Proof.
  assert (Hlist : _list_objects StorageBase._BLOCKS_PREFIX
                    (World.backend
                       (MemoryBackend.world (MemoryBackend.mk {[ key_with_0x := [] ]} [] [])))
                  = (Ok [key_with_0x],
                     snd (MemoryBackend.list_objects StorageBase._BLOCKS_PREFIX
                            (MemoryBackend.mk {[ key_with_0x := [] ]} [] []))))
    by (vm_compute; reflexivity).
  exact (C9_list_blocks_lists_keys_with_0x_prefix
           (MemoryBackend.world (MemoryBackend.mk {[ key_with_0x := [] ]} [] []))
           [key_with_0x] _ "xx/yy/" "00000000000001" "00000000000002"
           eq_refl eq_refl eq_refl eq_refl eq_refl Hlist (or_introl eq_refl)).
Defined.

(** The stray object of the spec is left out, the block next to it listed. *)
Example list_blocks_stray_keys :
  fst (StorageBase.list_blocks (MemoryBackend.world backend_with_stray_keys))
  = Ok [BlockUid.mk 1 2]
  /\ listed "blocks/xx/yy/not-a-uid" = [].
Proof. split; vm_compute; reflexivity. Qed.

(** ** The monad *)

Section MonadFacts.
Context {B : Type}.

Lemma bind_Ok_inv {A C} (m : M B A) (f : A -> M B C) (w w' : World B) (c : C) :
  (m ≫= f) w = (Ok c, w') ->
  exists a w1, m w = (Ok a, w1) /\ f a w1 = (Ok c, w').
Proof.
  unfold mbind, M_bind. destruct (m w) as [[a|e] w1]; [eauto | discriminate].
Qed.

Lemma bind_Ok {A C} (m : M B A) (f : A -> M B C) (w w1 : World B) (a : A) :
  m w = (Ok a, w1) -> (m ≫= f) w = f a w1.
Proof. unfold mbind, M_bind. now intros ->. Qed.

Lemma bind_Err {A C} (m : M B A) (f : A -> M B C) (w w1 : World B) (e : exn) :
  m w = (Err e, w1) -> (m ≫= f) w = (Err e, w1).
Proof. unfold mbind, M_bind. now intros ->. Qed.

Lemma try_except_Ok_inv {A} (body : M B A) (handler : exn -> M B A) (w w' : World B) (a : A) :
  (forall e w1, exists e' w2, handler e w1 = (Err e', w2)) ->
  try_except body handler w = (Ok a, w') -> body w = (Ok a, w').
Proof.
  intros Hh. unfold try_except. destruct (body w) as [[a'|e] w1]; [now intros |].
  destruct (Hh e w1) as (e' & w2 & ->). discriminate.
Qed.

End MonadFacts.

Section Cleanup.
Context `{Externals} {B : Type} `{Backend B}.

(** After a [FileNotFoundError] of the first removal the backend is not
    called again. *)
Lemma cleanup_stops_at_missing_payload {A} (key metadata_key missing : string) (e : exn)
    (w : World B) (b' : B) :
  _rm_object key (World.backend w) = (Err (FileNotFoundError missing), b') ->
  StorageBase.cleanup_and_reraise (A := A) key metadata_key e w
  = (Err e, World.set_backend b' w).
Proof.
  intros Hrm. unfold StorageBase.cleanup_and_reraise, try_except, call, mbind, M_bind.
  now rewrite Hrm.
Qed.

(** Another exception of a removal takes the place of the write failure. *)
Lemma cleanup_raises_removal_error {A} (key metadata_key : string) (e e' : exn)
    (w : World B) (b' : B) :
  _rm_object key (World.backend w) = (Err e', b') ->
  is_FileNotFoundError e' = false ->
  StorageBase.cleanup_and_reraise (A := A) key metadata_key e w
  = (Err e', World.set_backend b' w).
Proof.
  intros Hrm He'. unfold StorageBase.cleanup_and_reraise, try_except, call, mbind, M_bind.
  rewrite Hrm. simpl. now rewrite He'.
Qed.

(** C5 (defect).  When the write of the payload fails and the removal of the
    payload then finds no object, [save] raises the write failure and leaves
    the backend as that one removal left it: the [FileNotFoundError] ends the
    [try] that holds both removals, and the removal of the metadata object is
    not attempted. *)
Theorem C5_cleanup_skips_metadata_after_missing_payload :
  forall (self : StorageBase.t) (block : DereferencedBlock) (data : Py.bytes) (w : World B)
         (stored : Py.bytes) (transforms_metadata : list TransformMetadata)
         (e : exn) (missing : string) (b1 b2 : B),
    let key := StorageBase._block_uid_to_key (DereferencedBlock.uid block) in
    StorageBase._encapsulate self data = Ok (stored, transforms_metadata) ->
    _write_object key stored (World.backend w) = (Err e, b1) ->
    _rm_object key b1 = (Err (FileNotFoundError missing), b2) ->
    fst (StorageBase.save self block data w) = Err e
    /\ World.backend (snd (StorageBase.save self block data w)) = b2.
Proof.
  intros self block data w stored tms e missing b1 b2 key Henc Hwrite Hrm.
  enough (Hrun : exists w', StorageBase.save self block data w = (Err e, w')
                            /\ World.backend w' = b2)
    by (destruct Hrun as (w' & -> & Hb); split; [reflexivity | exact Hb]).
  unfold StorageBase.save, StorageBase._write. fold key.
  destruct (StorageBase._build_metadata self (DereferencedBlock.size block) (Py.len stored)
              (Some tms) (DereferencedBlock.checksum block)) as [metadata metadata_json]
    eqn:Hbuilt.
  eexists. split.
  - apply bind_Err.
    rewrite (bind_Ok _ _ w w (stored, tms)) by (unfold lift; now rewrite Henc).
    cbv beta iota. rewrite Hbuilt.
    rewrite (bind_Ok _ _ w _ tt) by reflexivity.
    apply bind_Err. unfold try_except.
    rewrite (bind_Err _ _ _ (World.set_backend b1 _) e)
      by (unfold call; cbn [World.backend World.set_write_throttling]; now rewrite Hwrite).
    apply (cleanup_stops_at_missing_payload key _ missing e _ b2). exact Hrm.
  - reflexivity.
Qed.

End Cleanup.

(** ** The read cache *)

Section ReadCache.
Context `{Externals} {B : Type} `{Backend B}.

(** C10, as amended.  With the read cache in place and reading from it
    enabled, a read whose metadata is in the cache as a non-empty dictionary
    and, unless [metadata_only], whose payload is in the cache as non-empty
    bytes, returns the cached values as they are and leaves the world as it
    was: the backend is not called, nothing is throttled, and whatever the
    cached metadata says about HMAC, object size, checksum or transforms is
    not looked at. *)
Theorem C10_cache_hit_returns_cached_values_unchecked :
  forall (self : StorageBase.t) (block : DereferencedBlock) (metadata_only : bool)
         (w : World B) (read_cache : Cache) (metadata : Metadata),
    let key := StorageBase._block_uid_to_key (DereferencedBlock.uid block) in
    let metadata_key := key +:+ StorageBase._META_SUFFIX in
    World._read_cache w = Some read_cache ->
    World._use_read_cache w = true ->
    Cache.get_metadata read_cache metadata_key = Some metadata ->
    Metadata.truthy metadata = true ->
    (metadata_only = true
     \/ Py.truthy_bytes (Cache.get_data read_cache key) = true) ->
    ReadCacheStorageBase._read self block metadata_only w
    = (Ok (block,
           if metadata_only then None else Cache.get_data read_cache key,
           metadata),
       w).
Proof.
  intros self block metadata_only w read_cache metadata key metadata_key
    Hcache Huse Hmeta Htruthy Hdata.
  unfold ReadCacheStorageBase._read, ReadCacheStorageBase.read_from_cache.
  fold key. fold metadata_key. rewrite Hcache, Huse, Hmeta, Htruthy.
  destruct metadata_only; [reflexivity |]. simpl.
  destruct Hdata as [Hdata | Hdata]; [discriminate |].
  destruct (Cache.get_data read_cache key) as [[|b bs]|]; try discriminate.
  reflexivity.
Qed.

End ReadCache.

(** The cached values come back from the warm cache, for the full read and
    for the read of the metadata alone, on an empty backend. *)
Lemma C10_witness :
  ReadCacheStorageBase._read Sample.full_storage Sample.block false world_with_warm_cache
  = (Ok (Sample.block, Some [x2a], unchecked_metadata), world_with_warm_cache)
  /\ ReadCacheStorageBase._read Sample.full_storage Sample.block true world_with_warm_cache
     = (Ok (Sample.block, None, unchecked_metadata), world_with_warm_cache).
Proof.
  split.
  - refine (C10_cache_hit_returns_cached_values_unchecked Sample.full_storage Sample.block false
              world_with_warm_cache _ unchecked_metadata eq_refl eq_refl _ eq_refl _).
    + vm_compute. reflexivity.
    + right. vm_compute. reflexivity.
  - refine (C10_cache_hit_returns_cached_values_unchecked Sample.full_storage Sample.block true
              world_with_warm_cache _ unchecked_metadata eq_refl eq_refl _ eq_refl _).
    + vm_compute. reflexivity.
    + left. reflexivity.
Defined.

(** C10, as stated, fails: after the first read the cache holds the metadata
    and the (empty) payload of the block, and the second read still goes to the
    backend for both objects. *)
Lemma C10_counterexample :
  (World._read_cache world_after_first_read ≫= fun c => Cache.get_data c sample_key)
  = Some []
  /\ (World._read_cache world_after_first_read ≫= fun c => Cache.get_metadata c sample_metadata_key)
     = Some (Metadata.mk (Some 0) (Some 0) (Some "abcd") None None)
  /\ World._use_read_cache world_after_first_read = true
  /\ MemoryBackend.requests
       (World.backend
          (snd (ReadCacheStorageBase._read Sample.plain_storage empty_block false
                  world_after_first_read)))
     = MemoryBackend.ReadObject sample_metadata_key :: MemoryBackend.ReadObject sample_key
       :: MemoryBackend.requests (World.backend world_after_first_read).
Proof. repeat split; vm_compute; reflexivity. Qed.

(** ** Writing and reading back *)

Section SaveRead.
Context `{Externals} {B : Type} `{Backend B} {contract : BackendContract B}.

Lemma call_write_object_Ok (key : string) (data : Py.bytes) (w w' : World B) (u : unit) :
  call (_write_object key data) w = (Ok u, w') ->
  stored_objects w' = <[key := data]> (stored_objects w).
Proof.
  unfold call, stored_objects.
  destruct (_write_object key data (World.backend w)) as [r b'] eqn:Hw.
  intros [= -> <-]. destruct u. simpl. now apply write_object_stores.
Qed.

Lemma call_read_object (key : string) (w : World B) :
  exists w',
    call (_read_object key) w
    = (match stored_objects w !! key with
       | Some d => Ok d
       | None => Err (FileNotFoundError key)
       end, w')
    /\ stored_objects w' = stored_objects w
    /\ World.read_throttling w' = World.read_throttling w.
Proof.
  unfold call, stored_objects.
  pose proof (read_object_returns key (World.backend w)) as Hr.
  pose proof (read_object_keeps key (World.backend w)) as Hk.
  destruct (_read_object key (World.backend w)) as [r b']. simpl in *. subst r.
  eexists. split; [reflexivity |]. split; [exact Hk | reflexivity].
Qed.

Lemma call_read_object_length (key : string) (w : World B) :
  exists w',
    call (_read_object_length key) w
    = (match stored_objects w !! key with
       | Some d => Ok (Py.len d)
       | None => Err (FileNotFoundError key)
       end, w')
    /\ stored_objects w' = stored_objects w
    /\ World.read_throttling w' = World.read_throttling w.
Proof.
  unfold call, stored_objects.
  pose proof (read_object_length_returns key (World.backend w)) as Hr.
  pose proof (read_object_length_keeps key (World.backend w)) as Hk.
  destruct (_read_object_length key (World.backend w)) as [r b']. simpl in *. subst r.
  eexists. split; [reflexivity |]. split; [exact Hk | reflexivity].
Qed.

Lemma cleanup_and_reraise_fails {A} (key metadata_key : string) (e : exn) (w : World B) :
  exists e' w', StorageBase.cleanup_and_reraise (A := A) key metadata_key e w = (Err e', w').
Proof.
  unfold StorageBase.cleanup_and_reraise, try_except, raise, mbind, M_bind, mret, M_ret.
  destruct (call (_rm_object key) w) as [[u|e1] w1].
  - destruct (call (_rm_object metadata_key) w1) as [[u'|e2] w2]; [eauto |].
    destruct (is_FileNotFoundError e2); eauto.
  - destruct (is_FileNotFoundError e1); eauto.
Qed.

Lemma check_write_keeps (self : StorageBase.t) (key metadata_key : string)
    (data_expected : Py.bytes) (w : World B) :
  stored_objects (snd (StorageBase._check_write self key metadata_key data_expected w))
  = stored_objects w.
Proof.
  unfold StorageBase._check_write.
  destruct (call_read_object key w) as (w1 & Hr1 & Hk1 & _).
  destruct (stored_objects w !! key) as [d|].
  - rewrite (bind_Ok _ _ _ _ _ Hr1).
    destruct (call_read_object metadata_key w1) as (w2 & Hr2 & Hk2 & _).
    destruct (stored_objects w1 !! metadata_key) as [mj|].
    + rewrite (bind_Ok _ _ _ _ _ Hr2).
      unfold lift, raise, mbind, M_bind, mret, M_ret.
      destruct (StorageBase._decode_metadata self mj key (Py.len d)); simpl;
        [destruct (negb _) |]; simpl; congruence.
    + rewrite (bind_Err _ _ _ _ _ Hr2). simpl. congruence.
  - rewrite (bind_Err _ _ _ _ _ Hr1). simpl. congruence.
Qed.

(** What a [save] that returns has left in the backend. *)
Lemma save_stores (self : StorageBase.t) (block : DereferencedBlock) (data : Py.bytes)
    (w w' : World B) :
  StorageBase.save self block data w = (Ok tt, w') ->
  exists stored transforms_metadata,
    StorageBase._encapsulate self data = Ok (stored, transforms_metadata)
    /\ let key := StorageBase._block_uid_to_key (DereferencedBlock.uid block) in
       let built := StorageBase._build_metadata self (DereferencedBlock.size block)
                      (Py.len stored) (Some transforms_metadata)
                      (DereferencedBlock.checksum block) in
       stored_objects w' !! key = Some stored
       /\ stored_objects w' !! (key +:+ StorageBase._META_SUFFIX) = Some (snd built)
       /\ snd built = json_dumps (fst built).
Proof.
  unfold StorageBase.save. intros Hsave.
  apply bind_Ok_inv in Hsave as (r & w1 & Hwrite & Hdone).
  unfold mret, M_ret in Hdone. injection Hdone as <-.
  unfold StorageBase._write in Hwrite.
  apply bind_Ok_inv in Hwrite as ([stored tms] & w2 & Henc & Hrest).
  unfold lift in Henc. injection Henc as Henc <-.
  exists stored, tms. split; [exact Henc |].
  set (key := StorageBase._block_uid_to_key (DereferencedBlock.uid block)) in *.
  destruct (StorageBase._build_metadata self (DereferencedBlock.size block) (Py.len stored)
              (Some tms) (DereferencedBlock.checksum block)) as [metadata metadata_json] eqn:Hbuilt.
  apply bind_Ok_inv in Hrest as (u1 & w3 & Hconsume & Hrest).
  assert (Hw3 : stored_objects w3 = stored_objects w).
  { unfold consume_write in Hconsume. now injection Hconsume as _ <-. }
  apply bind_Ok_inv in Hrest as (u2 & w4 & Hwrites & Hrest).
  apply try_except_Ok_inv in Hwrites; [| intros; apply cleanup_and_reraise_fails].
  apply bind_Ok_inv in Hwrites as (u3 & w5 & Hwrite1 & Hwrite2).
  apply call_write_object_Ok in Hwrite1. apply call_write_object_Ok in Hwrite2.
  assert (Hw4 : stored_objects w4 !! key = Some stored
                /\ stored_objects w4 !! (key +:+ StorageBase._META_SUFFIX) = Some metadata_json).
  { rewrite Hwrite2, Hwrite1. split.
    - rewrite lookup_insert_ne by apply meta_suffix_ne. apply lookup_insert_eq.
    - apply lookup_insert_eq. }
  apply bind_Ok_inv in Hrest as (u4 & w6 & Hcheck & Hret).
  unfold mret, M_ret in Hret. injection Hret as _ <-.
  assert (Hw6 : stored_objects w6 = stored_objects w4).
  { destruct (StorageBase._consistency_check_writes self).
    - pose proof (check_write_keeps self key (key +:+ StorageBase._META_SUFFIX) stored w4) as Hk.
      now rewrite Hcheck in Hk.
    - unfold mret, M_ret in Hcheck. now injection Hcheck as _ <-. }
  simpl. rewrite Hw6. destruct Hw4 as [Hk Hm]. repeat split; try assumption.
  unfold StorageBase._build_metadata in Hbuilt. now injection Hbuilt as <- <-.
Qed.

(** The fields of the dictionary [_build_metadata] makes. *)
Lemma build_metadata_fields (self : StorageBase.t) (size object_size : Z)
    (transforms_metadata : list TransformMetadata) (checksum : option string) :
  let metadata := fst (StorageBase._build_metadata self size object_size
                         (Some transforms_metadata) checksum) in
  Metadata.size metadata = Some size
  /\ Metadata.object_size metadata = Some object_size
  /\ Metadata.checksum metadata = (if Py.truthy_str checksum then checksum else None)
  /\ Metadata.transforms metadata
     = (match transforms_metadata with [] => None | _ :: _ => Some transforms_metadata end).
Proof.
  unfold StorageBase._build_metadata.
  destruct checksum as [[|c cs]|], transforms_metadata as [|e es], (StorageBase._dict_hmac self);
    simpl; repeat split; reflexivity.
Qed.

(** C2, as amended.  The metadata object that a returning [save] has written
    is the JSON of a dictionary whose [size] is the size the block declares,
    whose [object_size] is the length of the payload as [_encapsulate] left
    it, and whose [checksum] is the checksum of the block, absent when the
    block has none or an empty one. *)
Theorem C2_saved_metadata_records_the_block_size :
  forall (self : StorageBase.t) (block : DereferencedBlock) (data : Py.bytes)
         (w w' : World B),
    StorageBase.save self block data w = (Ok tt, w') ->
    exists stored transforms_metadata metadata,
      StorageBase._encapsulate self data = Ok (stored, transforms_metadata)
      /\ stored_objects w'
           !! (StorageBase._block_uid_to_key (DereferencedBlock.uid block)
               +:+ StorageBase._META_SUFFIX)
         = Some (json_dumps metadata)
      /\ Metadata.size metadata = Some (DereferencedBlock.size block)
      /\ Metadata.object_size metadata = Some (Py.len stored)
      /\ Metadata.checksum metadata
         = (if Py.truthy_str (DereferencedBlock.checksum block)
            then DereferencedBlock.checksum block else None).
Proof.
  intros self block data w w' Hsave.
  destruct (save_stores _ _ _ _ _ Hsave) as (stored & tms & Henc & _ & Hmeta & Hjson).
  exists stored, tms.
  eexists. split; [exact Henc |]. split; [rewrite Hmeta, Hjson; reflexivity |].
  destruct (build_metadata_fields self (DereferencedBlock.size block) (Py.len stored) tms
              (DereferencedBlock.checksum block)) as (Hs & Ho & Hc & _).
  repeat split; assumption.
Qed.

(** *** Reading back *)

Lemma verify_add_hexdigest (h : DictHMAC) (m : Metadata) :
  DictHMAC.verify_hexdigest h (DictHMAC.add_hexdigest h m) = Ok tt.
Proof.
  unfold DictHMAC.verify_hexdigest, DictHMAC.add_hexdigest. simpl.
  unfold Metadata.pop_hmac. simpl. now rewrite String.eqb_refl.
Qed.

(** What was built decodes to itself when the payload has the recorded
    length. *)
Lemma decode_built_metadata (self : StorageBase.t) (size : Z) (stored : Py.bytes)
    (transforms_metadata : list TransformMetadata) (checksum : option string) (key : string) :
  (forall m, json_loads (json_dumps m) = Some m) ->
  let built := StorageBase._build_metadata self size (Py.len stored)
                 (Some transforms_metadata) checksum in
  StorageBase._decode_metadata self (snd built) key (Py.len stored) = Ok (fst built).
Proof.
  intros Hjson built.
  destruct (build_metadata_fields self size (Py.len stored) transforms_metadata checksum)
    as (Hs & Ho & _ & _).
  fold built in Hs, Ho.
  assert (Hsnd : snd built = json_dumps (fst built)) by reflexivity.
  assert (Hverify : match StorageBase._dict_hmac self with
                    | Some dict_hmac => DictHMAC.verify_hexdigest dict_hmac (fst built)
                    | None => Ok tt
                    end = Ok tt).
  { unfold built, StorageBase._build_metadata.
    destruct (StorageBase._dict_hmac self) as [h|]; [| reflexivity].
    simpl. apply verify_add_hexdigest. }
  unfold StorageBase._decode_metadata. rewrite Hsnd, Hjson, Hverify.
  cbn [mbind res_mbind res_bind]. rewrite Ho, Hs, Z.eqb_refl. reflexivity.
Qed.

Lemma encapsulate_loop_undone (transforms : list (option TransformBase)) (data stored : Py.bytes)
    (recorded result : list TransformMetadata) :
  (forall transform,
      In (Some transform) transforms ->
      get_by_name (TransformBase.name transform) = Some transform
      /\ (forall data encapsulated materials,
            TransformBase.encapsulate transform data = Ok (Some encapsulated, materials) ->
            TransformBase.decapsulate transform encapsulated materials = Ok data)) ->
  StorageBase.encapsulate_loop transforms data recorded = Ok (stored, result) ->
  exists added,
    result = (recorded ++ added)%list
    /\ StorageBase._decapsulate stored added = Ok data
    /\ (added = [] -> stored = data).
Proof.
  revert data recorded; induction transforms as [|[transform|] transforms IH];
    intros data recorded Hinv Hloop; simpl in Hloop.
  - injection Hloop as <- <-. exists []. rewrite app_nil_r. repeat split; reflexivity.
  - destruct (Hinv transform (or_introl eq_refl)) as [Hreg Hundo].
    assert (Hinv' : forall t, In (Some t) transforms ->
              get_by_name (TransformBase.name t) = Some t
              /\ (forall data encapsulated materials,
                    TransformBase.encapsulate t data = Ok (Some encapsulated, materials) ->
                    TransformBase.decapsulate t encapsulated materials = Ok data))
      by (intros t Ht; apply Hinv; now right).
    destruct (TransformBase.encapsulate transform data) as [[encapsulated materials]|e] eqn:Henc;
      [| discriminate].
    destruct encapsulated as [[|b bs]|].
    + apply (IH _ _ Hinv' Hloop).
    + destruct (IH _ _ Hinv' Hloop) as (added & -> & Hdecap & _).
      eexists (_ :: added). split; [now rewrite <- app_assoc |]. split; [| discriminate].
      change (?x :: added) with ([x] ++ added)%list.
      unfold StorageBase._decapsulate in *. rewrite rev_app_distr, decapsulate_loop_app, Hdecap.
      simpl. unfold StorageBase.decapsulate_element. simpl. rewrite Hreg, String.eqb_refl.
      simpl. now rewrite (Hundo _ _ _ Henc).
    + apply (IH _ _ Hinv' Hloop).
  - discriminate.
Qed.

(** A full [_read] on a backend that holds both objects: its result, and what
    it passes to the read token bucket. *)
Lemma read_full_run (self : StorageBase.t) (block : DereferencedBlock) (w : World B)
    (stored metadata_json : Py.bytes) :
  let key := StorageBase._block_uid_to_key (DereferencedBlock.uid block) in
  stored_objects w !! key = Some stored ->
  stored_objects w !! (key +:+ StorageBase._META_SUFFIX) = Some metadata_json ->
  exists w',
    StorageBase._read self block false w
    = (read_full_result self block stored metadata_json, w')
    /\ World.read_throttling w'
       = StorageBase.read_consumed (Some stored) metadata_json :: World.read_throttling w.
Proof.
  intros key Hkey Hmeta. unfold StorageBase._read, read_full_result. fold key.
  simpl negb. cbv iota.
  destruct (call_read_object key w) as (w1 & Hr1 & Hk1 & Ht1). rewrite Hkey in Hr1.
  rewrite (bind_Ok _ _ w w1 (Some stored, Py.len stored));
    [| rewrite (bind_Ok _ _ _ _ _ Hr1); reflexivity].
  destruct (call_read_object (key +:+ StorageBase._META_SUFFIX) w1) as (w2 & Hr2 & Hk2 & Ht2).
  rewrite Hk1, Hmeta in Hr2. rewrite (bind_Ok _ _ _ _ _ Hr2).
  exists (World.set_read_throttling
            (StorageBase.read_consumed (Some stored) metadata_json :: World.read_throttling w2)
            w2).
  split; [| simpl; now rewrite Ht2, Ht1].
  unfold consume_read, lift, raise, mbind at 1 2, M_bind, mret, M_ret.
  destruct (StorageBase._decode_metadata self metadata_json key (Py.len stored))
    as [metadata|e]; [| reflexivity].
  destruct (Metadata.checksum metadata); [| reflexivity].
  destruct (Metadata.transforms metadata) as [tms|]; [| reflexivity].
  unfold mbind, M_bind.
  destruct (StorageBase._decapsulate stored tms); reflexivity.
Qed.

(** What a [_read] of the metadata alone passes to the read token bucket. *)
Lemma read_metadata_only_throttled (self : StorageBase.t) (block : DereferencedBlock)
    (w : World B) (stored metadata_json : Py.bytes) :
  let key := StorageBase._block_uid_to_key (DereferencedBlock.uid block) in
  stored_objects w !! key = Some stored ->
  stored_objects w !! (key +:+ StorageBase._META_SUFFIX) = Some metadata_json ->
  World.read_throttling (snd (StorageBase._read self block true w))
  = StorageBase.read_consumed None metadata_json :: World.read_throttling w.
Proof.
  intros key Hkey Hmeta. unfold StorageBase._read. fold key. simpl negb. cbv iota.
  destruct (call_read_object_length key w) as (w1 & Hr1 & Hk1 & Ht1). rewrite Hkey in Hr1.
  rewrite (bind_Ok _ _ w w1 (None, Py.len stored));
    [| rewrite (bind_Ok _ _ _ _ _ Hr1); reflexivity].
  destruct (call_read_object (key +:+ StorageBase._META_SUFFIX) w1) as (w2 & Hr2 & Hk2 & Ht2).
  rewrite Hk1, Hmeta in Hr2. rewrite (bind_Ok _ _ _ _ _ Hr2).
  unfold consume_read, lift, raise, mbind at 1 2, M_bind, mret, M_ret.
  destruct (StorageBase._decode_metadata self metadata_json key (Py.len stored))
    as [metadata|e]; [| simpl; now rewrite Ht2, Ht1].
  destruct (Metadata.checksum metadata); [| simpl; now rewrite Ht2, Ht1].
  unfold mbind, M_bind, mret, M_ret. simpl. now rewrite Ht2, Ht1.
Qed.

(** C3 (defect).  On a backend that holds the payload and the metadata of the
    block, a full read passes to the read token bucket the length of the
    payload when the payload is not empty, and the length of the metadata JSON
    when it is: [len(data) if data else 0 + len(metadata_json)] counts the
    metadata only in place of the payload, never next to it.  The read of the
    metadata alone passes the length of the metadata JSON. *)
Theorem C3_read_throttle_leaves_out_metadata :
  forall (self : StorageBase.t) (block : DereferencedBlock) (w : World B)
         (stored metadata_json : Py.bytes),
    let key := StorageBase._block_uid_to_key (DereferencedBlock.uid block) in
    stored_objects w !! key = Some stored ->
    stored_objects w !! (key +:+ StorageBase._META_SUFFIX) = Some metadata_json ->
    World.read_throttling (snd (StorageBase._read self block false w))
    = (match stored with
       | _ :: _ => Py.len stored
       | [] => Py.len metadata_json
       end) :: World.read_throttling w
    /\ World.read_throttling (snd (StorageBase._read self block true w))
       = Py.len metadata_json :: World.read_throttling w.
Proof.
  intros self block w stored metadata_json key Hkey Hmeta. split.
  - destruct (read_full_run self block w stored metadata_json Hkey Hmeta) as (w' & Hrun & Ht).
    rewrite Hrun. simpl. rewrite Ht. now destruct stored.
  - now rewrite (read_metadata_only_throttled self block w stored metadata_json Hkey Hmeta).
Qed.

(** C1, as amended.  For a block with a non-empty checksum: once [save] has
    returned, a synchronous [read] of the block returns the bytes that were
    saved, whatever the chain of active transforms, when each of them is the
    transform registered under its name and undoes with [decapsulate] what
    its [encapsulate] did, the backend keeps what is written to it, and the
    JSON of the metadata parses back to it. *)
Theorem C1_read_returns_what_save_stored :
  forall (self : StorageBase.t) (block : DereferencedBlock) (data : Py.bytes)
         (w w' : World B),
    (forall m, json_loads (json_dumps m) = Some m) ->
    transforms_invertible self ->
    Py.truthy_str (DereferencedBlock.checksum block) = true ->
    StorageBase.save self block data w = (Ok tt, w') ->
    fst (StorageBase.read self block false w') = Ok (Some data).
Proof using Type contract.
  intros self block data w w' Hjson Hinv Hchecksum Hsave.
  destruct (save_stores _ _ _ _ _ Hsave) as (stored & tms & Henc & Hkey & Hmeta & _).
  cbv zeta in Hkey, Hmeta.
  destruct (read_full_run self block w' stored _ Hkey Hmeta) as (w'' & Hrun & _).
  assert (Hread : fst (StorageBase._read self block false w')
                  = read_full_result self block stored
                      (snd (StorageBase._build_metadata self (DereferencedBlock.size block)
                              (Py.len stored) (Some tms) (DereferencedBlock.checksum block))))
    by now rewrite Hrun.
  clear w'' Hrun. unfold read_full_result in Hread.
  rewrite decode_built_metadata in Hread by exact Hjson.
  destruct (build_metadata_fields self (DereferencedBlock.size block) (Py.len stored) tms
              (DereferencedBlock.checksum block)) as (_ & _ & Hc & Ht).
  cbv zeta in Hc, Ht. rewrite Hc, Ht, Hchecksum in Hread.
  destruct (DereferencedBlock.checksum block) as [c|]; [| discriminate].
  unfold StorageBase._encapsulate in Henc.
  destruct (encapsulate_loop_undone _ _ _ _ _ Hinv Henc) as (added & Hadded & Hdecap & Hnone).
  simpl in Hadded. subst tms.
  assert (Hresult : fst (StorageBase._read self block false w')
                    = Ok (block, Some data,
                          fst (StorageBase._build_metadata self (DereferencedBlock.size block)
                                 (Py.len stored) (Some added) (Some c)))).
  { rewrite Hread. destruct added as [|e es].
    - now rewrite (Hnone eq_refl).
    - now rewrite Hdecap. }
  unfold StorageBase.read, mbind, M_bind.
  destruct (StorageBase._read self block false w') as [r w'']. simpl in Hresult. subst r.
  reflexivity.
Qed.

End SaveRead.

(** ** Runs on the in-memory backend and the sample externals *)

Example sample_key_is_block_uid_to_key :
  StorageBase._block_uid_to_key (DereferencedBlock.uid Sample.block) = sample_key.
Proof. reflexivity. Qed.

Lemma sample_bytes_to_positive (p : positive) :
  Sample.bytes_to_positive (Sample.positive_to_bytes p) = Some p.
Proof. induction p as [p IH|p IH|]; simpl; [now rewrite IH .. | reflexivity]. Qed.

Lemma sample_json_round_trip (m : Metadata) : json_loads (json_dumps m) = Some m.
Proof.
  simpl. unfold Sample.loads, Sample.dumps. rewrite sample_bytes_to_positive. simpl.
  apply decode_encode.
Qed.

Lemma sample_transforms_invertible : transforms_invertible Sample.full_storage.
Proof.
  intros transform [Ht | [Ht | []]]; injection Ht as <-; (split; [reflexivity |]).
  - intros data encapsulated materials. simpl. intros [= <- <-]. now rewrite rev_involutive.
  - intros data encapsulated materials. simpl.
    destruct data as [|b data]; [now intros [= <- <-] |].
    destruct (Byte.eqb b xff); [discriminate |]. now intros [= <- <-].
Qed.

Lemma run_result {B A} (m : M B A) (w : World B) (a : A) :
  fst (m w) = Ok a -> m w = (Ok a, snd (m w)).
Proof. destruct (m w) as [r w']. simpl. now intros ->. Qed.

(** The sample block goes through both transforms, the HMAC and the
    consistency check and comes back as it was saved. *)
Lemma C1_witness :
  fst (StorageBase.read Sample.full_storage Sample.block false
         (snd (StorageBase.save Sample.full_storage Sample.block Sample.payload
                 (MemoryBackend.world MemoryBackend.empty))))
  = Ok (Some Sample.payload).
Proof.
  apply (C1_read_returns_what_save_stored Sample.full_storage Sample.block Sample.payload
           (MemoryBackend.world MemoryBackend.empty)).
  - exact sample_json_round_trip.
  - exact sample_transforms_invertible.
  - reflexivity.
  - apply run_result. vm_compute. reflexivity.
Defined.

(** C1, as stated, fails: [save] of a block without checksum returns, and the
    read of that block raises [KeyError] for the missing checksum. *)
Lemma C1_counterexample :
  let saved := StorageBase.save Sample.plain_storage block_without_checksum Sample.payload
                 (MemoryBackend.world MemoryBackend.empty) in
  fst saved = Ok tt
  /\ fst (StorageBase.read Sample.plain_storage block_without_checksum false (snd saved))
     = Err (KeyError "checksum").
Proof. split; vm_compute; reflexivity. Qed.

(** The metadata of the sample block as the full sample storage writes it. *)
Lemma C2_witness :
  exists stored transforms_metadata metadata,
    StorageBase._encapsulate Sample.full_storage Sample.payload
    = Ok (stored, transforms_metadata)
    /\ stored_objects
         (snd (StorageBase.save Sample.full_storage Sample.block Sample.payload
                 (MemoryBackend.world MemoryBackend.empty)))
         !! (StorageBase._block_uid_to_key (DereferencedBlock.uid Sample.block)
             +:+ StorageBase._META_SUFFIX)
       = Some (json_dumps metadata)
    /\ Metadata.size metadata = Some (DereferencedBlock.size Sample.block)
    /\ Metadata.object_size metadata = Some (Py.len stored)
    /\ Metadata.checksum metadata
       = (if Py.truthy_str (DereferencedBlock.checksum Sample.block)
          then DereferencedBlock.checksum Sample.block else None).
Proof.
  assert (Hsave : StorageBase.save Sample.full_storage Sample.block Sample.payload
                    (MemoryBackend.world MemoryBackend.empty)
                  = (Ok tt,
                     snd (StorageBase.save Sample.full_storage Sample.block Sample.payload
                            (MemoryBackend.world MemoryBackend.empty))))
    by (apply run_result; vm_compute; reflexivity).
  exact (C2_saved_metadata_records_the_block_size Sample.full_storage Sample.block
           Sample.payload (MemoryBackend.world MemoryBackend.empty) _ Hsave).
Defined.

(** C2, as stated, fails: the recorded [size] is the size of the block, not
    the length of the data, and an empty checksum is not recorded. *)
Lemma C2_counterexample :
  Py.len short_payload = 3
  /\ (Metadata.size <$> metadata_saved_for Sample.block short_payload) = Some (Some 4)
  /\ (Metadata.checksum <$> metadata_saved_for block_with_empty_checksum Sample.payload)
     = Some None.
Proof. repeat split; vm_compute; reflexivity. Qed.

(** *** Throttle accounting of [_read] *)

(** On the sample block: the full read passes four, the payload bytes, and
    leaves out the metadata; the read of the metadata alone passes the length
    of the metadata. *)
Lemma C3_witness :
  fst (StorageBase._read Sample.plain_storage Sample.block false world_after_save)
  = Ok (Sample.block, Some Sample.payload,
        Metadata.mk (Some 4) (Some 4) (Some "abcd") None None)
  /\ 0 < Py.len saved_metadata_json
  /\ World.read_throttling
       (snd (StorageBase._read Sample.plain_storage Sample.block false world_after_save))
     = [4]
  /\ World.read_throttling
       (snd (StorageBase._read Sample.plain_storage Sample.block true world_after_save))
     = [Py.len saved_metadata_json].
Proof.
  assert (Hkey : stored_objects world_after_save
                   !! StorageBase._block_uid_to_key (DereferencedBlock.uid Sample.block)
                 = Some Sample.payload) by (vm_compute; reflexivity).
  assert (Hmeta : stored_objects world_after_save
                    !! (StorageBase._block_uid_to_key (DereferencedBlock.uid Sample.block)
                        +:+ StorageBase._META_SUFFIX)
                  = Some saved_metadata_json) by (vm_compute; reflexivity).
  destruct (C3_read_throttle_leaves_out_metadata Sample.plain_storage Sample.block
              world_after_save Sample.payload saved_metadata_json Hkey Hmeta) as [Hfull Honly].
  split; [vm_compute; reflexivity |]. split; [vm_compute; reflexivity |].
  split; [exact Hfull | exact Honly].
Defined.

(** The write path counts both. *)
Example write_throttle_counts_both :
  World.write_throttling world_after_save = [4 + Py.len saved_metadata_json].
Proof. vm_compute. reflexivity. Qed.

(** *** Cleanup after a failed write *)

(** On the in-memory backend that refuses the payload and holds left-over
    metadata: the requests received are the write and one removal, and the
    metadata object is still there. *)
Lemma C5_witness :
  let run := StorageBase.save Sample.plain_storage Sample.block Sample.payload
               (MemoryBackend.world backend_refusing_payload) in
  fst run = Err (OtherError "write refused")
  /\ rev (MemoryBackend.requests (World.backend (snd run)))
     = [MemoryBackend.WriteObject sample_key; MemoryBackend.RmObject sample_key]
  /\ MemoryBackend.store (World.backend (snd run)) !! sample_metadata_key = Some [x7b; x7d].
Proof.
  destruct (C5_cleanup_skips_metadata_after_missing_payload Sample.plain_storage Sample.block
              Sample.payload (MemoryBackend.world backend_refusing_payload)
              Sample.payload [] (OtherError "write refused") sample_key
              (MemoryBackend.mk {[ sample_metadata_key := [x7b; x7d] ]} [sample_key]
                 [MemoryBackend.WriteObject sample_key])
              (MemoryBackend.mk {[ sample_metadata_key := [x7b; x7d] ]} [sample_key]
                 [MemoryBackend.RmObject sample_key; MemoryBackend.WriteObject sample_key]))
    as [Hraised Hbackend]; [reflexivity | vm_compute; reflexivity ..|].
  cbv zeta. rewrite Hbackend. split; [exact Hraised |]. split; vm_compute; reflexivity.
Defined.

(** [rm] does attempt both removals in the same situation. *)
Example rm_attempts_both :
  let run := StorageBase.rm (DereferencedBlock.uid Sample.block)
               (MemoryBackend.world backend_refusing_payload) in
  fst run = Err (FileNotFoundError sample_key)
  /\ rev (MemoryBackend.requests (World.backend (snd run)))
     = [MemoryBackend.RmObject sample_key; MemoryBackend.RmObject sample_metadata_key]
  /\ MemoryBackend.store (World.backend (snd run)) !! sample_metadata_key = None.
Proof. repeat split; vm_compute; reflexivity. Qed.

(** [save_version] has the same handler and leaves the metadata behind in the
    same way. *)
Example save_version_cleanup_skips_metadata :
  let run := StorageBase.save_version Sample.plain_storage (VersionUid.mk "V0000000001" eq_refl) "a" true
               (MemoryBackend.world
                  (MemoryBackend.mk {[ "versions/d4/1d/V0000000001.meta" := [x7b; x7d] ]}
                     ["versions/d4/1d/V0000000001"] [])) in
  fst run = Err (OtherError "write refused")
  /\ rev (MemoryBackend.requests (World.backend (snd run)))
     = [MemoryBackend.WriteObject "versions/d4/1d/V0000000001";
        MemoryBackend.RmObject "versions/d4/1d/V0000000001"]
  /\ MemoryBackend.store (World.backend (snd run)) !! "versions/d4/1d/V0000000001.meta"
     = Some [x7b; x7d].
Proof. repeat split; vm_compute; reflexivity. Qed.

(** When the metadata write fails after the payload was written, both removals
    are attempted. *)
Example cleanup_after_metadata_failure :
  let run := StorageBase.save Sample.plain_storage Sample.block Sample.payload
               (MemoryBackend.world (MemoryBackend.mk ∅ [sample_metadata_key] [])) in
  fst run = Err (OtherError "write refused")
  /\ rev (MemoryBackend.requests (World.backend (snd run)))
     = [MemoryBackend.WriteObject sample_key; MemoryBackend.WriteObject sample_metadata_key;
        MemoryBackend.RmObject sample_key; MemoryBackend.RmObject sample_metadata_key]
  /\ MemoryBackend.store (World.backend (snd run)) = ∅.
Proof. repeat split; vm_compute; reflexivity. Qed.

(** * Further properties of the storage layer *)

(** ** Keys *)

Section Keys.
Context `{Externals}.

(** The fan-out of a key has six characters. *)
Lemma length_fanout (digest : string) :
  String.length digest = 32%nat ->
  String.length (Py.slice 0 2 digest +:+ "/" +:+ Py.slice 2 4 digest +:+ "/") = 6%nat.
Proof.
  intros Hd. repeat first [rewrite length_app | progress cbn [String.length]].
  rewrite !length_slice by lia. reflexivity.
Qed.

Lemma to_key_shape (prefix object_key : string) :
  Py.is_ascii object_key = true ->
  StorageBase._to_key prefix object_key
  = Ok (prefix +:+ (Py.slice 0 2 (md5_hexdigest object_key) +:+ "/"
                    +:+ Py.slice 2 4 (md5_hexdigest object_key) +:+ "/") +:+ object_key).
Proof. intros Ha. rewrite to_key_ascii by exact Ha. now rewrite !app_assoc_str. Qed.

(** [_to_key] raises on an object key that is not ASCII, the
    [UnicodeEncodeError] of [encode('ascii')].  On the others [_from_key]
    undoes it, but for the empty object key, whose key it refuses. *)
Theorem from_key_to_key (prefix object_key : string) :
  (forall s, String.length (md5_hexdigest s) = 32%nat) ->
  (StorageBase._to_key prefix object_key ≫= StorageBase._from_key prefix)
  = if Py.is_ascii object_key then
      match object_key with
      | EmptyString => Err (RuntimeError InvalidKeyLength)
      | String _ _ => Ok object_key
      end
    else Err (ValueError AsciiEncodeError).
Proof.
  intros Hmd5.
  destruct (Py.is_ascii object_key) eqn:Ha;
    [| unfold StorageBase._to_key; now rewrite Ha].
  rewrite to_key_shape by exact Ha. cbn [mbind res_mbind res_bind].
  pose proof (length_fanout (md5_hexdigest object_key) (Hmd5 _)) as Hf.
  set (fanout := Py.slice 0 2 (md5_hexdigest object_key) +:+ "/"
                 +:+ Py.slice 2 4 (md5_hexdigest object_key) +:+ "/") in *.
  destruct object_key as [|c object_key].
  - apply from_key_short; [apply startswith_app |].
    rewrite !length_app, Hf. simpl. lia.
  - rewrite from_key_ok; [| apply startswith_app | rewrite !length_app, Hf; simpl; lia].
    f_equal. rewrite <- Hf, <- length_app, <- app_assoc_str. apply drop_length_app.
Qed.

(** The key of a block decodes to the UID of the block. *)
Lemma key_to_block_uid_of_key (block_uid : BlockUid) :
  (forall s, String.length (md5_hexdigest s) = 32%nat) ->
  0 <= BlockUid.left block_uid < 2 ^ 64 ->
  0 <= BlockUid.right block_uid < 2 ^ 64 ->
  StorageBase._key_to_block_uid (StorageBase._block_uid_to_key block_uid) = Ok block_uid.
Proof.
  intros Hmd5 Hleft Hright.
  pose proof (listed_block_uid_to_key block_uid Hmd5 Hleft Hright) as Hlisted.
  unfold listed in Hlisted.
  destruct (Py.endswith _ _); [discriminate |].
  destruct (StorageBase._key_to_block_uid _) as [u|e]; [| discriminate].
  now injection Hlisted as ->.
Qed.

(** The key of a block has forty-six characters. *)
Lemma length_block_key (block_uid : BlockUid) :
  (forall s, String.length (md5_hexdigest s) = 32%nat) ->
  0 <= BlockUid.left block_uid < 2 ^ 64 ->
  0 <= BlockUid.right block_uid < 2 ^ 64 ->
  String.length (StorageBase._block_uid_to_key block_uid) = 46%nat.
Proof.
  intros Hmd5 Hleft Hright.
  destruct (format_016x_spec _ Hleft) as (Hll & _).
  destruct (format_016x_spec _ Hright) as (Hrl & _).
  rewrite block_uid_to_key_text. cbv zeta.
  repeat first [rewrite length_app | progress cbn [String.length]].
  rewrite !length_slice by (rewrite ?Hmd5; lia).
  rewrite Hll, Hrl. reflexivity.
Qed.

(** Round trip of the block keys: [_key_to_block_uid] gives back the UID that
    [_block_uid_to_key] was given, for the UIDs of two 64-bit halves. *)
Theorem block_uid_key_round_trip (block_uid : BlockUid) :
  (forall s, String.length (md5_hexdigest s) = 32%nat) ->
  0 <= BlockUid.left block_uid < 2 ^ 64 ->
  0 <= BlockUid.right block_uid < 2 ^ 64 ->
  StorageBase._key_to_block_uid (StorageBase._block_uid_to_key block_uid) = Ok block_uid.
Proof. apply key_to_block_uid_of_key. Qed.

(** Two blocks never share an object: blocks with different UIDs have
    different keys and different metadata keys, and the key of a block is not
    the metadata key of any block. *)
Theorem block_keys_do_not_collide (uid1 uid2 : BlockUid) :
  (forall s, String.length (md5_hexdigest s) = 32%nat) ->
  0 <= BlockUid.left uid1 < 2 ^ 64 -> 0 <= BlockUid.right uid1 < 2 ^ 64 ->
  0 <= BlockUid.left uid2 < 2 ^ 64 -> 0 <= BlockUid.right uid2 < 2 ^ 64 ->
  (uid1 <> uid2 ->
   StorageBase._block_uid_to_key uid1 <> StorageBase._block_uid_to_key uid2
   /\ StorageBase._block_uid_to_key uid1 +:+ StorageBase._META_SUFFIX
      <> StorageBase._block_uid_to_key uid2 +:+ StorageBase._META_SUFFIX)
  /\ StorageBase._block_uid_to_key uid1
     <> StorageBase._block_uid_to_key uid2 +:+ StorageBase._META_SUFFIX.
Proof.
  intros Hmd5 Hl1 Hr1 Hl2 Hr2.
  assert (Hkeys : StorageBase._block_uid_to_key uid1 = StorageBase._block_uid_to_key uid2 ->
                  uid1 = uid2).
  { intros Heq.
    pose proof (key_to_block_uid_of_key uid1 Hmd5 Hl1 Hr1) as H1.
    pose proof (key_to_block_uid_of_key uid2 Hmd5 Hl2 Hr2) as H2.
    rewrite Heq, H2 in H1. now injection H1. }
  split.
  - intros Hne. split; [intros Heq; now apply Hne, Hkeys |].
    intros Heq. apply Hne, Hkeys.
    apply (f_equal (Py.take (String.length (StorageBase._block_uid_to_key uid1)))) in Heq.
    rewrite take_length_app in Heq.
    rewrite (length_block_key uid1), <- (length_block_key uid2) in Heq by assumption.
    now rewrite take_length_app in Heq.
  - intros Heq. apply (f_equal String.length) in Heq.
    rewrite length_app, !length_block_key in Heq by assumption. simpl in Heq. lia.
Qed.

End Keys.

(** On the sample externals: the key of a version and back, the key of the
    empty object key, an object key with an e acute. *)
Lemma from_key_to_key_witness :
  (StorageBase._to_key "versions/" "V0000000001" ≫= StorageBase._from_key "versions/")
  = Ok "V0000000001"
  /\ (StorageBase._to_key "versions/" "" ≫= StorageBase._from_key "versions/")
     = Err (RuntimeError InvalidKeyLength)
  /\ (StorageBase._to_key "versions/" (String (ascii_of_N 233) "V1")
        ≫= StorageBase._from_key "versions/")
     = Err (ValueError AsciiEncodeError).
Proof.
  split; [| split].
  - exact (from_key_to_key (H := Sample.externals) "versions/" "V0000000001" (fun s => eq_refl)).
  - exact (from_key_to_key (H := Sample.externals) "versions/" "" (fun s => eq_refl)).
  - exact (from_key_to_key (H := Sample.externals) "versions/" (String (ascii_of_N 233) "V1")
             (fun s => eq_refl)).
Defined.

Lemma block_uid_key_round_trip_witness :
  StorageBase._key_to_block_uid
    (StorageBase._block_uid_to_key (BlockUid.mk 255 (2 ^ 64 - 1)))
  = Ok (BlockUid.mk 255 (2 ^ 64 - 1)).
Proof.
  apply (block_uid_key_round_trip (H := Sample.externals) (BlockUid.mk 255 (2 ^ 64 - 1))
           (fun s => eq_refl));
    simpl; lia.
Defined.

Lemma block_keys_do_not_collide_witness :
  StorageBase._block_uid_to_key (BlockUid.mk 1 2) <> StorageBase._block_uid_to_key (BlockUid.mk 2 1)
  /\ StorageBase._block_uid_to_key (BlockUid.mk 1 2)
     <> StorageBase._block_uid_to_key (BlockUid.mk 2 1) +:+ StorageBase._META_SUFFIX.
Proof.
  destruct (block_keys_do_not_collide (H := Sample.externals) (BlockUid.mk 1 2) (BlockUid.mk 2 1)
              (fun s => eq_refl))
    as [Hdistinct Hmeta]; try (simpl; lia).
  split; [apply Hdistinct; discriminate | exact Hmeta].
Defined.

(** ** The transform pipeline *)

Section Pipeline.
Context `{Externals}.

Lemma encapsulate_loop_encapsulated (transforms : list (option TransformBase))
    (data stored : Py.bytes) (recorded result : list TransformMetadata) :
  StorageBase.encapsulate_loop transforms data recorded = Ok (stored, result) ->
  exists active added,
    transforms = map Some active
    /\ result = (recorded ++ added)%list
    /\ encapsulated active data stored added.
Proof.
  revert data recorded; induction transforms as [|[transform|] transforms IH];
    intros data recorded Hloop; simpl in Hloop.
  - injection Hloop as <- <-. exists [], []. rewrite app_nil_r.
    repeat split. constructor.
  - destruct (TransformBase.encapsulate transform data) as [[encapsulated materials]|e]
      eqn:Henc; [| discriminate].
    destruct encapsulated as [[|b bs]|].
    + destruct (IH _ _ Hloop) as (active & added & -> & -> & Hrest).
      exists (transform :: active), added. repeat split.
      now apply (encapsulated_declined _ _ _ (Some []) materials).
    + destruct (IH _ _ Hloop) as (active & added & -> & -> & Hrest).
      exists (transform :: active),
        ({| tm_name := TransformBase.name transform;
            tm_module := TransformBase.module transform;
            tm_materials := materials |} :: added).
      split; [reflexivity |]. split; [now rewrite <- app_assoc |].
      now apply (encapsulated_taken _ _ _ b bs).
    + destruct (IH _ _ Hloop) as (active & added & -> & -> & Hrest).
      exists (transform :: active), added. repeat split.
      now apply (encapsulated_declined _ _ _ None materials).
  - discriminate.
Qed.

Lemma encapsulated_encapsulate_loop (active : list TransformBase) (data stored : Py.bytes)
    (added : list TransformMetadata) :
  encapsulated active data stored added ->
  forall recorded,
    StorageBase.encapsulate_loop (map Some active) data recorded
    = Ok (stored, (recorded ++ added)%list).
Proof.
  induction 1 as [data
                 | transform transforms data b bs materials stored added Henc _ IH
                 | transform transforms data declined materials stored added Henc Hd _ IH];
    intros recorded; simpl.
  - now rewrite app_nil_r.
  - rewrite Henc, IH. now rewrite <- app_assoc.
  - rewrite Henc. destruct declined as [[|b bs]|]; [apply IH | discriminate | apply IH].
Qed.

(** What [_encapsulate] does and records, exactly: it returns if and only if
    every active transform is a transform and the payload goes through them
    in their order, each one handed what the ones before it left and
    recorded, with its name, module and materials, when it returned bytes;
    the payload and the records it returns are the outcome of that. *)
Theorem encapsulate_records_the_transforms_applied (self : StorageBase.t)
    (data stored : Py.bytes) (transforms_metadata : list TransformMetadata) :
  StorageBase._encapsulate self data = Ok (stored, transforms_metadata)
  <-> exists active,
        StorageBase._active_transforms self = map Some active
        /\ encapsulated active data stored transforms_metadata.
Proof.
  unfold StorageBase._encapsulate. split.
  - intros Henc.
    destruct (encapsulate_loop_encapsulated _ _ _ _ _ Henc) as (active & added & Ha & -> & He).
    exists active. split; assumption.
  - intros (active & -> & He).
    now rewrite (encapsulated_encapsulate_loop active data stored transforms_metadata He []).
Qed.

(** Round trip of the pipeline: [_decapsulate] gives back what [_encapsulate]
    was given, from the payload and the records it returned. *)
Theorem decapsulate_undoes_encapsulate (self : StorageBase.t) (data stored : Py.bytes)
    (transforms_metadata : list TransformMetadata) :
  transforms_invertible self ->
  StorageBase._encapsulate self data = Ok (stored, transforms_metadata) ->
  StorageBase._decapsulate stored transforms_metadata = Ok data.
Proof.
  intros Hinv Henc. unfold StorageBase._encapsulate in Henc.
  destruct (encapsulate_loop_undone _ _ _ _ _ Hinv Henc) as (added & Hadded & Hdecap & _).
  simpl in Hadded. now subst added.
Qed.

End Pipeline.

(** The framer declines a payload that starts with [xff]: the reverser alone
    is recorded, and the payload is the reversed one. *)
Lemma encapsulate_records_witness :
  exists active,
    StorageBase._active_transforms Sample.full_storage = map Some active
    /\ encapsulated active [x01; x02; xff] [xff; x02; x01] [element_reverser].
Proof.
  assert (Henc : StorageBase._encapsulate Sample.full_storage [x01; x02; xff]
                 = Ok ([xff; x02; x01], [element_reverser])) by reflexivity.
  exact (proj1 (encapsulate_records_the_transforms_applied _ _ _ _) Henc).
Defined.

Lemma decapsulate_undoes_encapsulate_witness :
  StorageBase._decapsulate [x7e; x03; x02; x01; x00]
    [ {| tm_name := "reverser"; tm_module := "sample.reverse"; tm_materials := "" |};
      {| tm_name := "framer"; tm_module := "sample.frame"; tm_materials := "framed" |} ]
  = Ok Sample.payload.
Proof.
  exact (decapsulate_undoes_encapsulate Sample.full_storage Sample.payload _ _
           sample_transforms_invertible eq_refl).
Defined.

(** ** What a read returns *)

Section ReadResults.
Context `{Externals} {B : Type} `{Backend B}.

(** What [_decode_metadata] has checked when it returns. *)
Lemma decode_metadata_Ok (self : StorageBase.t) (metadata_json : Py.bytes) (key : string)
    (data_length : Z) (metadata : Metadata) :
  StorageBase._decode_metadata self metadata_json key data_length = Ok metadata ->
  json_loads metadata_json = Some metadata
  /\ Metadata.object_size metadata = Some data_length
  /\ is_Some (Metadata.size metadata).
Proof.
  unfold StorageBase._decode_metadata.
  destruct (json_loads metadata_json) as [m|]; [| discriminate].
  destruct (match StorageBase._dict_hmac self with Some _ => _ | None => _ end);
    [| discriminate].
  cbn [mbind res_mbind res_bind].
  destruct (Metadata.object_size m) as [object_size|] eqn:Ho; [| discriminate].
  destruct (Metadata.size m) as [size|] eqn:Hs; [| discriminate].
  destruct (Z.eqb_spec data_length object_size) as [->|]; [| discriminate].
  intros [= <-]. rewrite Hs. eauto.
Qed.

(** The shape of what a [_read] that returns hands back. *)
Lemma read_result_shape (self : StorageBase.t) (block : DereferencedBlock)
    (metadata_only : bool) (w w' : World B) (returned : DereferencedBlock)
    (data : option Py.bytes) (metadata : Metadata) :
  StorageBase._read self block metadata_only w = (Ok (returned, data, metadata), w') ->
  returned = block
  /\ (if metadata_only then data = None else is_Some data)
  /\ is_Some (Metadata.size metadata)
  /\ is_Some (Metadata.object_size metadata)
  /\ is_Some (Metadata.checksum metadata).
Proof.
  unfold StorageBase._read. intros Hread.
  apply bind_Ok_inv in Hread as ([d0 data_length] & w1 & Hfetch & Hread).
  apply bind_Ok_inv in Hread as (metadata_json & w2 & _ & Hread).
  apply bind_Ok_inv in Hread as (u & w3 & _ & Hread).
  apply bind_Ok_inv in Hread as (m & w4 & Hdecode & Hread).
  unfold lift in Hdecode. injection Hdecode as Hdecode _.
  apply decode_metadata_Ok in Hdecode as (_ & Hobject_size & Hsize).
  destruct (Metadata.checksum m) as [c|] eqn:Hchecksum; [| discriminate].
  apply bind_Ok_inv in Hread as (d1 & w5 & Hdecap & Hret).
  unfold mret, M_ret in Hret. injection Hret as <- <- <- _.
  assert (Hdata : if metadata_only then d1 = None else is_Some d1).
  { destruct metadata_only; simpl in Hfetch, Hdecap.
    - apply bind_Ok_inv in Hfetch as (n & w6 & _ & Hret).
      unfold mret, M_ret in Hret. injection Hret as <- _ _.
      unfold mret, M_ret in Hdecap. now injection Hdecap as <-.
    - apply bind_Ok_inv in Hfetch as (d & w6 & _ & Hret).
      unfold mret, M_ret in Hret. injection Hret as <- _ _.
      destruct (Metadata.transforms m) as [tms|].
      + apply bind_Ok_inv in Hdecap as (d' & w7 & _ & Hret).
        unfold mret, M_ret in Hret. injection Hret as <- _. eauto.
      + unfold mret, M_ret in Hdecap. injection Hdecap as <- _. eauto. }
  repeat split; try assumption; rewrite ?Hobject_size, ?Hchecksum; eauto.
Qed.


End ReadResults.


(** ** On a backend that keeps its contract *)

Section LawfulBackend.
Context `{Externals} {B : Type} `{Backend B} {contract : BackendContract B}.

Lemma read_metadata_only_run (self : StorageBase.t) (block : DereferencedBlock) (w : World B)
    (stored metadata_json : Py.bytes) :
  let key := StorageBase._block_uid_to_key (DereferencedBlock.uid block) in
  stored_objects w !! key = Some stored ->
  stored_objects w !! (key +:+ StorageBase._META_SUFFIX) = Some metadata_json ->
  fst (StorageBase._read self block true w)
  = read_metadata_only_result self block stored metadata_json.
Proof.
  intros key Hkey Hmeta. unfold StorageBase._read, read_metadata_only_result. fold key.
  simpl negb. cbv iota.
  destruct (call_read_object_length key w) as (w1 & Hr1 & Hk1 & _). rewrite Hkey in Hr1.
  rewrite (bind_Ok _ _ w w1 (None, Py.len stored));
    [| rewrite (bind_Ok _ _ _ _ _ Hr1); reflexivity].
  destruct (call_read_object (key +:+ StorageBase._META_SUFFIX) w1) as (w2 & Hr2 & _ & _).
  rewrite Hk1, Hmeta in Hr2. rewrite (bind_Ok _ _ _ _ _ Hr2).
  unfold consume_read, lift, raise, mbind at 1 2, M_bind, mret, M_ret.
  destruct (StorageBase._decode_metadata self metadata_json key (Py.len stored))
    as [metadata|e]; [| reflexivity].
  destruct (Metadata.checksum metadata); reflexivity.
Qed.

Lemma decode_metadata_wrong_length (self : StorageBase.t) (metadata_json : Py.bytes)
    (key : string) (data_length object_size : Z) (metadata : Metadata) :
  json_loads metadata_json = Some metadata ->
  hmac_verifies self metadata ->
  Metadata.object_size metadata = Some object_size ->
  is_Some (Metadata.size metadata) ->
  object_size <> data_length ->
  StorageBase._decode_metadata self metadata_json key data_length
  = Err (ValueError ObjectSizeMismatch).
Proof.
  intros Hjson Hhmac Ho [size Hs] Hne. unfold StorageBase._decode_metadata, hmac_verifies in *.
  rewrite Hjson.
  assert (Hverify : match StorageBase._dict_hmac self with
                    | Some dict_hmac => DictHMAC.verify_hexdigest dict_hmac metadata
                    | None => Ok tt
                    end = Ok tt)
    by (destruct (StorageBase._dict_hmac self); [exact Hhmac | reflexivity]).
  rewrite Hverify. cbn [mbind res_mbind res_bind]. rewrite Ho, Hs.
  destruct (Z.eqb_spec data_length object_size); [congruence | reflexivity].
Qed.

(** A payload whose length is not the recorded object size is not returned:
    the full read and the read of the metadata alone both raise the value
    error of the length check, before checksum or transforms are looked at. *)
Theorem read_rejects_payload_of_wrong_length (self : StorageBase.t)
    (block : DereferencedBlock) (w : World B) (stored metadata_json : Py.bytes)
    (metadata : Metadata) (object_size : Z) (metadata_only : bool) :
  let key := StorageBase._block_uid_to_key (DereferencedBlock.uid block) in
  stored_objects w !! key = Some stored ->
  stored_objects w !! (key +:+ StorageBase._META_SUFFIX) = Some metadata_json ->
  json_loads metadata_json = Some metadata ->
  hmac_verifies self metadata ->
  Metadata.object_size metadata = Some object_size ->
  is_Some (Metadata.size metadata) ->
  object_size <> Py.len stored ->
  fst (StorageBase._read self block metadata_only w) = Err (ValueError ObjectSizeMismatch).
Proof using Type contract.
  intros key Hkey Hmeta Hjson Hhmac Ho Hs Hne.
  pose proof (decode_metadata_wrong_length self metadata_json key (Py.len stored) object_size
                metadata Hjson Hhmac Ho Hs Hne) as Hdecode.
  destruct metadata_only.
  - rewrite (read_metadata_only_run self block w stored metadata_json Hkey Hmeta).
    unfold read_metadata_only_result. fold key. now rewrite Hdecode.
  - destruct (read_full_run self block w stored metadata_json Hkey Hmeta) as (w' & -> & _).
    unfold read_full_result. fold key. simpl. now rewrite Hdecode.
Qed.

End LawfulBackend.

Lemma read_rejects_payload_of_wrong_length_witness :
  fst (StorageBase._read Sample.plain_storage Sample.block false world_with_truncated_payload)
  = Err (ValueError ObjectSizeMismatch)
  /\ fst (StorageBase._read Sample.plain_storage Sample.block true world_with_truncated_payload)
     = Err (ValueError ObjectSizeMismatch).
Proof.
  assert (Hkey : stored_objects world_with_truncated_payload
                   !! StorageBase._block_uid_to_key (DereferencedBlock.uid Sample.block)
                 = Some short_payload) by (vm_compute; reflexivity).
  assert (Hmeta : stored_objects world_with_truncated_payload
                    !! (StorageBase._block_uid_to_key (DereferencedBlock.uid Sample.block)
                        +:+ StorageBase._META_SUFFIX)
                  = Some saved_metadata_json) by (vm_compute; reflexivity).
  assert (Hjson : json_loads saved_metadata_json
                  = Some (Metadata.mk (Some 4) (Some 4) (Some "abcd") None None))
    by (vm_compute; reflexivity).
  split.
  - apply (read_rejects_payload_of_wrong_length Sample.plain_storage Sample.block
             world_with_truncated_payload short_payload saved_metadata_json _ 4 false
             Hkey Hmeta Hjson I eq_refl (ex_intro _ 4 eq_refl)).
    vm_compute. discriminate.
  - apply (read_rejects_payload_of_wrong_length Sample.plain_storage Sample.block
             world_with_truncated_payload short_payload saved_metadata_json _ 4 true
             Hkey Hmeta Hjson I eq_refl (ex_intro _ 4 eq_refl)).
    vm_compute. discriminate.
Defined.

(** ** Removal *)

Section Removal.
Context `{Externals} {B : Type} `{Backend B} {contract : BackendContract B}
        {removal : RemovalContract B}.

Lemma call_rm_object (key : string) (w : World B) :
  exists w',
    call (_rm_object key) w
    = (match stored_objects w !! key with
       | Some _ => Ok tt
       | None => Err (FileNotFoundError key)
       end, w')
    /\ stored_objects w' = delete key (stored_objects w)
    /\ World._read_cache w' = World._read_cache w
    /\ World._use_read_cache w' = World._use_read_cache w.
Proof using Type removal.
  unfold call, stored_objects.
  pose proof (rm_object_returns key (World.backend w)) as Hr.
  pose proof (rm_object_removes key (World.backend w)) as Hk.
  destruct (_rm_object key (World.backend w)) as [r b']. simpl in *. subst r.
  eexists. split; [reflexivity |]. split; [exact Hk |]. split; reflexivity.
Qed.

(** The removal of the metadata object inside its [try]: it never raises on
    a backend whose only failure is the missing object. *)
Lemma rm_metadata_tolerant (metadata_key : string) (w : World B) :
  exists w',
    try_except (call (_rm_object metadata_key))
      (fun e => if is_FileNotFoundError e then mret tt else raise e) w
    = (Ok tt, w')
    /\ stored_objects w' = delete metadata_key (stored_objects w)
    /\ World._read_cache w' = World._read_cache w
    /\ World._use_read_cache w' = World._use_read_cache w.
Proof using Type removal.
  destruct (call_rm_object metadata_key w) as (w' & Hr & Hk & Hc & Hu).
  exists w'. unfold try_except. rewrite Hr.
  destruct (stored_objects w !! metadata_key); simpl; repeat split; assumption.
Qed.

Lemma rm_run (uid : BlockUid) (w : World B) :
  let key := StorageBase._block_uid_to_key uid in
  exists w',
    StorageBase.rm uid w
    = (match stored_objects w !! key with
       | Some _ => Ok tt
       | None => Err (FileNotFoundError key)
       end, w')
    /\ stored_objects w'
       = delete (key +:+ StorageBase._META_SUFFIX) (delete key (stored_objects w))
    /\ World._read_cache w' = World._read_cache w
    /\ World._use_read_cache w' = World._use_read_cache w.
Proof using Type removal.
  intros key. unfold StorageBase.rm, try_finally. fold key.
  destruct (call_rm_object key w) as (w1 & Hr1 & Hk1 & Hc1 & Hu1). rewrite Hr1.
  destruct (rm_metadata_tolerant (key +:+ StorageBase._META_SUFFIX) w1)
    as (w2 & Hr2 & Hk2 & Hc2 & Hu2).
  rewrite Hr2. exists w2. split; [reflexivity |].
  split; [now rewrite Hk2, Hk1 |]. split; congruence.
Qed.

(** [rm] removes the payload and the metadata object of the block, whatever
    was there: afterwards the backend holds neither, and every other object is
    as before.  It raises [FileNotFoundError] exactly when there was no
    payload; a missing metadata object is not an error. *)
Theorem rm_removes_payload_and_metadata (uid : BlockUid) (w : World B) :
  let key := StorageBase._block_uid_to_key uid in
  let metadata_key := key +:+ StorageBase._META_SUFFIX in
  let after := stored_objects (snd (StorageBase.rm uid w)) in
  fst (StorageBase.rm uid w)
  = (match stored_objects w !! key with
     | Some _ => Ok tt
     | None => Err (FileNotFoundError key)
     end)
  /\ after !! key = None
  /\ after !! metadata_key = None
  /\ (forall other, other <> key -> other <> metadata_key ->
        after !! other = stored_objects w !! other).
Proof using Type contract removal.
  intros key metadata_key after. subst after.
  destruct (rm_run uid w) as (w' & -> & Hk & _). fold key in Hk. fold metadata_key in Hk.
  simpl. rewrite Hk. split; [reflexivity |]. split; [| split].
  - destruct (decide (key = metadata_key)) as [<- | Hne].
    + apply lookup_delete_eq.
    + rewrite lookup_delete_ne by congruence. apply lookup_delete_eq.
  - apply lookup_delete_eq.
  - intros other H1 H2. now rewrite !lookup_delete_ne by congruence.
Qed.

(** A block that was removed cannot be read: [_read], full or of the
    metadata alone, raises [FileNotFoundError] for the payload key. *)
Theorem read_after_rm_finds_nothing (self : StorageBase.t) (block : DereferencedBlock)
    (metadata_only : bool) (w : World B) :
  let key := StorageBase._block_uid_to_key (DereferencedBlock.uid block) in
  fst (StorageBase._read self block metadata_only
         (snd (StorageBase.rm (DereferencedBlock.uid block) w)))
  = Err (FileNotFoundError key).
Proof using Type contract removal.
  intros key.
  destruct (rm_run (DereferencedBlock.uid block) w) as (w' & -> & Hk & _). fold key in Hk.
  simpl snd.
  assert (Hgone : stored_objects w' !! key = None).
  { rewrite Hk. destruct (decide (key = key +:+ StorageBase._META_SUFFIX)) as [<- | Hne].
    - apply lookup_delete_eq.
    - rewrite lookup_delete_ne by congruence. apply lookup_delete_eq. }
  unfold StorageBase._read. fold key.
  destruct metadata_only; simpl negb; cbv iota.
  - destruct (call_read_object_length key w') as (w1 & Hr1 & _). rewrite Hgone in Hr1.
    erewrite bind_Err; [reflexivity |]. erewrite bind_Err; [reflexivity | exact Hr1].
  - destruct (call_read_object key w') as (w1 & Hr1 & _). rewrite Hgone in Hr1.
    erewrite bind_Err; [reflexivity |]. erewrite bind_Err; [reflexivity | exact Hr1].
Qed.

End Removal.

(** ** Cleanup after a failed write of the metadata *)

Section SaveCleanup.
Context `{Externals} {B : Type} `{Backend B} {contract : BackendContract B}
        {removal : RemovalContract B}.

(** The handler of a failed write, when the payload is there: both objects
    are removed and the write failure is raised again. *)
Lemma cleanup_removes_both {A} (key metadata_key : string) (e : exn) (w : World B) :
  is_Some (stored_objects w !! key) ->
  exists w',
    StorageBase.cleanup_and_reraise (A := A) key metadata_key e w = (Err e, w')
    /\ stored_objects w' = delete metadata_key (delete key (stored_objects w)).
Proof using Type removal.
  intros [d Hd]. unfold StorageBase.cleanup_and_reraise.
  destruct (call_rm_object key w) as (w1 & Hr1 & Hk1 & _). rewrite Hd in Hr1.
  destruct (call_rm_object metadata_key w1) as (w2 & Hr2 & Hk2 & _).
  exists w2. split; [| now rewrite Hk2, Hk1].
  unfold try_except, raise, mbind at 1, M_bind at 1.
  rewrite (bind_Ok _ _ _ _ _ Hr1), Hr2.
  destruct (stored_objects w1 !! metadata_key); reflexivity.
Qed.

(** When the payload was written and the write of the metadata object then
    fails, [save] raises that failure and leaves neither object behind,
    provided the payload is still there after the failed write. *)
Theorem save_removes_payload_when_metadata_write_fails (self : StorageBase.t)
    (block : DereferencedBlock) (data : Py.bytes) (w : World B)
    (stored : Py.bytes) (transforms_metadata : list TransformMetadata)
    (e : exn) (b1 b2 : B) :
  let key := StorageBase._block_uid_to_key (DereferencedBlock.uid block) in
  let metadata_key := key +:+ StorageBase._META_SUFFIX in
  let metadata_json :=
    snd (StorageBase._build_metadata self (DereferencedBlock.size block) (Py.len stored)
           (Some transforms_metadata) (DereferencedBlock.checksum block)) in
  let after := stored_objects (snd (StorageBase.save self block data w)) in
  StorageBase._encapsulate self data = Ok (stored, transforms_metadata) ->
  _write_object key stored (World.backend w) = (Ok tt, b1) ->
  _write_object metadata_key metadata_json b1 = (Err e, b2) ->
  is_Some (objects b2 !! key) ->
  fst (StorageBase.save self block data w) = Err e
  /\ after !! key = None
  /\ after !! metadata_key = None.
Proof using Type contract removal.
  intros key metadata_key metadata_json after Henc Hwrite1 Hwrite2 Hthere. subst after.
  enough (Hrun : exists w', StorageBase.save self block data w = (Err e, w')
                            /\ stored_objects w' !! key = None
                            /\ stored_objects w' !! metadata_key = None)
    by (destruct Hrun as (w' & -> & Hgone); exact (conj eq_refl Hgone)).
  unfold StorageBase.save, StorageBase._write. fold key. fold metadata_key.
  subst metadata_json.
  destruct (StorageBase._build_metadata self (DereferencedBlock.size block) (Py.len stored)
              (Some transforms_metadata) (DereferencedBlock.checksum block))
    as [metadata metadata_json] eqn:Hbuilt.
  simpl snd in Hwrite2.
  set (w1 := World.set_write_throttling
               ((Py.len stored + Py.len metadata_json) :: World.write_throttling w) w).
  set (w2 := World.set_backend b2 (World.set_backend b1 w1)).
  destruct (cleanup_removes_both (A := unit) key metadata_key e w2 Hthere)
    as (w3 & Hclean & Hk3).
  exists w3. split.
  - apply bind_Err.
    rewrite (bind_Ok _ _ w w (stored, transforms_metadata)) by (unfold lift; now rewrite Henc).
    cbv beta iota. rewrite Hbuilt.
    rewrite (bind_Ok _ _ w w1 tt) by reflexivity.
    apply bind_Err. unfold try_except.
    rewrite (bind_Ok _ _ w1 (World.set_backend b1 w1) tt)
      by (unfold call; cbn [World.backend w1 World.set_write_throttling]; now rewrite Hwrite1).
    assert (Hcall : call (_write_object metadata_key metadata_json) (World.set_backend b1 w1)
                    = (Err e, w2))
      by (unfold call; cbn [World.backend World.set_backend]; now rewrite Hwrite2).
    rewrite Hcall. exact Hclean.
  - rewrite Hk3. split.
    + destruct (decide (key = metadata_key)) as [Heq | Hne].
      * rewrite <- Heq. apply lookup_delete_eq.
      * rewrite lookup_delete_ne by congruence. apply lookup_delete_eq.
    + apply lookup_delete_eq.
Qed.

End SaveCleanup.

Lemma save_removes_payload_when_metadata_write_fails_witness :
  let key := StorageBase._block_uid_to_key (DereferencedBlock.uid Sample.block) in
  let after :=
    stored_objects (snd (StorageBase.save Sample.plain_storage Sample.block Sample.payload
                           (MemoryBackend.world backend_refusing_metadata))) in
  fst (StorageBase.save Sample.plain_storage Sample.block Sample.payload
         (MemoryBackend.world backend_refusing_metadata))
  = Err (OtherError "write refused")
  /\ after !! key = None
  /\ after !! (key +:+ StorageBase._META_SUFFIX) = None.
Proof.
  pose (b1 := snd (MemoryBackend.write_object sample_key Sample.payload
                     backend_refusing_metadata)).
  pose (b2 := snd (MemoryBackend.write_object sample_metadata_key saved_metadata_json b1)).
  assert (Henc : StorageBase._encapsulate Sample.plain_storage Sample.payload
                 = Ok (Sample.payload, [])) by reflexivity.
  assert (Hwrite1 :
            _write_object (StorageBase._block_uid_to_key (DereferencedBlock.uid Sample.block))
              Sample.payload (World.backend (MemoryBackend.world backend_refusing_metadata))
            = (Ok tt, b1)) by (vm_compute; reflexivity).
  assert (Hwrite2 :
            _write_object
              (StorageBase._block_uid_to_key (DereferencedBlock.uid Sample.block)
               +:+ StorageBase._META_SUFFIX)
              (snd (StorageBase._build_metadata Sample.plain_storage
                      (DereferencedBlock.size Sample.block) (Py.len Sample.payload)
                      (Some []) (DereferencedBlock.checksum Sample.block)))
              b1
            = (Err (OtherError "write refused"), b2)) by (vm_compute; reflexivity).
  assert (Hthere : is_Some (objects b2
                              !! StorageBase._block_uid_to_key
                                   (DereferencedBlock.uid Sample.block)))
    by (exists Sample.payload; vm_compute; reflexivity).
  exact (save_removes_payload_when_metadata_write_fails Sample.plain_storage Sample.block
           Sample.payload (MemoryBackend.world backend_refusing_metadata) Sample.payload []
           (OtherError "write refused") b1 b2 Henc Hwrite1 Hwrite2 Hthere).
Defined.

(** ** Versions *)

Section Versions.
Context `{Externals} `{Utf8Decoder} {B : Type} `{Backend B} {contract : BackendContract B}.

(** What a [save_version] that returns has left in the backend. *)
Lemma save_version_stores (self : StorageBase.t) (version_uid : VersionUid) (text : string)
    (overwrite : bool) (w w' : World B) :
  StorageBase.save_version self version_uid text overwrite w = (Ok tt, w') ->
  exists stored transforms_metadata,
    StorageBase._encapsulate self (Py.utf8_encode text) = Ok (stored, transforms_metadata)
    /\ let key := StorageBase._version_uid_to_key version_uid in
       let built := StorageBase._build_metadata self (Py.len (Py.utf8_encode text))
                      (Py.len stored) (Some transforms_metadata) None in
       stored_objects w' !! key = Some stored
       /\ stored_objects w' !! (key +:+ StorageBase._META_SUFFIX) = Some (snd built).
Proof.
  unfold StorageBase.save_version. intros Hsave.
  set (key := StorageBase._version_uid_to_key version_uid) in *.
  apply bind_Ok_inv in Hsave as (u0 & w0 & _ & Hsave).
  apply bind_Ok_inv in Hsave as ([stored tms] & w1 & Henc & Hrest).
  unfold lift in Henc. injection Henc as Henc <-.
  exists stored, tms. split; [exact Henc |].
  destruct (StorageBase._build_metadata self (Py.len (Py.utf8_encode text)) (Py.len stored)
              (Some tms) None) as [metadata metadata_json] eqn:Hbuilt.
  apply bind_Ok_inv in Hrest as (u2 & w4 & Hwrites & Hrest).
  apply try_except_Ok_inv in Hwrites; [| intros; apply cleanup_and_reraise_fails].
  apply bind_Ok_inv in Hwrites as (u3 & w5 & Hwrite1 & Hwrite2).
  apply call_write_object_Ok in Hwrite1. apply call_write_object_Ok in Hwrite2.
  assert (Hw4 : stored_objects w4 !! key = Some stored
                /\ stored_objects w4 !! (key +:+ StorageBase._META_SUFFIX) = Some metadata_json).
  { rewrite Hwrite2, Hwrite1. split.
    - rewrite lookup_insert_ne by apply meta_suffix_ne. apply lookup_insert_eq.
    - apply lookup_insert_eq. }
  assert (Hw' : stored_objects w' = stored_objects w4).
  { destruct (StorageBase._consistency_check_writes self).
    - pose proof (check_write_keeps self key (key +:+ StorageBase._META_SUFFIX) stored w4) as Hk.
      now rewrite Hrest in Hk.
    - unfold mret, M_ret in Hrest. now injection Hrest as <-. }
  simpl. rewrite Hw'. exact Hw4.
Qed.

(** What [read_version] returns on a backend that holds both objects. *)
Lemma read_version_run (self : StorageBase.t) (version_uid : VersionUid) (w : World B)
    (stored metadata_json : Py.bytes) :
  let key := StorageBase._version_uid_to_key version_uid in
  stored_objects w !! key = Some stored ->
  stored_objects w !! (key +:+ StorageBase._META_SUFFIX) = Some metadata_json ->
  fst (StorageBase.read_version self version_uid w)
  = (metadata ← StorageBase._decode_metadata self metadata_json key (Py.len stored);
     data ← match Metadata.transforms metadata with
            | Some transforms_metadata => StorageBase._decapsulate stored transforms_metadata
            | None => Ok stored
            end;
     match Metadata.size metadata with
     | None => Err (KeyError StorageBase._SIZE_KEY)
     | Some size =>
         if negb (Py.len data =? size) then Err StorageBase.original_length_mismatch
         else utf8_decode data
     end).
Proof.
  intros key Hkey Hmeta. unfold StorageBase.read_version. fold key.
  destruct (call_read_object key w) as (w1 & Hr1 & Hk1 & _). rewrite Hkey in Hr1.
  rewrite (bind_Ok _ _ _ _ _ Hr1).
  destruct (call_read_object (key +:+ StorageBase._META_SUFFIX) w1) as (w2 & Hr2 & _ & _).
  rewrite Hk1, Hmeta in Hr2. rewrite (bind_Ok _ _ _ _ _ Hr2).
  unfold lift, raise, mbind, M_bind, res_mbind, res_bind, mret, M_ret.
  destruct (StorageBase._decode_metadata self metadata_json key (Py.len stored))
    as [metadata|e]; [| reflexivity].
  destruct (Metadata.transforms metadata) as [tms|].
  - destruct (StorageBase._decapsulate stored tms) as [data|e]; [| reflexivity].
    destruct (Metadata.size metadata) as [size|]; [| reflexivity].
    now destruct (negb _).
  - destruct (Metadata.size metadata) as [size|]; [| reflexivity].
    now destruct (negb _).
Qed.

(** Once [save_version] has returned, [read_version] of the same version
    returns the text that was saved, whatever the chain of active transforms,
    when each of them is registered under its name and undoes with
    [decapsulate] what its [encapsulate] did, the JSON of the metadata parses
    back to it, and the UTF-8 bytes of the text decode to the text. *)
Theorem read_version_returns_what_save_version_stored (self : StorageBase.t)
    (version_uid : VersionUid) (text : string) (overwrite : bool) (w w' : World B) :
  (forall m, json_loads (json_dumps m) = Some m) ->
  transforms_invertible self ->
  utf8_decode (Py.utf8_encode text) = Ok text ->
  StorageBase.save_version self version_uid text overwrite w = (Ok tt, w') ->
  fst (StorageBase.read_version self version_uid w') = Ok text.
Proof using Type contract.
  intros Hjson Hinv Hutf8 Hsave.
  destruct (save_version_stores _ _ _ _ _ _ Hsave) as (stored & tms & Henc & Hkey & Hmeta).
  cbv zeta in Hkey, Hmeta.
  rewrite (read_version_run self version_uid w' stored _ Hkey Hmeta).
  rewrite decode_built_metadata by exact Hjson.
  destruct (build_metadata_fields self (Py.len (Py.utf8_encode text)) (Py.len stored) tms None)
    as (Hs & _ & _ & Ht).
  cbv zeta in Hs, Ht. cbn [mbind res_mbind res_bind]. rewrite Hs, Ht.
  unfold StorageBase._encapsulate in Henc.
  destruct (encapsulate_loop_undone _ _ _ _ _ Hinv Henc) as (added & Hadded & Hdecap & Hnone).
  simpl in Hadded. subst tms.
  destruct added as [|e es].
  - rewrite (Hnone eq_refl). cbn [mbind res_mbind res_bind]. now rewrite Z.eqb_refl.
  - rewrite Hdecap. cbn [mbind res_mbind res_bind]. now rewrite Z.eqb_refl.
Qed.

(** Without [overwrite], [save_version] refuses a version whose payload is in
    the backend: it raises [FileExistsError] and what is stored stays as it
    was. *)
Theorem save_version_refuses_existing_version (self : StorageBase.t)
    (version_uid : VersionUid) (text : string) (w : World B) (existing : Py.bytes) :
  stored_objects w !! StorageBase._version_uid_to_key version_uid = Some existing ->
  fst (StorageBase.save_version self version_uid text false w) = Err FileExistsError
  /\ stored_objects (snd (StorageBase.save_version self version_uid text false w))
     = stored_objects w.
Proof using Type contract.
  intros Hkey. unfold StorageBase.save_version.
  set (key := StorageBase._version_uid_to_key version_uid) in *.
  destruct (call_read_object key w) as (w1 & Hr1 & Hk1 & _). rewrite Hkey in Hr1.
  rewrite (bind_Err _ _ w w1 FileExistsError)
    by (change (negb false) with true; cbv beta iota; now rewrite Hr1).
  split; [reflexivity | exact Hk1].
Qed.

End Versions.

Lemma sample_utf8_round_trip (text : string) :
  sample_utf8_decode (Py.utf8_encode text) = Ok text.
Proof.
  induction text as [|c text IH]; [reflexivity |].
  destruct c as [[] [] [] [] [] [] [] []]; simpl; rewrite IH; reflexivity.
Qed.

Lemma read_version_returns_what_save_version_stored_witness :
  fst (StorageBase.read_version Sample.full_storage sample_version
         (snd (StorageBase.save_version Sample.full_storage sample_version sample_text false
                 (MemoryBackend.world MemoryBackend.empty))))
  = Ok sample_text.
Proof.
  apply (read_version_returns_what_save_version_stored Sample.full_storage sample_version
           sample_text false (MemoryBackend.world MemoryBackend.empty)).
  - exact sample_json_round_trip.
  - exact sample_transforms_invertible.
  - apply sample_utf8_round_trip.
  - apply run_result. vm_compute. reflexivity.
Defined.

(** A second [save_version] of the sample version is refused. *)
Lemma save_version_refuses_existing_version_witness :
  let saved := snd (StorageBase.save_version Sample.full_storage sample_version sample_text
                      false (MemoryBackend.world MemoryBackend.empty)) in
  fst (StorageBase.save_version Sample.full_storage sample_version "other" false saved)
  = Err FileExistsError
  /\ stored_objects (snd (StorageBase.save_version Sample.full_storage sample_version "other"
                            false saved))
     = stored_objects saved.
Proof.
  assert (Hkey : stored_objects
                   (snd (StorageBase.save_version Sample.full_storage sample_version
                           sample_text false (MemoryBackend.world MemoryBackend.empty)))
                   !! StorageBase._version_uid_to_key sample_version
                 = Some (x7e :: rev (Py.utf8_encode sample_text)))
    by (vm_compute; reflexivity).
  exact (save_version_refuses_existing_version Sample.full_storage sample_version "other"
           _ _ Hkey).
Defined.

(** ** What the methods leave alone *)

Section Frames.
Context {B X : Type} (proj : World B -> X).

Lemma keeps_ret {A} (a : A) : keeps proj (mret a).
Proof. now intros w. Qed.

Lemma keeps_raise {A} (e : exn) : keeps proj (raise (A := A) e).
Proof. now intros w. Qed.

Lemma keeps_lift {A} (r : res A) : keeps proj (lift r).
Proof. now intros w. Qed.

Lemma keeps_bind {A C} (m : M B A) (f : A -> M B C) :
  keeps proj m -> (forall a, keeps proj (f a)) -> keeps proj (m ≫= f).
Proof.
  intros Hm Hf w. unfold mbind, M_bind. specialize (Hm w).
  destruct (m w) as [[a|e] w1]; simpl in *; [now rewrite Hf | assumption].
Qed.

Lemma keeps_try_except {A} (body : M B A) (handler : exn -> M B A) :
  keeps proj body -> (forall e, keeps proj (handler e)) -> keeps proj (try_except body handler).
Proof.
  intros Hb Hh w. unfold try_except. specialize (Hb w).
  destruct (body w) as [[a|e] w1]; simpl in *; [assumption | now rewrite Hh].
Qed.

Lemma keeps_try_finally {A} (body : M B A) (final : M B unit) :
  keeps proj body -> keeps proj final -> keeps proj (try_finally body final).
Proof.
  intros Hb Hf w. unfold try_finally. specialize (Hb w).
  destruct (body w) as [r w1]. specialize (Hf w1).
  destruct (final w1) as [[u|e] w2]; simpl in *; congruence.
Qed.

End Frames.

Section CacheFrames.
Context `{Externals} {B : Type} `{Backend B}.

Lemma keeps_cache_call {A} (op : B -> res A * B) : keeps cache_state (call op).
Proof. intros w. unfold call. now destruct (op (World.backend w)). Qed.

Lemma keeps_cache_consume_read (n : Z) : keeps (B := B) cache_state (consume_read n).
Proof. now intros w. Qed.

Lemma keeps_cache_consume_write (n : Z) : keeps (B := B) cache_state (consume_write n).
Proof. now intros w. Qed.

End CacheFrames.

Section ThrottleFrames.
Context {B : Type}.

Lemma keeps_write_throttling_call {A} (op : B -> res A * B) :
  keeps World.write_throttling (call op).
Proof. intros w. unfold call. now destruct (op (World.backend w)). Qed.

Lemma keeps_read_throttling_call {A} (op : B -> res A * B) :
  keeps World.read_throttling (call op).
Proof. intros w. unfold call. now destruct (op (World.backend w)). Qed.

Lemma keeps_write_throttling_consume_read (n : Z) :
  keeps (B := B) World.write_throttling (consume_read n).
Proof. now intros w. Qed.

Lemma keeps_read_throttling_consume_write (n : Z) :
  keeps (B := B) World.read_throttling (consume_write n).
Proof. now intros w. Qed.

End ThrottleFrames.

Ltac keeps_frame :=
  repeat first
    [ apply keeps_ret | apply keeps_raise | apply keeps_lift
    | apply keeps_cache_call | apply keeps_cache_consume_read | apply keeps_cache_consume_write
    | apply keeps_write_throttling_call | apply keeps_write_throttling_consume_read
    | apply keeps_read_throttling_call | apply keeps_read_throttling_consume_write
    | apply keeps_bind | apply keeps_try_except | apply keeps_try_finally
    | match goal with
      | |- forall _, _ => intro
      | |- keeps _ (if ?c then _ else _) => destruct c
      | |- keeps _ (match ?x with _ => _ end) => destruct x
      | |- keeps _ (let '(_, _) := ?x in _) => destruct x
      end ].

Section CacheUntouched.
Context `{Externals} {B : Type} `{Backend B}.

Lemma check_write_keeps_cache (self : StorageBase.t) (key metadata_key : string)
    (data_expected : Py.bytes) :
  keeps cache_state (StorageBase._check_write self key metadata_key data_expected).
Proof. unfold StorageBase._check_write. keeps_frame. Qed.

Lemma cleanup_keeps_cache {A} (key metadata_key : string) (e : exn) :
  keeps cache_state (StorageBase.cleanup_and_reraise (A := A) key metadata_key e).
Proof. unfold StorageBase.cleanup_and_reraise. keeps_frame. Qed.

Lemma save_keeps_cache (self : StorageBase.t) (block : DereferencedBlock) (data : Py.bytes) :
  keeps cache_state (StorageBase.save self block data).
Proof.
  unfold StorageBase.save, StorageBase._write. keeps_frame;
    first [apply cleanup_keeps_cache | apply check_write_keeps_cache].
Qed.

Lemma plain_read_keeps_cache (self : StorageBase.t) (block : DereferencedBlock)
    (metadata_only : bool) :
  keeps cache_state (StorageBase._read self block metadata_only).
Proof. unfold StorageBase._read. keeps_frame. Qed.

Lemma rm_keeps_cache (uid : BlockUid) : keeps cache_state (StorageBase.rm uid).
Proof. unfold StorageBase.rm. keeps_frame. Qed.

Lemma rm_many_keeps_cache (uids : list BlockUid) : keeps cache_state (StorageBase.rm_many uids).
Proof. unfold StorageBase.rm_many. keeps_frame. Qed.

End CacheUntouched.

(** ** The read cache and the other methods *)

Section CacheBehaviour.
Context `{Externals} {B : Type} `{Backend B}.

Lemma read_from_cache_by_state (w w' : World B) (block : DereferencedBlock)
    (key metadata_key : string) (metadata_only : bool) :
  cache_state w' = cache_state w ->
  ReadCacheStorageBase.read_from_cache w' block key metadata_key metadata_only
  = ReadCacheStorageBase.read_from_cache w block key metadata_key metadata_only.
Proof.
  unfold cache_state. intros [= Hc Hu]. unfold ReadCacheStorageBase.read_from_cache.
  now rewrite Hc, Hu.
Qed.

Lemma read_from_cache_hit (w : World B) (block : DereferencedBlock) (key metadata_key : string)
    (metadata_only : bool) (read_cache : Cache) (metadata : Metadata) :
  World._read_cache w = Some read_cache ->
  World._use_read_cache w = true ->
  Cache.get_metadata read_cache metadata_key = Some metadata ->
  Metadata.truthy metadata = true ->
  (metadata_only = true \/ Py.truthy_bytes (Cache.get_data read_cache key) = true) ->
  ReadCacheStorageBase.read_from_cache w block key metadata_key metadata_only
  = Some (block, if metadata_only then None else Cache.get_data read_cache key, metadata).
Proof.
  intros Hcache Huse Hmeta Htruthy Hdata. unfold ReadCacheStorageBase.read_from_cache.
  rewrite Hcache, Huse, Hmeta, Htruthy.
  destruct metadata_only; [reflexivity |]. simpl.
  destruct Hdata as [Hdata | Hdata]; [discriminate |].
  now destruct (Cache.get_data read_cache key) as [[|b bs]|].
Qed.

Lemma read_of_hit (self : StorageBase.t) (block : DereferencedBlock) (metadata_only : bool)
    (w : World B) (hit : DereferencedBlock * option Py.bytes * Metadata) :
  ReadCacheStorageBase.read_from_cache w block
    (StorageBase._block_uid_to_key (DereferencedBlock.uid block))
    (StorageBase._block_uid_to_key (DereferencedBlock.uid block) +:+ StorageBase._META_SUFFIX)
    metadata_only = Some hit ->
  ReadCacheStorageBase._read self block metadata_only w = (Ok hit, w).
Proof. intros Hhit. unfold ReadCacheStorageBase._read. now rewrite Hhit. Qed.

(** No method of [StorageBase] touches the read cache, so a block that is in
    the cache is still answered from it, with the cached values, after [rm]
    or [rm_many] has removed it from the backend and after [save] has written
    other data for it. *)
Theorem cached_block_outlives_rm_and_save (self : StorageBase.t) (block : DereferencedBlock)
    (metadata_only : bool) (w : World B) (read_cache : Cache) (metadata : Metadata)
    (data : Py.bytes) (uids : list BlockUid) :
  let key := StorageBase._block_uid_to_key (DereferencedBlock.uid block) in
  let metadata_key := key +:+ StorageBase._META_SUFFIX in
  World._read_cache w = Some read_cache ->
  World._use_read_cache w = true ->
  Cache.get_metadata read_cache metadata_key = Some metadata ->
  Metadata.truthy metadata = true ->
  (metadata_only = true \/ Py.truthy_bytes (Cache.get_data read_cache key) = true) ->
  forall w',
    w' = snd (StorageBase.rm (DereferencedBlock.uid block) w)
    \/ w' = snd (StorageBase.rm_many uids w)
    \/ w' = snd (StorageBase.save self block data w) ->
    ReadCacheStorageBase._read self block metadata_only w'
    = (Ok (block, if metadata_only then None else Cache.get_data read_cache key, metadata), w').
Proof.
  intros key metadata_key Hcache Huse Hmeta Htruthy Hdata w' Hw'.
  assert (Hstate : cache_state w' = cache_state w).
  { destruct Hw' as [-> | [-> | ->]].
    - apply rm_keeps_cache.
    - apply rm_many_keeps_cache.
    - apply save_keeps_cache. }
  apply read_of_hit. fold key. fold metadata_key.
  rewrite (read_from_cache_by_state w w' _ _ _ _ Hstate).
  now apply read_from_cache_hit.
Qed.

(** Without a cache, or with reading from it switched off, [_read] returns
    what the [_read] of [StorageBase] returns, and calls the backend and the
    read token bucket as that one does. *)
Theorem read_without_cache_is_the_plain_read (self : StorageBase.t)
    (block : DereferencedBlock) (metadata_only : bool) (w : World B) :
  World._read_cache w = None \/ World._use_read_cache w = false ->
  fst (ReadCacheStorageBase._read self block metadata_only w)
  = fst (StorageBase._read self block metadata_only w)
  /\ World.backend (snd (ReadCacheStorageBase._read self block metadata_only w))
     = World.backend (snd (StorageBase._read self block metadata_only w))
  /\ World.read_throttling (snd (ReadCacheStorageBase._read self block metadata_only w))
     = World.read_throttling (snd (StorageBase._read self block metadata_only w)).
Proof.
  intros Hoff. unfold ReadCacheStorageBase._read.
  assert (Hmiss : ReadCacheStorageBase.read_from_cache w block
                    (StorageBase._block_uid_to_key (DereferencedBlock.uid block))
                    (StorageBase._block_uid_to_key (DereferencedBlock.uid block)
                     +:+ StorageBase._META_SUFFIX) metadata_only = None).
  { unfold ReadCacheStorageBase.read_from_cache.
    destruct Hoff as [-> | ->]; [reflexivity | now destruct (World._read_cache w)]. }
  rewrite Hmiss. unfold mbind, M_bind.
  destruct (StorageBase._read self block metadata_only w) as [[[[returned data] metadata]|e] w1];
    [| now repeat split].
  destruct metadata_only; now repeat split.
Qed.

(** A full read that returned a payload of at least one byte has left the
    block in the cache: the next read, full or of the metadata alone, returns
    the same values and leaves the world, the backend included, as it is. *)
Theorem second_read_is_served_from_cache (self : StorageBase.t) (block : DereferencedBlock)
    (w w1 : World B) (read_cache : Cache) (returned : DereferencedBlock)
    (b : byte) (bs : Py.bytes) (metadata : Metadata) :
  World._read_cache w = Some read_cache ->
  World._use_read_cache w = true ->
  ReadCacheStorageBase._read self block false w = (Ok (returned, Some (b :: bs), metadata), w1) ->
  ReadCacheStorageBase._read self block false w1 = (Ok (block, Some (b :: bs), metadata), w1)
  /\ ReadCacheStorageBase._read self block true w1 = (Ok (block, None, metadata), w1).
Proof.
  intros Hcache Huse Hread.
  set (key := StorageBase._block_uid_to_key (DereferencedBlock.uid block)).
  enough (Hwarm : exists read_cache',
             World._read_cache w1 = Some read_cache'
             /\ World._use_read_cache w1 = true
             /\ Cache.get_metadata read_cache' (key +:+ StorageBase._META_SUFFIX) = Some metadata
             /\ Metadata.truthy metadata = true
             /\ Cache.get_data read_cache' key = Some (b :: bs)).
  { destruct Hwarm as (c' & Hc' & Hu' & Hm' & Ht' & Hd').
    split; apply read_of_hit; fold key.
    - rewrite (read_from_cache_hit w1 block key _ false c' metadata Hc' Hu' Hm' Ht')
        by (right; now rewrite Hd').
      now rewrite Hd'.
    - now rewrite (read_from_cache_hit w1 block key _ true c' metadata Hc' Hu' Hm' Ht')
        by now left. }
  unfold ReadCacheStorageBase._read in Hread. fold key in Hread.
  destruct (ReadCacheStorageBase.read_from_cache w block key
              (key +:+ StorageBase._META_SUFFIX) false) as [hit|] eqn:Hhit.
  - injection Hread as -> <-. exists read_cache.
    unfold ReadCacheStorageBase.read_from_cache in Hhit. rewrite Hcache, Huse in Hhit.
    destruct (Cache.get_metadata read_cache (key +:+ StorageBase._META_SUFFIX)) as [m|];
      [| discriminate].
    rewrite andb_false_r in Hhit.
    destruct (Metadata.truthy m) eqn:Htruthy; [| discriminate].
    destruct (Cache.get_data read_cache key) as [[|b' bs']|]; try discriminate.
    injection Hhit as _ <- <- <-. repeat split; assumption || reflexivity.
  - apply bind_Ok_inv in Hread as ([[returned' data'] metadata'] & w2 & Hplain & Hread).
    pose proof (plain_read_keeps_cache self block false w) as Hkeeps.
    rewrite Hplain in Hkeeps. unfold cache_state in Hkeeps. simpl in Hkeeps.
    injection Hkeeps as Hc2 Hu2. rewrite Hcache in Hc2. rewrite Huse in Hu2.
    destruct (read_result_shape _ _ _ _ _ _ _ _ Hplain) as (_ & _ & _ & _ & [c Hchecksum]).
    unfold ReadCacheStorageBase.cache_set_metadata, ReadCacheStorageBase.cache_set_data,
      mbind, M_bind, mret, M_ret in Hread.
    simpl in Hread. rewrite Hc2 in Hread. simpl in Hread.
    injection Hread as <- -> <- <-.
    eexists. simpl. rewrite Hu2.
    split; [reflexivity |]. split; [reflexivity |].
    unfold Cache.get_metadata, Cache.get_data. simpl. rewrite !lookup_insert_eq.
    repeat split. unfold Metadata.truthy. rewrite Hchecksum.
    now destruct (Metadata.size metadata'), (Metadata.object_size metadata').
Qed.

End CacheBehaviour.

Lemma cached_block_outlives_rm_and_save_witness :
  ReadCacheStorageBase._read Sample.full_storage Sample.block false
    world_with_warm_cache_after_rm
  = (Ok (Sample.block, Some [x2a], unchecked_metadata), world_with_warm_cache_after_rm).
Proof.
  refine (cached_block_outlives_rm_and_save Sample.full_storage Sample.block false
            world_with_warm_cache _ unchecked_metadata [] [] eq_refl eq_refl _ eq_refl _
            world_with_warm_cache_after_rm (or_introl eq_refl)).
  - vm_compute. reflexivity.
  - right. vm_compute. reflexivity.
Defined.

Lemma read_without_cache_is_the_plain_read_witness :
  fst (ReadCacheStorageBase._read Sample.plain_storage Sample.block false world_after_save)
  = fst (StorageBase._read Sample.plain_storage Sample.block false world_after_save)
  /\ World.backend
       (snd (ReadCacheStorageBase._read Sample.plain_storage Sample.block false
               world_after_save))
     = World.backend
         (snd (StorageBase._read Sample.plain_storage Sample.block false world_after_save))
  /\ World.read_throttling
       (snd (ReadCacheStorageBase._read Sample.plain_storage Sample.block false
               world_after_save))
     = World.read_throttling
         (snd (StorageBase._read Sample.plain_storage Sample.block false world_after_save)).
Proof.
  assert (Hoff : World._read_cache world_after_save = None
                 \/ World._use_read_cache world_after_save = false)
    by (left; vm_compute; reflexivity).
  exact (read_without_cache_is_the_plain_read Sample.plain_storage Sample.block false
           world_after_save Hoff).
Defined.

Lemma second_read_is_served_from_cache_witness :
  let w1 := snd (ReadCacheStorageBase._read Sample.plain_storage Sample.block false
                   world_saved_with_cold_cache) in
  let metadata := Metadata.mk (Some 4) (Some 4) (Some "abcd") None None in
  ReadCacheStorageBase._read Sample.plain_storage Sample.block false w1
  = (Ok (Sample.block, Some (x00 :: [x01; x02; x03]), metadata), w1)
  /\ ReadCacheStorageBase._read Sample.plain_storage Sample.block true w1
     = (Ok (Sample.block, None, metadata), w1).
Proof.
  assert (Hcache : World._read_cache world_saved_with_cold_cache = Some (Cache.mk ∅ ∅))
    by (vm_compute; reflexivity).
  assert (Huse : World._use_read_cache world_saved_with_cold_cache = true)
    by (vm_compute; reflexivity).
  assert (Hread : ReadCacheStorageBase._read Sample.plain_storage Sample.block false
                    world_saved_with_cold_cache
                  = (Ok (Sample.block, Some (x00 :: [x01; x02; x03]),
                         Metadata.mk (Some 4) (Some 4) (Some "abcd") None None),
                     snd (ReadCacheStorageBase._read Sample.plain_storage Sample.block false
                            world_saved_with_cold_cache)))
    by (apply run_result; vm_compute; reflexivity).
  exact (second_read_is_served_from_cache Sample.plain_storage Sample.block
           world_saved_with_cold_cache _ _ _ _ _ _ Hcache Huse Hread).
Defined.

(** ** Removing many blocks *)

Section RmMany.
Context `{Externals} {B : Type} `{Backend B}.

Lemma keys_to_block_uids_of_keys (block_uids : list BlockUid) :
  (forall s, String.length (md5_hexdigest s) = 32%nat) ->
  Forall uid_in_range block_uids ->
  StorageBase.keys_to_block_uids (map StorageBase._block_uid_to_key block_uids) = Ok block_uids.
Proof.
  intros Hmd5 Hall. induction Hall as [|block_uid block_uids [Hl Hr] _ IH]; [reflexivity |].
  simpl. rewrite (key_to_block_uid_of_key block_uid Hmd5 Hl Hr). cbn [mbind res_mbind res_bind].
  now rewrite IH.
Qed.

(** [rm_many] returns the UIDs of the blocks whose payload the backend reports
    as not removed.  What the backend reports for the metadata objects is
    dropped. *)
Theorem rm_many_reports_failed_payloads (uids failed : list BlockUid) (w : World B)
    (metadata_errors : list string) (b1 b2 : B) :
  let keys := map StorageBase._block_uid_to_key uids in
  (forall s, String.length (md5_hexdigest s) = 32%nat) ->
  Forall uid_in_range failed ->
  _rm_many_objects keys (World.backend w)
  = (Ok (map StorageBase._block_uid_to_key failed), b1) ->
  _rm_many_objects (map (fun key => key +:+ StorageBase._META_SUFFIX) keys) b1
  = (Ok metadata_errors, b2) ->
  StorageBase.rm_many uids w = (Ok failed, World.set_backend b2 w).
Proof.
  intros keys Hmd5 Hrange Hrm1 Hrm2. unfold StorageBase.rm_many. fold keys.
  rewrite (bind_Ok _ _ w (World.set_backend b1 w) (map StorageBase._block_uid_to_key failed))
    by (unfold call; now rewrite Hrm1).
  rewrite (bind_Ok _ _ _ (World.set_backend b2 w) metadata_errors)
    by (unfold call; cbn [World.backend World.set_backend]; now rewrite Hrm2).
  unfold lift. now rewrite keys_to_block_uids_of_keys.
Qed.

End RmMany.

(** The sample block is stored, the block (3, 4) is not. *)
Lemma rm_many_reports_failed_payloads_witness :
  fst (StorageBase.rm_many [BlockUid.mk 1 2; BlockUid.mk 3 4] world_after_save)
  = Ok [BlockUid.mk 3 4].
Proof.
  pose (b1 := snd (MemoryBackend.rm_many_objects
                     (map StorageBase._block_uid_to_key [BlockUid.mk 1 2; BlockUid.mk 3 4])
                     (World.backend world_after_save))).
  pose (metadata_keys := map (fun key => key +:+ StorageBase._META_SUFFIX)
                           (map StorageBase._block_uid_to_key
                              [BlockUid.mk 1 2; BlockUid.mk 3 4])).
  pose (b2 := snd (MemoryBackend.rm_many_objects metadata_keys b1)).
  assert (Hrange : Forall uid_in_range [BlockUid.mk 3 4])
    by (repeat constructor; simpl; lia).
  assert (Hrm1 : _rm_many_objects
                   (map StorageBase._block_uid_to_key [BlockUid.mk 1 2; BlockUid.mk 3 4])
                   (World.backend world_after_save)
                 = (Ok (map StorageBase._block_uid_to_key [BlockUid.mk 3 4]), b1))
    by (vm_compute; reflexivity).
  assert (Hrm2 : _rm_many_objects metadata_keys b1
                 = (Ok [StorageBase._block_uid_to_key (BlockUid.mk 3 4)
                        +:+ StorageBase._META_SUFFIX], b2))
    by (vm_compute; reflexivity).
  now rewrite (rm_many_reports_failed_payloads (H := Sample.externals)
                 [BlockUid.mk 1 2; BlockUid.mk 3 4] [BlockUid.mk 3 4] world_after_save _ b1 b2
                 (fun s => eq_refl) Hrange Hrm1 Hrm2).
Defined.

(** ** The consistency check of a write *)

Section ConsistencyCheck.
Context `{Externals} {B : Type} `{Backend B}.

(** What [save] does once the payload is encapsulated, from the first write
    on. *)
Lemma save_after_encapsulate (self : StorageBase.t) (block : DereferencedBlock)
    (data : Py.bytes) (w : World B) (stored : Py.bytes)
    (transforms_metadata : list TransformMetadata) :
  let key := StorageBase._block_uid_to_key (DereferencedBlock.uid block) in
  let metadata_key := key +:+ StorageBase._META_SUFFIX in
  let metadata_json :=
    snd (StorageBase._build_metadata self (DereferencedBlock.size block) (Py.len stored)
           (Some transforms_metadata) (DereferencedBlock.checksum block)) in
  StorageBase._encapsulate self data = Ok (stored, transforms_metadata) ->
  StorageBase.save self block data w
  = (_ ← try_except
           (_ ← call (_write_object key stored);
            call (_write_object metadata_key metadata_json))
           (StorageBase.cleanup_and_reraise key metadata_key);
     _ ← (if StorageBase._consistency_check_writes self
          then StorageBase._check_write self key metadata_key stored
          else mret tt);
     mret tt)
      (World.set_write_throttling
         ((Py.len stored + Py.len metadata_json) :: World.write_throttling w) w).
Proof.
  intros key metadata_key metadata_json Henc. subst metadata_json.
  unfold StorageBase.save, StorageBase._write. fold key. fold metadata_key.
  unfold mbind at 1 2, M_bind at 1 2, lift. rewrite Henc. cbv beta iota.
  destruct (StorageBase._build_metadata self (DereferencedBlock.size block) (Py.len stored)
              (Some transforms_metadata) (DereferencedBlock.checksum block))
    as [metadata metadata_json].
  cbn [snd]. unfold mbind, M_bind, consume_write, mret, M_ret.
  destruct (try_except _ _ _) as [[u|e] w1]; [| reflexivity].
  now destruct (if StorageBase._consistency_check_writes self then _ else _) as [[u'|e] w2].
Qed.

(** A check that finds other bytes than were written makes [save] raise
    [InternalError], and the backend stays as the two reads of the check left
    it: what was written is not removed. *)
Theorem failed_consistency_check_leaves_the_objects (self : StorageBase.t)
    (block : DereferencedBlock) (data : Py.bytes) (w : World B)
    (stored actual metadata_json_read : Py.bytes)
    (transforms_metadata : list TransformMetadata) (metadata : Metadata) (b1 b2 b3 b4 : B) :
  let key := StorageBase._block_uid_to_key (DereferencedBlock.uid block) in
  let metadata_key := key +:+ StorageBase._META_SUFFIX in
  let metadata_json :=
    snd (StorageBase._build_metadata self (DereferencedBlock.size block) (Py.len stored)
           (Some transforms_metadata) (DereferencedBlock.checksum block)) in
  StorageBase._consistency_check_writes self = true ->
  StorageBase._encapsulate self data = Ok (stored, transforms_metadata) ->
  _write_object key stored (World.backend w) = (Ok tt, b1) ->
  _write_object metadata_key metadata_json b1 = (Ok tt, b2) ->
  _read_object key b2 = (Ok actual, b3) ->
  _read_object metadata_key b3 = (Ok metadata_json_read, b4) ->
  StorageBase._decode_metadata self metadata_json_read key (Py.len actual) = Ok metadata ->
  actual <> stored ->
  fst (StorageBase.save self block data w) = Err InternalError
  /\ World.backend (snd (StorageBase.save self block data w)) = b4.
Proof.
  intros key metadata_key metadata_json Hflag Henc Hw1 Hw2 Hr1 Hr2 Hdecode Hne.
  rewrite (save_after_encapsulate self block data w stored transforms_metadata Henc).
  fold key. fold metadata_key. fold metadata_json. rewrite Hflag.
  unfold try_except, StorageBase._check_write, call, lift, raise, mbind, M_bind, mret, M_ret.
  cbn [World.backend World.set_write_throttling World.set_backend].
  rewrite Hw1. cbn [World.backend World.set_backend]. rewrite Hw2.
  cbn [World.backend World.set_backend]. rewrite Hr1.
  cbn [World.backend World.set_backend]. rewrite Hr2, Hdecode.
  destruct (bool_decide_reflect (stored = actual)) as [Heq | _]; [congruence |].
  split; reflexivity.
Qed.

End ConsistencyCheck.

Section ConsistencyCheckLawful.
Context `{Externals} {B : Type} `{Backend B} {contract : BackendContract B}.

(** On a backend that keeps what is written to it the consistency check
    raises no false alarm: when the payload encapsulates and both writes
    return, [save] returns, with the check or without it. *)
Theorem save_returns_when_both_writes_return (self : StorageBase.t)
    (block : DereferencedBlock) (data : Py.bytes) (w : World B) (stored : Py.bytes)
    (transforms_metadata : list TransformMetadata) (b1 b2 : B) :
  let key := StorageBase._block_uid_to_key (DereferencedBlock.uid block) in
  let metadata_key := key +:+ StorageBase._META_SUFFIX in
  let metadata_json :=
    snd (StorageBase._build_metadata self (DereferencedBlock.size block) (Py.len stored)
           (Some transforms_metadata) (DereferencedBlock.checksum block)) in
  (forall m, json_loads (json_dumps m) = Some m) ->
  StorageBase._encapsulate self data = Ok (stored, transforms_metadata) ->
  _write_object key stored (World.backend w) = (Ok tt, b1) ->
  _write_object metadata_key metadata_json b1 = (Ok tt, b2) ->
  fst (StorageBase.save self block data w) = Ok tt.
Proof using Type contract.
  intros key metadata_key metadata_json Hjson Henc Hw1 Hw2.
  rewrite (save_after_encapsulate self block data w stored transforms_metadata Henc).
  fold key. fold metadata_key. fold metadata_json.
  set (w1 := World.set_write_throttling _ w).
  set (w2 := World.set_backend b2 (World.set_backend b1 w1)).
  assert (Hwrites : try_except
                      (_ ← call (_write_object key stored);
                       call (_write_object metadata_key metadata_json))
                      (StorageBase.cleanup_and_reraise key metadata_key) w1
                    = (Ok tt, w2)).
  { unfold try_except, call, mbind, M_bind.
    cbn [World.backend w1 World.set_write_throttling World.set_backend].
    rewrite Hw1. cbn [World.backend World.set_backend]. now rewrite Hw2. }
  rewrite (bind_Ok _ _ _ _ _ Hwrites).
  destruct (StorageBase._consistency_check_writes self); [| reflexivity].
  assert (Hobjects : stored_objects w2
                     = <[metadata_key := metadata_json]>
                         (<[key := stored]> (objects (World.backend w)))).
  { unfold stored_objects. cbn [w2 World.backend World.set_backend].
    rewrite (write_object_stores _ _ _ _ Hw2). now rewrite (write_object_stores _ _ _ _ Hw1). }
  assert (Hkey : stored_objects w2 !! key = Some stored).
  { rewrite Hobjects, lookup_insert_ne by apply meta_suffix_ne. apply lookup_insert_eq. }
  assert (Hmeta : stored_objects w2 !! metadata_key = Some metadata_json)
    by (rewrite Hobjects; apply lookup_insert_eq).
  unfold StorageBase._check_write.
  destruct (call_read_object key w2) as (w3 & Hr1 & Hk1 & _). rewrite Hkey in Hr1.
  destruct (call_read_object metadata_key w3) as (w4 & Hr2 & _ & _).
  rewrite Hk1, Hmeta in Hr2.
  unfold mbind, M_bind, lift, raise, mret, M_ret. rewrite Hr1, Hr2.
  subst metadata_json. rewrite decode_built_metadata by exact Hjson.
  now rewrite bool_decide_true.
Qed.

End ConsistencyCheckLawful.

(** ** The write token bucket *)

Section WriteThrottle.
Context `{Externals} {B : Type} `{Backend B}.


End WriteThrottle.

(** On the scrambling backend the check fails and both objects stay. *)
Lemma failed_consistency_check_leaves_the_objects_witness :
  let saved := StorageBase.save checking_storage Sample.block Sample.payload
                 ScramblingBackend.world in
  fst saved = Err InternalError
  /\ MemoryBackend.store (ScramblingBackend.inner (World.backend (snd saved))) !! sample_key
     = Some Sample.payload
  /\ is_Some (MemoryBackend.store (ScramblingBackend.inner (World.backend (snd saved)))
                !! sample_metadata_key).
Proof.
  pose (key := StorageBase._block_uid_to_key (DereferencedBlock.uid Sample.block)).
  pose (b1 := snd (_write_object key Sample.payload (World.backend ScramblingBackend.world))).
  pose (b2 := snd (_write_object (key +:+ StorageBase._META_SUFFIX) saved_metadata_json b1)).
  pose (b3 := snd (_read_object key b2)).
  pose (b4 := snd (_read_object (key +:+ StorageBase._META_SUFFIX) b3)).
  assert (Hw1 : _write_object key Sample.payload (World.backend ScramblingBackend.world)
                = (Ok tt, b1)) by (vm_compute; reflexivity).
  assert (Hw2 : _write_object (key +:+ StorageBase._META_SUFFIX)
                  (snd (StorageBase._build_metadata checking_storage
                          (DereferencedBlock.size Sample.block) (Py.len Sample.payload)
                          (Some []) (DereferencedBlock.checksum Sample.block))) b1
                = (Ok tt, b2)) by (vm_compute; reflexivity).
  assert (Hr1 : _read_object key b2 = (Ok (rev Sample.payload), b3))
    by (vm_compute; reflexivity).
  assert (Hr2 : _read_object (key +:+ StorageBase._META_SUFFIX) b3
                = (Ok saved_metadata_json, b4)) by (vm_compute; reflexivity).
  assert (Hdecode : StorageBase._decode_metadata checking_storage saved_metadata_json key
                      (Py.len (rev Sample.payload))
                    = Ok (Metadata.mk (Some 4) (Some 4) (Some "abcd") None None))
    by (vm_compute; reflexivity).
  assert (Hne : rev Sample.payload <> Sample.payload) by (vm_compute; discriminate).
  destruct (failed_consistency_check_leaves_the_objects checking_storage Sample.block
              Sample.payload ScramblingBackend.world Sample.payload (rev Sample.payload)
              saved_metadata_json [] _ b1 b2 b3 b4 eq_refl eq_refl Hw1 Hw2 Hr1 Hr2 Hdecode Hne)
    as [Hraised Hbackend].
  cbv zeta. rewrite Hbackend. split; [exact Hraised |].
  split; [vm_compute; reflexivity | eexists; vm_compute; reflexivity].
Defined.

(** The full sample storage, with the check, on the in-memory backend. *)
Lemma save_returns_when_both_writes_return_witness :
  fst (StorageBase.save Sample.full_storage Sample.block Sample.payload
         (MemoryBackend.world MemoryBackend.empty))
  = Ok tt.
Proof.
  pose (key := StorageBase._block_uid_to_key (DereferencedBlock.uid Sample.block)).
  pose (stored := x7e :: rev Sample.payload).
  pose (recorded := [ {| tm_name := "reverser"; tm_module := "sample.reverse";
                         tm_materials := "" |}; element_framer ]).
  pose (metadata_json :=
          snd (StorageBase._build_metadata Sample.full_storage
                 (DereferencedBlock.size Sample.block) (Py.len stored) (Some recorded)
                 (DereferencedBlock.checksum Sample.block))).
  pose (b1 := snd (MemoryBackend.write_object key stored MemoryBackend.empty)).
  pose (b2 := snd (MemoryBackend.write_object (key +:+ StorageBase._META_SUFFIX)
                     metadata_json b1)).
  assert (Henc : StorageBase._encapsulate Sample.full_storage Sample.payload
                 = Ok (stored, recorded)) by (vm_compute; reflexivity).
  assert (Hw1 : _write_object key stored
                  (World.backend (MemoryBackend.world MemoryBackend.empty))
                = (Ok tt, b1)) by (vm_compute; reflexivity).
  assert (Hw2 : _write_object (key +:+ StorageBase._META_SUFFIX) metadata_json b1
                = (Ok tt, b2)) by (vm_compute; reflexivity).
  exact (save_returns_when_both_writes_return Sample.full_storage Sample.block Sample.payload
           (MemoryBackend.world MemoryBackend.empty) stored recorded b1 b2
           sample_json_round_trip Henc Hw1 Hw2).
Defined.

(** ** Construction of [ReadCacheStorageBase] *)

Section ReadCacheInit.
Context `{Externals} `{CacheFactory}.

(** One of [readCache.directory] and [readCache.maximumSize] without the
    other is refused, before anything else of the configuration is looked at
    and before the directory is made; an empty directory name and a maximum
    size of zero count as not set. *)
Theorem read_cache_needs_directory_and_size (name : string) (storage_id : Z)
    (module_configuration : Config) (read_cache_configuration : ReadCacheConfig) :
  Py.truthy_str (ReadCacheConfig.directory read_cache_configuration)
  <> Py.truthy_int (ReadCacheConfig.maximumSize read_cache_configuration) ->
  is_ConfigurationError
    (ReadCacheStorageBase.__init__ name storage_id module_configuration
       read_cache_configuration) = true.
Proof.
  intros Hone. unfold ReadCacheStorageBase.__init__.
  destruct (Py.truthy_str _), (Py.truthy_int _); try congruence; reflexivity.
Qed.

(** A cache that cannot be constructed is not fatal: the construction gives
    what it gives when both options are left out. *)
Theorem read_cache_failure_is_not_fatal (name : string) (storage_id : Z)
    (module_configuration : Config) (directory : string) (maximum_size : Z) (e : exn) :
  directory <> "" ->
  maximum_size <> 0 ->
  makedirs directory = Ok tt ->
  new_cache directory maximum_size = Err e ->
  ReadCacheStorageBase.__init__ name storage_id module_configuration
    (ReadCacheConfig.mk (Some directory) (Some maximum_size))
  = ReadCacheStorageBase.__init__ name storage_id module_configuration
      (ReadCacheConfig.mk None None).
Proof.
  intros Hd Hn Hmake Hnew. unfold ReadCacheStorageBase.__init__.
  cbn [ReadCacheConfig.directory ReadCacheConfig.maximumSize].
  assert (Htd : Py.truthy_str (Some directory) = true) by now destruct directory.
  assert (Htn : Py.truthy_int (Some maximum_size) = true).
  { unfold Py.truthy_int. now destruct (Z.eqb_spec maximum_size 0). }
  rewrite Htd, Htn. cbn [andb orb negb]. rewrite Hmake. cbn [mbind res_mbind res_bind].
  now rewrite Hnew.
Qed.

(** What a construction that returns has made: the storage that
    [StorageBase.__init__] makes of the same configuration, with reading from
    the cache switched on, and a cache only where both options are set, the
    directory could be made and the cache constructed. *)
Theorem read_cache_storage_is_the_plain_storage (name : string) (storage_id : Z)
    (module_configuration : Config) (read_cache_configuration : ReadCacheConfig)
    (self : StorageBase.t) (read_cache : option Cache) (use_read_cache : bool) :
  ReadCacheStorageBase.__init__ name storage_id module_configuration read_cache_configuration
  = Ok (self, read_cache, use_read_cache) ->
  StorageBase.__init__ name storage_id module_configuration = Ok self
  /\ use_read_cache = true
  /\ (forall cache, read_cache = Some cache ->
        exists directory maximum_size,
          ReadCacheConfig.directory read_cache_configuration = Some directory
          /\ ReadCacheConfig.maximumSize read_cache_configuration = Some maximum_size
          /\ directory <> "" /\ maximum_size <> 0
          /\ makedirs directory = Ok tt
          /\ new_cache directory maximum_size = Ok cache).
Proof.
  unfold ReadCacheStorageBase.__init__.
  destruct read_cache_configuration as [[d|] [n|]];
    cbn [ReadCacheConfig.directory ReadCacheConfig.maximumSize].
  - destruct (Py.truthy_str (Some d)) eqn:Htd, (Py.truthy_int (Some n)) eqn:Htn;
      cbn [andb orb negb]; try discriminate.
    + destruct (makedirs d) as [[]|e'] eqn:Hmake; [| discriminate].
      cbn [mbind res_mbind res_bind].
      destruct (new_cache d n) as [c|e'] eqn:Hnew;
        (destruct (StorageBase.__init__ name storage_id module_configuration) as [s|e''];
         [| discriminate]); cbn [mbind res_mbind res_bind]; intros [= <- <- <-];
        (split; [reflexivity |]); (split; [reflexivity |]); [| discriminate].
      intros cache [= <-]. exists d, n. repeat split; try assumption.
      * intros ->. discriminate.
      * intros ->. discriminate.
    + cbn [mbind res_mbind res_bind].
      destruct (StorageBase.__init__ name storage_id module_configuration) as [s|e''];
        [| discriminate].
      cbn [mbind res_mbind res_bind]. intros [= <- <- <-]. repeat split. discriminate.
  - destruct (Py.truthy_str (Some d)); cbn [Py.truthy_int andb orb negb]; [discriminate |].
    cbn [mbind res_mbind res_bind].
    destruct (StorageBase.__init__ name storage_id module_configuration) as [s|e''];
      [| discriminate].
    cbn [mbind res_mbind res_bind]. intros [= <- <- <-]. repeat split. discriminate.
  - destruct (Py.truthy_int (Some n)); cbn [Py.truthy_str andb orb negb]; [discriminate |].
    cbn [mbind res_mbind res_bind].
    destruct (StorageBase.__init__ name storage_id module_configuration) as [s|e''];
      [| discriminate].
    cbn [mbind res_mbind res_bind]. intros [= <- <- <-]. repeat split. discriminate.
  - cbn [Py.truthy_str Py.truthy_int andb orb negb mbind res_mbind res_bind].
    destruct (StorageBase.__init__ name storage_id module_configuration) as [s|e''];
      [| discriminate].
    cbn [mbind res_mbind res_bind]. intros [= <- <- <-]. repeat split. discriminate.
Qed.

End ReadCacheInit.

(** A directory with a maximum size of zero; an empty directory name with a
    maximum size. *)
Lemma read_cache_needs_directory_and_size_witness :
  is_ConfigurationError
    (ReadCacheStorageBase.__init__ "sample" 1 Sample.config
       (ReadCacheConfig.mk (Some "/var/cache") (Some 0))) = true
  /\ is_ConfigurationError
       (ReadCacheStorageBase.__init__ "sample" 1 Sample.config
          (ReadCacheConfig.mk (Some "") (Some 1024))) = true.
Proof.
  split.
  - apply (read_cache_needs_directory_and_size "sample" 1 Sample.config
             (ReadCacheConfig.mk (Some "/var/cache") (Some 0))).
    simpl. discriminate.
  - apply (read_cache_needs_directory_and_size "sample" 1 Sample.config
             (ReadCacheConfig.mk (Some "") (Some 1024))).
    simpl. discriminate.
Defined.

(** A negative maximum size, which the sample factory refuses. *)
Lemma read_cache_failure_is_not_fatal_witness :
  ReadCacheStorageBase.__init__ "sample" 1 Sample.config
    (ReadCacheConfig.mk (Some "/var/cache") (Some (-1)))
  = ReadCacheStorageBase.__init__ "sample" 1 Sample.config (ReadCacheConfig.mk None None).
Proof.
  apply (read_cache_failure_is_not_fatal "sample" 1 Sample.config "/var/cache" (-1)
           (OtherError "cache")).
  - discriminate.
  - lia.
  - reflexivity.
  - reflexivity.
Defined.

(** The sample configuration with a cache of 1024 bytes. *)
Lemma read_cache_storage_is_the_plain_storage_witness :
  StorageBase.__init__ "sample" 1 Sample.config = Ok storage_of_sample_config
  /\ true = true
  /\ (forall cache, Some (Cache.mk ∅ ∅) = Some cache ->
        exists directory maximum_size,
          Some "/var/cache" = Some directory
          /\ Some 1024 = Some maximum_size
          /\ directory <> "" /\ maximum_size <> 0
          /\ makedirs directory = Ok tt
          /\ new_cache directory maximum_size = Ok cache).
Proof.
  assert (Hinit : ReadCacheStorageBase.__init__ "sample" 1 Sample.config
                    (ReadCacheConfig.mk (Some "/var/cache") (Some 1024))
                  = Ok (storage_of_sample_config, Some (Cache.mk ∅ ∅), true))
    by (vm_compute; reflexivity).
  exact (read_cache_storage_is_the_plain_storage "sample" 1 Sample.config
           (ReadCacheConfig.mk (Some "/var/cache") (Some 1024)) storage_of_sample_config
           (Some (Cache.mk ∅ ∅)) true Hinit).
Defined.

(** ** Listing what was saved *)

Section ListSaved.
Context `{Externals} {B : Type} `{Backend B}.

Lemma listed_payload_keys (keys : list string) (block_uids : list BlockUid) :
  (forall s, String.length (md5_hexdigest s) = 32%nat) ->
  Forall uid_in_range block_uids ->
  payload_keys keys = map StorageBase._block_uid_to_key block_uids ->
  flat_map listed keys = block_uids.
Proof.
  intros Hmd5. revert block_uids.
  induction keys as [|key keys IH]; intros block_uids Hall Hkeys; simpl in *.
  - now destruct block_uids.
  - destruct (Py.endswith key StorageBase._META_SUFFIX) eqn:Hmeta; simpl in Hkeys.
    + unfold listed at 1. rewrite Hmeta. now apply IH.
    + destruct block_uids as [|block_uid block_uids]; [discriminate |].
      injection Hkeys as -> Hkeys. inversion Hall as [|? ? [Hl Hr] Hall']; subst.
      rewrite (listed_block_uid_to_key block_uid Hmd5 Hl Hr). simpl. f_equal.
      now apply IH.
Qed.

(** When the keys that the backend lists are, the metadata keys apart, the
    keys of a number of blocks, [list_blocks] returns the UIDs of these
    blocks, each once and in the order of the listing. *)
Theorem list_blocks_returns_the_listed_blocks (block_uids : list BlockUid) (w : World B)
    (keys : list string) (b' : B) :
  (forall s, String.length (md5_hexdigest s) = 32%nat) ->
  Forall uid_in_range block_uids ->
  _list_objects StorageBase._BLOCKS_PREFIX (World.backend w) = (Ok keys, b') ->
  payload_keys keys = map StorageBase._block_uid_to_key block_uids ->
  StorageBase.list_blocks w = (Ok block_uids, World.set_backend b' w).
Proof.
  intros Hmd5 Hall Hlist Hkeys. unfold StorageBase.list_blocks.
  rewrite (bind_Ok _ _ w (World.set_backend b' w) keys) by (unfold call; now rewrite Hlist).
  unfold lift. rewrite list_blocks_loop_listed. simpl.
  now rewrite (listed_payload_keys keys block_uids).
Qed.

End ListSaved.

(** The backend after the sample block is saved lists its two keys. *)
Lemma list_blocks_returns_the_listed_blocks_witness :
  fst (StorageBase.list_blocks world_after_save) = Ok [BlockUid.mk 1 2].
Proof.
  pose (b' := snd (MemoryBackend.list_objects StorageBase._BLOCKS_PREFIX
                     (World.backend world_after_save))).
  assert (Hrange : Forall uid_in_range [BlockUid.mk 1 2])
    by (repeat constructor; simpl; lia).
  assert (Hlist : _list_objects StorageBase._BLOCKS_PREFIX (World.backend world_after_save)
                  = (Ok [sample_metadata_key; sample_key], b'))
    by (vm_compute; reflexivity).
  assert (Hkeys : payload_keys [sample_metadata_key; sample_key]
                  = map StorageBase._block_uid_to_key [BlockUid.mk 1 2])
    by (vm_compute; reflexivity).
  now rewrite (list_blocks_returns_the_listed_blocks (H := Sample.externals)
                 [BlockUid.mk 1 2] world_after_save _ b' (fun s => eq_refl) Hrange Hlist Hkeys).
Defined.

(** ** Removing a version *)

Section VersionRemoval.
Context `{Externals} `{Utf8Decoder} {B : Type} `{Backend B} {contract : BackendContract B}
        {removal : RemovalContract B}.

Lemma rm_version_run (version_uid : VersionUid) (w : World B) :
  let key := StorageBase._version_uid_to_key version_uid in
  exists w',
    StorageBase.rm_version version_uid w
    = (match stored_objects w !! key with
       | Some _ => Ok tt
       | None => Err (FileNotFoundError key)
       end, w')
    /\ stored_objects w'
       = delete (key +:+ StorageBase._META_SUFFIX) (delete key (stored_objects w)).
Proof using Type removal.
  intros key. unfold StorageBase.rm_version, try_finally. fold key.
  destruct (call_rm_object key w) as (w1 & Hr1 & Hk1 & _). rewrite Hr1.
  destruct (rm_metadata_tolerant (key +:+ StorageBase._META_SUFFIX) w1) as (w2 & Hr2 & Hk2 & _).
  rewrite Hr2. exists w2. split; [reflexivity | now rewrite Hk2, Hk1].
Qed.

(** [rm_version] raises [FileNotFoundError] exactly when the version has no
    payload in the backend, and removes the payload and the metadata object in
    either case: [read_version] of the version then raises
    [FileNotFoundError]. *)
Theorem rm_version_removes_the_version (self : StorageBase.t) (version_uid : VersionUid)
    (w : World B) :
  let key := StorageBase._version_uid_to_key version_uid in
  let after := snd (StorageBase.rm_version version_uid w) in
  fst (StorageBase.rm_version version_uid w)
  = (match stored_objects w !! key with
     | Some _ => Ok tt
     | None => Err (FileNotFoundError key)
     end)
  /\ stored_objects after !! key = None
  /\ stored_objects after !! (key +:+ StorageBase._META_SUFFIX) = None
  /\ fst (StorageBase.read_version self version_uid after) = Err (FileNotFoundError key).
Proof using Type contract removal.
  intros key after. subst after.
  destruct (rm_version_run version_uid w) as (w' & -> & Hk). fold key in Hk. simpl snd.
  assert (Hgone : stored_objects w' !! key = None).
  { rewrite Hk. rewrite lookup_delete_ne by apply meta_suffix_ne. apply lookup_delete_eq. }
  split; [reflexivity |]. split; [exact Hgone |].
  split; [rewrite Hk; apply lookup_delete_eq |].
  destruct (call_read_object key w') as (w1 & Hr1 & _). rewrite Hgone in Hr1.
  unfold StorageBase.read_version. fold key. now rewrite (bind_Err _ _ _ _ _ Hr1).
Qed.

End VersionRemoval.

(** ** The transforms of a constructed storage *)

Lemma sample_registry_names (n : string) (transform : TransformBase) :
  get_by_name n = Some transform -> TransformBase.name transform = n.
Proof.
  simpl. unfold Sample.registry.
  destruct (String.eqb_spec n "reverser") as [-> |]; [now intros [= <-] |].
  destruct (String.eqb_spec n "framer") as [-> |]; [now intros [= <-] | discriminate].
Qed.

(** The storage of the sample configuration holds the framer as it is
    registered. *)
Lemma init_transforms_registered_witness :
  get_by_name (TransformBase.name Sample.framer) = Some Sample.framer.
Proof.
  apply (init_transforms_registered "sample" 1 Sample.config storage_of_sample_config
           sample_registry_names eq_refl).
  right. left. reflexivity.
Defined.
